(** * ChatEmbeddingDB: the embedding record service, its schema contract and
      its HTTP handlers, embedded in Rocq.

    Sources embedded here:
    - [services/chatEmbeddingService.js] (both revisions found in the file:
      the current one, whose update replaces the whole document, and the
      earlier one, whose update merges fields; the earlier update lives in
      [Module FieldMerge]);
    - [middleware/validation.js] (the Joi schemas and the [validate]
      middleware);
    - [routes/chatEmbeddings.js] (the POST /, POST /batch, GET /:id,
      PUT /:id, DELETE /:id and DELETE /session/:sessionId handlers);
    - [config/astradb.js] ([validateConfig]).

    JavaScript objects are kept dynamic: a request body or a stored document
    is a list of properties, a property read of an absent key gives
    [VUndef], and the conditions of the source ([if (x.f)], [a || b]) use
    JavaScript truthiness.  A string is given by its UTF-8 bytes.  Numbers
    are rationals: the service stores, compares and returns the numbers of
    a record; its only arithmetic, the pagination block of the listing
    query, is on doubles and is a parameter ([arithmetic]). *)

From Stdlib Require Import QArith Qround ZArith Lia List String Ascii Bool.
From stdpp Require Import gmap strings list fin_maps pretty.

Local Open Scope string_scope.
Local Open Scope list_scope.

(* ================================================================== *)
(** ** JavaScript values *)
(* ================================================================== *)

Unset Elimination Schemes.
Inductive value : Type :=
| VUndef
| VNull
| VBool (b : bool)
| VNum (q : Q)
| VStr (s : string)
| VArr (items : list value)
| VObj (props : list (string * value)).
Set Elimination Schemes.

(** An object: its own properties, in insertion order. *)
Abbreviation obj := (list (string * value)).

(** Own-property lookup. *)
Fixpoint own (k : string) (o : obj) : option value :=
  match o with
  | [] => None
  | (k', v) :: o' => if String.eqb k k' then Some v else own k o'
  end.

(** [o.k]: an absent property reads as [undefined]. *)
Definition get (o : obj) (k : string) : value :=
  match own k o with Some v => v | None => VUndef end.

(** [v.k] for a value [v]; every such read in the source is guarded by the
    truthiness of [v], so [v] is never [undefined] or [null] here. *)
Definition prop (v : value) (k : string) : value :=
  match v with VObj o => get o k | _ => VUndef end.

Definition keys (o : obj) : list string := map fst o.

(** [o[k] = v]: overwrite in place, or append a new property. *)
Fixpoint obj_set (k : string) (v : value) (o : obj) : obj :=
  match o with
  | [] => [(k, v)]
  | (k', v') :: o' =>
      if String.eqb k k' then (k', v) :: o' else (k', v') :: obj_set k v o'
  end.

(** [{...o1, ...o2}]. *)
Definition spread (o1 o2 : obj) : obj :=
  fold_left (fun acc kv => obj_set (fst kv) (snd kv) acc) o2 o1.

(** JavaScript truthiness. *)
Definition truthy (v : value) : bool :=
  match v with
  | VUndef | VNull => false
  | VBool b => b
  | VNum q => negb (Qeq_bool q 0)
  | VStr s => negb (String.eqb s "")
  | VArr _ | VObj _ => true
  end.

(** [a || b]. *)
Definition js_or (a b : value) : value := if truthy a then a else b.

Definition is_undef (v : value) : bool :=
  match v with VUndef => true | _ => false end.

(** [v.length] of an array (or of a string); no other value has one. *)
Definition arr_length (v : value) : nat :=
  match v with VArr l => length l | VStr s => String.length s | _ => 0 end.

(** Structural comparison of two values (numbers by their value). *)
Fixpoint value_eqb (a b : value) : bool :=
  match a, b with
  | VUndef, VUndef => true
  | VNull, VNull => true
  | VBool x, VBool y => Bool.eqb x y
  | VNum x, VNum y => Qeq_bool x y
  | VStr x, VStr y => String.eqb x y
  | VArr xs, VArr ys =>
      (fix go (xs ys : list value) : bool :=
         match xs, ys with
         | [], [] => true
         | x :: xs', y :: ys' => value_eqb x y && go xs' ys'
         | _, _ => false
         end) xs ys
  | VObj xs, VObj ys =>
      (fix go (xs ys : list (string * value)) : bool :=
         match xs, ys with
         | [], [] => true
         | (k, x) :: xs', (k', y) :: ys' =>
             String.eqb k k' && value_eqb x y && go xs' ys'
         | _, _ => false
         end) xs ys
  | _, _ => false
  end.

(** What a thrown [Error] carries: its [message]. *)
Inductive result (A : Type) : Type :=
| Ok (a : A)
| Throw (message : string).
Arguments Ok {A} a.
Arguments Throw {A} message.

(* ================================================================== *)
(** ** The document store gateway

    The collection handle the service talks to ([this.collection]) is an
    external collaborator; what follows is its contract: documents are
    keyed by [_id], a point operation touches the one document with that
    [_id], and a filter is a conjunction of clauses over field paths.  The
    state also records which gateway operations were called, in call
    order. *)
(* ================================================================== *)

Record collection : Type := Collection {
  docs : gmap string obj;
  calls : list string
}.

(** A computation against the collection that may throw. *)
Definition M (A : Type) : Type := collection -> result A * collection.

Definition ret {A} (a : A) : M A := fun c => (Ok a, c).
Definition throw {A} (message : string) : M A := fun c => (Throw message, c).
Definition bind {A B} (m : M A) (k : A -> M B) : M B :=
  fun c =>
    match m c with
    | (Ok a, c') => k a c'
    | (Throw e, c') => (Throw e, c')
    end.
(** [try { m } catch (error) { h error.message }]. *)
Definition try_catch {A} (m : M A) (h : string -> M A) : M A :=
  fun c =>
    match m c with
    | (Ok a, c') => (Ok a, c')
    | (Throw e, c') => h e c'
    end.

Declare Scope js_scope.
Delimit Scope js_scope with js.
Notation "'let*' x ':=' m 'in' k" := (bind m (fun x => k))
  (at level 10, x name, m at level 100, k at level 200) : js_scope.
Local Open Scope js_scope.

Definition called (op : string) : M unit :=
  fun c => (Ok tt, {| docs := docs c; calls := calls c ++ [op] |}).

(** What reaches the store: JSON has no [undefined], so a property whose
    value is [undefined] is not sent. *)
Definition to_json (doc : obj) : obj :=
  List.filter (fun kv => negb (is_undef (snd kv))) doc.

Definition id_of (doc : obj) : string :=
  match get doc "_id" with VStr s => s | _ => "" end.

(** [findOne({ _id: id })]: the document, or [null]. *)
Definition findOne (id : string) : M value :=
  let* _ := called "findOne" in
  fun c => (Ok (match docs c !! id with Some d => VObj d | None => VNull end), c).

(** [insertOne(document)]: an [_id] already in use is refused. *)
Definition insertOne (document : obj) : M obj :=
  let* _ := called "insertOne" in
  fun c =>
    match docs c !! id_of document with
    | Some _ => (Throw "Document already exists with the given _id", c)
        (* the wording of the store's refusal is immaterial here *)
    | None =>
        (Ok [("insertedId", VStr (id_of document))],
         {| docs := <[id_of document := to_json document]> (docs c);
            calls := calls c |})
    end.

(** [replaceOne({ _id: id }, document)]: [matchedCount] is 0 or 1. *)
Definition replaceOne (id : string) (document : obj) : M obj :=
  let* _ := called "replaceOne" in
  fun c =>
    match docs c !! id with
    | Some _ =>
        (Ok [("matchedCount", VNum 1)],
         {| docs := <[id := to_json document]> (docs c); calls := calls c |})
    | None => (Ok [("matchedCount", VNum 0)], c)
    end.

(** [deleteOne({ _id: id })]: [deletedCount] is 0 or 1. *)
Definition deleteOne (id : string) : M obj :=
  let* _ := called "deleteOne" in
  fun c =>
    match docs c !! id with
    | Some _ =>
        (Ok [("deletedCount", VNum 1)],
         {| docs := delete id (docs c); calls := calls c |})
    | None => (Ok [("deletedCount", VNum 0)], c)
    end.

(** [findOneAndUpdate({ _id: id }, { $set: updateDoc }, { returnDocument:
    'after' })]: every property of [updateDoc] is written onto the stored
    document, the others are left as they are; [null] when no document has
    that [_id]. *)
Definition findOneAndUpdate (id : string) (updateDoc : obj) : M value :=
  let* _ := called "findOneAndUpdate" in
  fun c =>
    match docs c !! id with
    | Some d =>
        let d' := spread d (to_json updateDoc) in
        (Ok (VObj d'), {| docs := <[id := d']> (docs c); calls := calls c |})
    | None => (Ok VNull, c)
    end.

(** *** Filters

    A filter is an object of clauses [path: condition].  A condition that
    is an object of [$]-operators constrains the field with each of them;
    any other condition is an equality.  A field that the document does
    not have satisfies no clause. *)

(** The segments of a dotted path such as [emotion_context.intensity]. *)
Fixpoint split_dots (acc : string) (s : string) : list string :=
  match s with
  | EmptyString => [acc]
  | String a s' =>
      if Ascii.eqb a "."%char then acc :: split_dots "" s'
      else split_dots (acc +:+ String a EmptyString) s'
  end.

Fixpoint path_get (v : value) (segments : list string) : value :=
  match segments with
  | [] => v
  | k :: rest => path_get (prop v k) rest
  end.

Definition field_at (doc : obj) (path : string) : value :=
  path_get (VObj doc) (split_dots "" path).

Definition is_operator (k : string) : bool :=
  match k with String a _ => Ascii.eqb a "$"%char | EmptyString => false end.

(** Equality clause: the field is the value, or is an array holding it. *)
Definition eq_match (field v : value) : bool :=
  value_eqb field v
  || match field with VArr items => existsb (value_eqb v) items | _ => false end.

(** [a <= b] on two numbers or on two strings (ISO instants compare as
    strings). *)
Definition cmp_le (a b : value) : bool :=
  match a, b with
  | VNum x, VNum y => Qle_bool x y
  | VStr x, VStr y => String.leb x y
  | _, _ => false
  end.

Definition op_holds (field : value) (op : string * value) : bool :=
  let (name, arg) := op in
  if String.eqb name "$gte" then cmp_le arg field
  else if String.eqb name "$lte" then cmp_le field arg
  else if String.eqb name "$in" then
    match arg with
    | VArr wanted => existsb (fun w => eq_match field w) wanted
    | _ => false
    end
  else false.

Definition cond_holds (cond field : value) : bool :=
  match cond with
  | VObj (op :: ops) =>
      if forallb (fun o => is_operator (fst o)) (op :: ops)
      then forallb (op_holds field) (op :: ops)
      else eq_match field cond
  | _ => eq_match field cond
  end.

Definition matches (query doc : obj) : bool :=
  forallb (fun clause => cond_holds (snd clause) (field_at doc (fst clause))) query.

Definition stored (c : collection) : list obj :=
  map snd (map_to_list (docs c)).

(** [countDocuments(query)], as the service calls it: the client's
    method takes the filter and an upper bound for the count, and refuses a
    call that gives no upper bound before anything is counted. *)
Definition countDocuments (query : obj) : M Z :=
  let* _ := called "countDocuments" in
  throw "upperBound is required".

(** Ordering of two documents on one sort key. *)
Definition key_le (sort_by : string) (a b : obj) : bool :=
  match get a sort_by, get b sort_by with
  | VNum x, VNum y => Qle_bool x y
  | VStr x, VStr y => String.leb x y
  | _, _ => true
  end.

Fixpoint insert_sorted (le : obj -> obj -> bool) (d : obj) (l : list obj) : list obj :=
  match l with
  | [] => [d]
  | x :: l' => if le d x then d :: x :: l' else x :: insert_sorted le d l'
  end.

Definition sort_with (le : obj -> obj -> bool) (l : list obj) : list obj :=
  fold_right (insert_sorted le) [] l.

(** A number handed to the store as a count ([skip], [limit]). *)
Definition as_count (v : value) : nat :=
  match v with VNum q => Z.to_nat (Qfloor q) | _ => 0%nat end.

(** [cursor.limit(n)]: a limit of 0 is no limit. *)
Definition limited (n : nat) (l : list obj) : list obj :=
  match n with O => l | _ => take n l end.

(** [find(query).sort(sortObj).skip(offset).limit(limit).toArray()], with
    [sortObj = { [sort_by]: sortOrder }]. *)
Definition find_sorted (query : obj) (sortObj : obj) (offset limit : value)
    : M (list obj) :=
  let* _ := called "find" in
  fun c =>
    let le a b :=
      match sortObj with
      | (sort_by, VNum sortOrder) :: _ =>
          if Qle_bool sortOrder 0 then key_le sort_by b a else key_le sort_by a b
      | _ => true
      end in
    (Ok (limited (as_count limit)
           (drop (as_count offset)
              (sort_with le (List.filter (matches query) (stored c))))), c).

(** [find(query, { sort: { $vector: queryVector }, limit, includeSimilarity:
    true }).toArray()]: the matching documents, each annotated with its
    [$similarity] to the query vector, by descending similarity.  The score
    itself is the store's: [similarity] stands for it. *)
Definition find_ranked (similarity : value -> obj -> Q) (query : obj)
    (queryVector : value) (limit : value) : M (list obj) :=
  let* _ := called "find" in
  fun c =>
    let annotated :=
      map (fun d => obj_set "$similarity" (VNum (similarity queryVector d)) d)
          (List.filter (matches query) (stored c)) in
    let ge a b := key_le "$similarity" b a in
    (Ok (take (as_count limit) (sort_with ge annotated)), c).

(* ================================================================== *)
(** ** services/chatEmbeddingService.js (current revision)

    [uuidv4()] and each [new Date().toISOString()] are inputs of the
    operation that calls them, in the order the source evaluates them.
    [initialize] is taken as done: the collection handle is there. *)
(* ================================================================== *)

Definition empty_entities : value :=
  VObj [("people", VArr []); ("locations", VArr []); ("organizations", VArr [])].

(** The [document] that [createChatEmbedding] builds from the request. *)
Definition document (uuid now_timestamp now_created now_updated : string)
    (embeddingData : obj) : obj :=
  [ ("_id", VStr uuid);
    ("user_id", get embeddingData "user_id");
    ("entry_id", get embeddingData "entry_id");
    ("message_content", get embeddingData "message_content");
    ("message_type", get embeddingData "message_type");
    ("timestamp", VStr now_timestamp);
    ("session_id", get embeddingData "session_id");
    ("conversation_context", get embeddingData "conversation_context");
    ("$vector", get embeddingData "primary_embedding");
    ("lightweight_embedding", get embeddingData "lightweight_embedding");
    ("text_length", get embeddingData "text_length");
    ("processing_time_ms", get embeddingData "processing_time_ms");
    ("model_version", get embeddingData "model_version");
    ("semantic_tags", js_or (get embeddingData "semantic_tags") (VArr []));
    ("emotion_context", get embeddingData "emotion_context");
    ("entities_mentioned",
       js_or (get embeddingData "entities_mentioned") empty_entities);
    ("feature_vector", get embeddingData "feature_vector");
    ("temporal_features", get embeddingData "temporal_features");
    ("emotional_features", get embeddingData "emotional_features");
    ("semantic_features", get embeddingData "semantic_features");
    ("user_features", get embeddingData "user_features");
    ("feature_completeness", get embeddingData "feature_completeness");
    ("confidence_score", get embeddingData "confidence_score");
    ("temporal_context", get embeddingData "temporal_context");
    ("created_at", VStr now_created);
    ("updated_at", VStr now_updated) ].

Definition createChatEmbedding (uuid now_timestamp now_created now_updated : string)
    (embeddingData : obj) : M obj :=
  try_catch
    (let document :=
       document uuid now_timestamp now_created now_updated embeddingData in
     let* result := insertOne document in
     ret (spread (spread [("id", get document "_id")] document)
                 [("insertedId", get result "insertedId")]))
    (fun message => throw ("Failed to create chat embedding: " +:+ message)).

(** The object literal the source writes out, identically, where it maps a
    stored document back to a record (in [getChatEmbeddingById], at the end
    of [updateChatEmbedding] and for each match of
    [findSimilarChatEmbeddings]): the properties from [id] to
    [temporal_context]. *)
Definition record_fields (result : obj) : obj :=
  [ ("id", get result "_id");
    ("user_id", get result "user_id");
    ("entry_id", get result "entry_id");
    ("message_content", get result "message_content");
    ("message_type", get result "message_type");
    ("timestamp", get result "timestamp");
    ("session_id", get result "session_id");
    ("conversation_context", get result "conversation_context");
    ("primary_embedding", get result "$vector");
    ("lightweight_embedding", get result "lightweight_embedding");
    ("text_length", get result "text_length");
    ("processing_time_ms", get result "processing_time_ms");
    ("model_version", get result "model_version");
    ("semantic_tags", get result "semantic_tags");
    ("emotion_context", get result "emotion_context");
    ("entities_mentioned", get result "entities_mentioned");
    ("feature_vector", get result "feature_vector");
    ("temporal_features", get result "temporal_features");
    ("emotional_features", get result "emotional_features");
    ("semantic_features", get result "semantic_features");
    ("user_features", get result "user_features");
    ("feature_completeness", get result "feature_completeness");
    ("confidence_score", get result "confidence_score");
    ("temporal_context", get result "temporal_context") ].

Definition to_record (result : obj) : obj :=
  record_fields result
  ++ [ ("created_at", get result "created_at");
       ("updated_at", get result "updated_at") ].

Definition getChatEmbeddingById (id : string) : M obj :=
  try_catch
    (let* result := findOne id in
     match result with
     | VObj result => ret (to_record result)
     | _ => throw "Chat embedding not found"
     end)
    (fun message => throw ("Failed to get chat embedding: " +:+ message)).

(** The [replacementDocument] of [updateChatEmbedding]: completely new
    entry data, keeping the id and the creation time of the existing
    entry. *)
Definition replacementDocument (now_timestamp now_updated : string) (id : string)
    (existingEntry newEmbeddingData : obj) : obj :=
  [ ("_id", VStr id);
    ("user_id", get newEmbeddingData "user_id");
    ("entry_id", get newEmbeddingData "entry_id");
    ("message_content", get newEmbeddingData "message_content");
    ("message_type", get newEmbeddingData "message_type");
    ("timestamp", js_or (get newEmbeddingData "timestamp") (VStr now_timestamp));
    ("session_id", get newEmbeddingData "session_id");
    ("conversation_context", get newEmbeddingData "conversation_context");
    ("$vector", get newEmbeddingData "primary_embedding");
    ("lightweight_embedding", get newEmbeddingData "lightweight_embedding");
    ("text_length", get newEmbeddingData "text_length");
    ("processing_time_ms", get newEmbeddingData "processing_time_ms");
    ("model_version", get newEmbeddingData "model_version");
    ("semantic_tags", js_or (get newEmbeddingData "semantic_tags") (VArr []));
    ("emotion_context", get newEmbeddingData "emotion_context");
    ("entities_mentioned",
       js_or (get newEmbeddingData "entities_mentioned") empty_entities);
    ("feature_vector", get newEmbeddingData "feature_vector");
    ("temporal_features", get newEmbeddingData "temporal_features");
    ("emotional_features", get newEmbeddingData "emotional_features");
    ("semantic_features", get newEmbeddingData "semantic_features");
    ("user_features", get newEmbeddingData "user_features");
    ("feature_completeness", get newEmbeddingData "feature_completeness");
    ("confidence_score", get newEmbeddingData "confidence_score");
    ("temporal_context", get newEmbeddingData "temporal_context");
    ("created_at", get existingEntry "created_at");
    ("updated_at", VStr now_updated) ].

(** Update: replaces the entire entry. *)
Definition updateChatEmbedding (now_timestamp now_updated : string) (id : string)
    (newEmbeddingData : obj) : M obj :=
  try_catch
    (let* existingEntry := findOne id in
     match existingEntry with
     | VObj existingEntry =>
         let replacementDocument :=
           replacementDocument now_timestamp now_updated id existingEntry
             newEmbeddingData in
         let* result := replaceOne id replacementDocument in
         if value_eqb (get result "matchedCount") (VNum 0)
         then throw "Chat embedding not found"
         else
           let* updatedEntry := findOne id in
           match updatedEntry with
           | VObj updatedEntry => ret (to_record updatedEntry)
           | _ => throw "Cannot read properties of null (reading '_id')"
           end
     | _ => throw "Chat embedding not found"
     end)
    (fun message => throw ("Failed to update chat embedding: " +:+ message)).

Definition deleteChatEmbedding (id : string) : M obj :=
  try_catch
    (let* result := deleteOne id in
     if value_eqb (get result "deletedCount") (VNum 0)
     then throw "Chat embedding not found"
     else ret [ ("id", VStr id);
                ("deleted", VBool true);
                ("deletedCount", get result "deletedCount") ])
    (fun message => throw ("Failed to delete chat embedding: " +:+ message)).

(** [if (v) query[k] = v;] *)
Definition set_when (v : value) (k : string) (query : obj) : obj :=
  if truthy v then obj_set k v query else query.

(** [if (date_range) { query.timestamp = {}; if (date_range.start)
    query.timestamp.$gte = date_range.start; if (date_range.end)
    query.timestamp.$lte = date_range.end; }] *)
Definition set_date_range (date_range : value) (query : obj) : obj :=
  if truthy date_range then
    let timestamp : obj := [] in
    let timestamp := set_when (prop date_range "start") "$gte" timestamp in
    let timestamp := set_when (prop date_range "end") "$lte" timestamp in
    obj_set "timestamp" (VObj timestamp) query
  else query.

(** The filter [findSimilarChatEmbeddings] composes from [filters]. *)
Definition similarity_query (filters : value) : obj :=
  let query : obj := [] in
  let query := set_when (prop filters "user_id") "user_id" query in
  let query := set_when (prop filters "session_id") "session_id" query in
  let query := set_when (prop filters "message_type") "message_type" query in
  let query := set_date_range (prop filters "date_range") query in
  let query :=
    if truthy (prop filters "emotion_filter") then
      let emotion_filter := prop filters "emotion_filter" in
      let query :=
        if truthy (prop emotion_filter "dominant_emotion")
        then obj_set "emotion_context.dominant_emotion"
               (prop emotion_filter "dominant_emotion") query
        else query in
      if truthy (prop emotion_filter "min_intensity")
      then obj_set "emotion_context.intensity"
             (VObj [("$gte", prop emotion_filter "min_intensity")]) query
      else query
    else query in
  if truthy (prop filters "semantic_tags")
     && (0 <? arr_length (prop filters "semantic_tags"))%nat
  then obj_set "semantic_tags" (VObj [("$in", prop filters "semantic_tags")]) query
  else query.

(** A destructuring default: [{ k = d } = o]. *)
Definition get_or (o : obj) (k : string) (d : value) : value :=
  match get o k with VUndef => d | v => v end.

Definition findSimilarChatEmbeddings (similarity : value -> obj -> Q)
    (queryVector : value) (options : obj) : M obj :=
  try_catch
    (let limit := get_or options "limit" (VNum 10) in
     let filters := get_or options "filters" (VObj []) in
     match filters with
     | VNull => throw "Cannot read properties of null (reading 'user_id')"
     | _ =>
         let query := similarity_query filters in
         let* results := find_ranked similarity query queryVector limit in
         ret [ ("query_vector_dimensions",
                  VNum (inject_Z (Z.of_nat (arr_length queryVector))));
               ("results_count", VNum (inject_Z (Z.of_nat (length results))));
               ("max_similarity_score",
                  match results with
                  | first :: _ => get first "$similarity"
                  | [] => VNum 0
                  end);
               ("min_similarity_score",
                  match last results with
                  | Some final => get final "$similarity"
                  | None => VNum 0
                  end);
               ("results",
                  VArr (map (fun result =>
                               VObj (record_fields result
                                     ++ [ ("similarity_score", get result "$similarity");
                                          ("created_at", get result "created_at");
                                          ("updated_at", get result "updated_at") ]))
                            results)) ]
     end)
    (fun message => throw ("Failed to find similar chat embeddings: " +:+ message)).

(** JavaScript's arithmetic on values: [a + b], [a / b], [a < b],
    [Math.floor] and [Math.ceil], on IEEE doubles and with the language's
    coercions (a string operand makes [+] a concatenation).  It is taken
    as given. *)
Record arithmetic : Type := Arithmetic {
  js_add : value -> value -> value;
  js_div : value -> value -> value;
  js_lt : value -> value -> bool;
  math_floor : value -> value;
  math_ceil : value -> value
}.

(** The projection of one match in [queryChatEmbeddings]. *)
Definition to_listed (result : obj) : obj :=
  [ ("id", get result "_id");
    ("user_id", get result "user_id");
    ("entry_id", get result "entry_id");
    ("message_content", get result "message_content");
    ("message_type", get result "message_type");
    ("timestamp", get result "timestamp");
    ("session_id", get result "session_id");
    ("conversation_context", get result "conversation_context");
    ("text_length", get result "text_length");
    ("processing_time_ms", get result "processing_time_ms");
    ("model_version", get result "model_version");
    ("semantic_tags", get result "semantic_tags");
    ("emotion_context", get result "emotion_context");
    ("entities_mentioned", get result "entities_mentioned");
    ("feature_vector", get result "feature_vector");
    ("temporal_features", get result "temporal_features");
    ("emotional_features", get result "emotional_features");
    ("semantic_features", get result "semantic_features");
    ("user_features", get result "user_features");
    ("feature_completeness", get result "feature_completeness");
    ("confidence_score", get result "confidence_score");
    ("temporal_context", get result "temporal_context");
    ("created_at", get result "created_at");
    ("updated_at", get result "updated_at") ].

(** The filter [queryChatEmbeddings] composes. *)
Definition list_query (queryOptions : obj) : obj :=
  let query : obj := [] in
  let query := set_when (get queryOptions "user_id") "user_id" query in
  let query := set_when (get queryOptions "session_id") "session_id" query in
  let query := set_when (get queryOptions "message_type") "message_type" query in
  set_date_range (get queryOptions "date_range") query.

(** The [pagination] block of the answer. *)
Definition pagination (js : arithmetic) (offset limit totalCount : value) : obj :=
  [ ("total_count", totalCount);
    ("current_page", js_add js (math_floor js (js_div js offset limit)) (VNum 1));
    ("total_pages", math_ceil js (js_div js totalCount limit));
    ("has_next", VBool (js_lt js (js_add js offset limit) totalCount));
    ("has_previous", VBool (js_lt js (VNum 0) offset)) ].

(** The object the listing returns: the projection of each match, and
    the pagination block. *)
Definition listing_answer (js : arithmetic) (offset limit : value)
    (results : list obj) (totalCount : value) : obj :=
  [ ("results", VArr (map (fun result => VObj (to_listed result)) results));
    ("pagination", VObj (pagination js offset limit totalCount)) ].

Definition queryChatEmbeddings (js : arithmetic) (queryOptions : obj) : M obj :=
  try_catch
    (let limit := get_or queryOptions "limit" (VNum 20) in
     let offset := get_or queryOptions "offset" (VNum 0) in
     let sort_by := get_or queryOptions "sort_by" (VStr "timestamp") in
     let sort_order := get_or queryOptions "sort_order" (VStr "desc") in
     let query := list_query queryOptions in
     let sortOrder : Q := (if value_eqb sort_order (VStr "asc") then 1 else -1)%Q in
     let sortObj : obj :=
       [ (match sort_by with VStr k => k | _ => "" end, VNum sortOrder) ] in
     let* results := find_sorted query sortObj offset limit in
     let* totalCount := countDocuments query in
     ret (listing_answer js offset limit results (VNum (inject_Z totalCount))))
    (fun message => throw ("Failed to query chat embeddings: " +:+ message)).

(* ================================================================== *)
(** ** services/chatEmbeddingService.js (earlier revision)

    The earlier revision of the service differs in [updateChatEmbedding],
    which writes only the fields the request carries. *)
(* ================================================================== *)

Module FieldMerge.

(** [if (cond) updateDoc[k] = v;] *)
Definition put_if (cond : bool) (k : string) (v : value) (updateDoc : obj) : obj :=
  if cond then obj_set k v updateDoc else updateDoc.

(** The record the earlier revision returns: no feature groups yet. *)
Definition to_record (result : obj) : obj :=
  [ ("id", get result "_id");
    ("user_id", get result "user_id");
    ("entry_id", get result "entry_id");
    ("message_content", get result "message_content");
    ("message_type", get result "message_type");
    ("timestamp", get result "timestamp");
    ("session_id", get result "session_id");
    ("conversation_context", get result "conversation_context");
    ("primary_embedding", get result "$vector");
    ("lightweight_embedding", get result "lightweight_embedding");
    ("text_length", get result "text_length");
    ("processing_time_ms", get result "processing_time_ms");
    ("model_version", get result "model_version");
    ("semantic_tags", get result "semantic_tags");
    ("emotion_context", get result "emotion_context");
    ("entities_mentioned", get result "entities_mentioned");
    ("temporal_context", get result "temporal_context");
    ("created_at", get result "created_at");
    ("updated_at", get result "updated_at") ].

(** The sparse [updateDoc] built from the request. *)
Definition update_doc (now_updated : string) (updateData : obj) : obj :=
  let updateDoc : obj := [ ("updated_at", VStr now_updated) ] in
  let f := get updateData in
  let updateDoc := put_if (truthy (f "primary_embedding")) "$vector"
                     (f "primary_embedding") updateDoc in
  let updateDoc := put_if (truthy (f "message_content")) "message_content"
                     (f "message_content") updateDoc in
  let updateDoc := put_if (truthy (f "message_type")) "message_type"
                     (f "message_type") updateDoc in
  let updateDoc := put_if (truthy (f "conversation_context")) "conversation_context"
                     (f "conversation_context") updateDoc in
  let updateDoc := put_if (truthy (f "lightweight_embedding")) "lightweight_embedding"
                     (f "lightweight_embedding") updateDoc in
  let updateDoc := put_if (negb (is_undef (f "text_length"))) "text_length"
                     (f "text_length") updateDoc in
  let updateDoc := put_if (negb (is_undef (f "processing_time_ms"))) "processing_time_ms"
                     (f "processing_time_ms") updateDoc in
  let updateDoc := put_if (truthy (f "model_version")) "model_version"
                     (f "model_version") updateDoc in
  let updateDoc := put_if (truthy (f "semantic_tags")) "semantic_tags"
                     (f "semantic_tags") updateDoc in
  let updateDoc := put_if (truthy (f "emotion_context")) "emotion_context"
                     (f "emotion_context") updateDoc in
  let updateDoc := put_if (truthy (f "entities_mentioned")) "entities_mentioned"
                     (f "entities_mentioned") updateDoc in
  put_if (truthy (f "temporal_context")) "temporal_context"
    (f "temporal_context") updateDoc.

Definition updateChatEmbedding (now_updated : string) (id : string)
    (updateData : obj) : M obj :=
  try_catch
    (let updateDoc := update_doc now_updated updateData in
     let* result := findOneAndUpdate id updateDoc in
     match result with
     | VObj result => ret (to_record result)
     | _ => throw "Chat embedding not found"
     end)
    (fun message => throw ("Failed to update chat embedding: " +:+ message)).

End FieldMerge.

(* ================================================================== *)
(** ** middleware/validation.js

    The schemas are Joi descriptions; [validate_schema] gives the rules
    they use their meaning under the options the middleware passes
    ([abortEarly: false], [stripUnknown: true]): every violation is
    collected, an absent optional key takes its default, and a key the
    schema does not name is dropped from the validated value without
    being a violation.  Joi's [convert] option is on by default and the
    middleware leaves it on: where a number is expected a string that
    reads as a number passes, and where a boolean is expected the strings
    [true] and [false] pass, in any letter case.  The validated value holds
    the converted values; the request body is not changed. *)
(* ================================================================== *)

Inductive presence : Type := Optional | Required.

Unset Elimination Schemes.
Inductive schema : Type :=
| JString (min max : option Z) (valid : list string) (is_guid : bool)
| JNumber (integer : bool) (min max : option Q)
| JBoolean
| JArray (items : schema) (len : option nat)
| JObject (fields : list (string * key))
with key : Type :=
| Key (p : presence) (dflt : option value) (s : schema).
Set Elimination Schemes.

(** [s.required()], [s.optional()], [s.default(d)]. *)
Definition required (s : schema) : key := Key Required None s.
Definition optional (s : schema) : key := Key Optional None s.
Definition default_to (d : value) (s : schema) : key := Key Optional (Some d) s.

(** One violation: where, and which rule. *)
Record detail : Type := Detail {
  path : list string;
  code : string
}.

Definition is_integer (q : Q) : bool := (Z.rem (Qnum q) (Zpos (Qden q)) =? 0)%Z.

Definition violated (cond : bool) (p : list string) (c : string) : list detail :=
  if cond then [Detail p c] else [].

(** [Number.MAX_SAFE_INTEGER], and the numbers Joi refuses as unsafe. *)
Definition max_safe_integer : Q := inject_Z (2 ^ 53 - 1).

Definition unsafe (q : Q) : bool :=
  negb (Qle_bool q max_safe_integer) || negb (Qle_bool (- max_safe_integer) q).

(** What Joi makes of a string where a number is expected: not the text
    of a number, the text of a number that a double does not hold exactly
    as written, or the number read. *)
Inductive parsed : Type :=
| NotNumeric
| Inexact
| Parsed (q : Q).

(** [s.toLowerCase()] on the letters A to Z. *)
Definition lower_ascii (a : ascii) : ascii :=
  let n := nat_of_ascii a in
  if ((65 <=? n) && (n <=? 90))%nat then ascii_of_nat (n + 32) else a.

Fixpoint lower (s : string) : string :=
  match s with
  | EmptyString => EmptyString
  | String a s' => String (lower_ascii a) (lower s')
  end.

(** [s.length]: the number of UTF-16 units of a string that is given by
    its UTF-8 bytes.  A byte that continues a character counts for
    nothing, the first byte of a character of four bytes for two. *)
Definition utf16_units (a : ascii) : nat :=
  let n := nat_of_ascii a in
  if (n <? 128)%nat then 1%nat
  else if (n <? 192)%nat then 0%nat
  else if (n <? 240)%nat then 1%nat
  else 2%nat.

Fixpoint utf16_length (s : string) : nat :=
  match s with
  | EmptyString => 0%nat
  | String a s' => (utf16_units a + utf16_length s')%nat
  end.

Section Joi.

(** Joi's GUID rule on a string. *)
Variable guid : string -> bool.
(** Joi's reading of a string as a number ([parseFloat] and its test that
    the double read is the number written). *)
Variable numeric : string -> parsed.

Section Children.

(** The check of a child value, given the check of a schema. *)
Variable check : schema -> list string -> value -> list detail * value.

(** The items of an array, each against [items], from index [i] on. *)
Fixpoint check_items (items : schema) (p : list string) (i : nat)
    (l : list value) : list detail * list value :=
  match l with
  | [] => ([], [])
  | x :: l' =>
      let (e, x') := check items (p ++ [pretty i]) x in
      let (es, l'') := check_items items p (S i) l' in
      (e ++ es, x' :: l'')
  end.

(** The keys of an object schema against the object [o]: a required key
    must be there, an absent optional key takes its default if it has one,
    a key that is there is checked against its schema.  The validated
    object has the schema's keys only. *)
Fixpoint check_fields (o : obj) (p : list string) (fields : list (string * key))
    : list detail * obj :=
  match fields with
  | [] => ([], [])
  | (k, Key pr dflt s) :: fields' =>
      let (es, o') := check_fields o p fields' in
      match own k o with
      | None | Some VUndef =>
          match pr, dflt with
          | Required, _ => (Detail (p ++ [k]) "any.required" :: es, o')
          | Optional, Some d => (es, (k, d) :: o')
          | Optional, None => (es, o')
          end
      | Some x =>
          let (e, x') := check s (p ++ [k]) x in
          (e ++ es, (k, x') :: o')
      end
  end.

End Children.

(** The rules of a number schema on a number: an unsafe number is
    refused at once, before any rule. *)
Definition number_rules (integer : bool) (min max : option Q) (p : list string)
    (q : Q) : list detail :=
  if unsafe q then [Detail p "number.unsafe"]
  else
    violated (integer && negb (is_integer q)) p "number.integer"
    ++ violated (match min with
                 | Some m => negb (Qle_bool m q)
                 | None => false
                 end) p "number.min"
    ++ violated (match max with
                 | Some m => negb (Qle_bool q m)
                 | None => false
                 end) p "number.max".

(** The rules of a string schema on a string that is not empty. *)
Definition string_rules (min max : option Z) (is_guid : bool) (p : list string)
    (str : string) : list detail :=
  violated (is_guid && negb (guid str)) p "string.guid"
  ++ violated (match min with
               | Some n => (Z.of_nat (utf16_length str) <? n)%Z
               | None => false
               end) p "string.min"
  ++ violated (match max with
               | Some n => (n <? Z.of_nat (utf16_length str))%Z
               | None => false
               end) p "string.max".

Fixpoint validate_schema (s : schema) (p : list string) (v : value)
    : list detail * value :=
  match s with
  | JString min max valid is_guid =>
      let listed :=
        match v with VStr str => existsb (String.eqb str) valid | _ => false end in
      let only :=
        violated (match valid with [] => false | _ => negb listed end)
          p "any.only" in
      match v with
      | VStr str =>
          if listed then ([], v)
          else if String.eqb str "" then (only ++ [Detail p "string.empty"], v)
          else (only ++ string_rules min max is_guid p str, v)
      | _ => (only ++ [Detail p "string.base"], v)
      end
  | JNumber integer min max =>
      match v with
      | VNum q => (number_rules integer min max p q, v)
      | VStr str =>
          match numeric str with
          | Parsed q => (number_rules integer min max p q, VNum q)
          | Inexact => ([Detail p "number.unsafe"], v)
          | NotNumeric => ([Detail p "number.base"], v)
          end
      | _ => ([Detail p "number.base"], v)
      end
  | JBoolean =>
      match v with
      | VBool _ => ([], v)
      | VStr str =>
          if String.eqb (lower str) "true" then ([], VBool true)
          else if String.eqb (lower str) "false" then ([], VBool false)
          else ([Detail p "boolean.base"], v)
      | _ => ([Detail p "boolean.base"], v)
      end
  | JArray items len =>
      match v with
      | VArr l =>
          let checked := check_items validate_schema items p 0 l in
          (fst checked
           ++ violated (match len with
                        | Some n => negb (length l =? n)%nat
                        | None => false
                        end) p "array.length",
           VArr (snd checked))
      | _ => ([Detail p "array.base"], v)
      end
  | JObject fields =>
      match v with
      | VObj o =>
          let checked := check_fields validate_schema o p fields in
          (fst checked, VObj (snd checked))
      | _ => ([Detail p "object.base"], v)
      end
  end.

(** The request body passes the schema. *)
Definition accepts (s : schema) (body : obj) : bool :=
  match fst (validate_schema s [] (VObj body)) with [] => true | _ => false end.

End Joi.

(** *** The schemas (current revision) *)

Definition emotion_names : list string :=
  ["joy"; "sadness"; "anger"; "fear"; "surprise"; "disgust"; "anticipation"; "trust"].

Definition message_types : list string :=
  ["user_message"; "ai_response"; "system_message"].

(** [Joi.number().min(0).max(1)] *)
Definition unit_interval : schema := JNumber false (Some 0%Q) (Some 1%Q).

(** [Joi.array().items(Joi.number()).length(n)] *)
Definition vector_of (n : nat) : schema :=
  JArray (JNumber false None None) (Some n).

(** [Joi.array().items(Joi.string())] *)
Definition strings : schema := JArray (JString None None [] false) None.

Definition emotionSchema : schema :=
  JObject
    [ ("joy", default_to (VNum 0) unit_interval);
      ("sadness", default_to (VNum 0) unit_interval);
      ("anger", default_to (VNum 0) unit_interval);
      ("fear", default_to (VNum 0) unit_interval);
      ("surprise", default_to (VNum 0) unit_interval);
      ("disgust", default_to (VNum 0) unit_interval);
      ("anticipation", default_to (VNum 0) unit_interval);
      ("trust", default_to (VNum 0) unit_interval) ].

Definition emotionContextSchema : schema :=
  JObject
    [ ("dominant_emotion", required (JString None None emotion_names false));
      ("intensity", required unit_interval);
      ("emotions", required emotionSchema) ].

Definition entitiesMentionedSchema : schema :=
  JObject
    [ ("people", default_to (VArr []) strings);
      ("locations", default_to (VArr []) strings);
      ("organizations", default_to (VArr []) strings) ].

Definition temporalContextSchema : schema :=
  JObject
    [ ("hour_of_day", required (JNumber true (Some 0%Q) (Some 23%Q)));
      ("day_of_week", required (JNumber true (Some 0%Q) (Some 6%Q)));
      ("is_weekend", required JBoolean) ].

Definition chatEmbeddingSchema : schema :=
  JObject
    [ ("user_id", required (JString None None [] true));
      ("entry_id", required (JString None None [] true));
      ("message_content", required (JString (Some 1%Z) (Some 10000%Z) [] false));
      ("message_type", required (JString None None message_types false));
      ("session_id", required (JString None None [] true));
      ("conversation_context", optional (JString None (Some 2000%Z) [] false));
      ("primary_embedding", required (vector_of 768));
      ("lightweight_embedding", required (vector_of 384));
      ("text_length", required (JNumber true (Some 0%Q) None));
      ("processing_time_ms", required (JNumber false (Some 0%Q) None));
      ("model_version", required (JString None None [] false));
      ("semantic_tags", default_to (VArr []) strings);
      ("emotion_context", optional emotionContextSchema);
      ("entities_mentioned", default_to empty_entities entitiesMentionedSchema);
      ("feature_vector", required (vector_of 90));
      ("temporal_features", required (vector_of 25));
      ("emotional_features", required (vector_of 20));
      ("semantic_features", required (vector_of 30));
      ("user_features", required (vector_of 15));
      ("feature_completeness", required unit_interval);
      ("confidence_score", required unit_interval);
      ("temporal_context", required temporalContextSchema) ].

(** Update schema (partial). *)
Definition updateChatEmbeddingSchema : schema :=
  JObject
    [ ("message_content", optional (JString (Some 1%Z) (Some 10000%Z) [] false));
      ("message_type", optional (JString None None message_types false));
      ("conversation_context", optional (JString None (Some 2000%Z) [] false));
      ("primary_embedding", optional (vector_of 768));
      ("lightweight_embedding", optional (vector_of 384));
      ("text_length", optional (JNumber true (Some 0%Q) None));
      ("processing_time_ms", optional (JNumber false (Some 0%Q) None));
      ("model_version", optional (JString None None [] false));
      ("semantic_tags", optional strings);
      ("emotion_context", optional emotionContextSchema);
      ("entities_mentioned", optional entitiesMentionedSchema);
      ("feature_vector", optional (vector_of 90));
      ("temporal_features", optional (vector_of 25));
      ("emotional_features", optional (vector_of 20));
      ("semantic_features", optional (vector_of 30));
      ("user_features", optional (vector_of 15));
      ("feature_completeness", optional unit_interval);
      ("confidence_score", optional unit_interval);
      ("temporal_context", optional temporalContextSchema) ].

(* ================================================================== *)
(** ** routes/chatEmbeddings.js *)
(* ================================================================== *)

(** What a handler does with the request: it answers with a status and a
    JSON body, or hands the error to the error middleware ([next(error)]). *)
Inductive response : Type :=
| Json (status : nat) (body : obj)
| Next (message : string).

Definition handler : Type := collection -> response * collection.

Section Routes.

Variable guid : string -> bool.
Variable numeric : string -> parsed.
(** The text Joi renders for a violation ([detail.message]). *)
Variable message_of : detail -> string.

(** The [validate(schema)] middleware: only [error] is read from the
    outcome of [schema.validate]; [req.body] stays what the client sent. *)
Definition validate (s : schema) (body : obj) (next : handler) : handler :=
  match fst (validate_schema guid numeric s [] (VObj body)) with
  | [] => next
  | details =>
      let errorMessage := String.concat ", " (map message_of details) in
      fun c => (Json 400 [ ("success", VBool false);
                           ("error", VStr "Validation Error");
                           ("details", VStr errorMessage) ], c)
  end.

Definition not_found : response :=
  Json 404 [ ("success", VBool false); ("error", VStr "Chat embedding not found") ].

(** [router.post('/', validate(chatEmbeddingSchema), ...)] *)
Definition post_root (uuid now_timestamp now_created now_updated : string)
    (body : obj) : handler :=
  validate chatEmbeddingSchema body (fun c =>
    match createChatEmbedding uuid now_timestamp now_created now_updated body c with
    | (Ok chatEmbedding, c') =>
        (Json 201 [ ("success", VBool true);
                    ("data", VObj chatEmbedding);
                    ("message", VStr "Chat embedding created successfully") ], c')
    | (Throw message, c') => (Next message, c')
    end).

(** [router.get('/:id', ...)] *)
Definition get_by_id (id : string) : handler :=
  fun c =>
    match getChatEmbeddingById id c with
    | (Ok chatEmbedding, c') =>
        (Json 200 [ ("success", VBool true); ("data", VObj chatEmbedding) ], c')
    | (Throw message, c') =>
        if String.eqb message "Chat embedding not found"
        then (not_found, c')
        else (Next message, c')
    end.

(** [router.put('/:id', validate(updateChatEmbeddingSchema), ...)] *)
Definition put_by_id (now_timestamp now_updated : string) (id : string)
    (body : obj) : handler :=
  validate updateChatEmbeddingSchema body (fun c =>
    match updateChatEmbedding now_timestamp now_updated id body c with
    | (Ok chatEmbedding, c') =>
        (Json 200 [ ("success", VBool true);
                    ("data", VObj chatEmbedding);
                    ("message", VStr "Chat embedding updated successfully") ], c')
    | (Throw message, c') =>
        if String.eqb message "Chat embedding not found"
        then (not_found, c')
        else (Next message, c')
    end).

(** [router.delete('/:id', ...)] *)
Definition delete_by_id (id : string) : handler :=
  fun c =>
    match deleteChatEmbedding id c with
    | (Ok result, c') =>
        (Json 200 [ ("success", VBool true);
                    ("data", VObj result);
                    ("message", VStr "Chat embedding deleted successfully") ], c')
    | (Throw message, c') =>
        if String.eqb message "Chat embedding not found"
        then (not_found, c')
        else (Next message, c')
    end.

End Routes.

(* ================================================================== *)
(** ** The batch insert, the session cleanup and the configuration check

    The rest of the service and of the router that does not depend on how
    a query string is parsed, and the environment check of
    [config/astradb.js]. *)
(* ================================================================== *)

(** [insertMany(documents)], one document after the other: the first
    [_id] already in use is refused, and the documents before it stay
    inserted.  The outcome is the refused [_id], if any, and the
    documents of the collection. *)
Fixpoint insert_all (documents : list obj) (m : gmap string obj)
    : option string * gmap string obj :=
  match documents with
  | [] => (None, m)
  | d :: rest =>
      match m !! id_of d with
      | Some _ => (Some (id_of d), m)
      | None => insert_all rest (<[id_of d := to_json d]> m)
      end
  end.

Definition insertMany (documents : list obj) : M obj :=
  let* _ := called "insertMany" in
  fun c =>
    match insert_all documents (docs c) with
    | (None, m) =>
        (Ok [ ("insertedCount", VNum (inject_Z (Z.of_nat (length documents))));
              ("insertedIds", VArr (map (fun d => VStr (id_of d)) documents)) ],
         {| docs := m; calls := calls c |})
    | (Some _, m) =>
        (Throw "Document already exists with the given _id",
         {| docs := m; calls := calls c |})
    end.

(** What [uuidv4()] and the three [new Date().toISOString()] give for one
    item of a batch. *)
Record stamp : Type := Stamp {
  stamp_uuid : string;
  stamp_timestamp : string;
  stamp_created : string;
  stamp_updated : string
}.

(** The [documents] of [createChatEmbeddingsBatch]: the object literal of
    [createChatEmbedding], for each item in turn; [effects i] is what the
    clock and the id generator give for item [i]. *)
Definition batch_documents (effects : nat -> stamp) (embeddingsArray : list obj)
    : list obj :=
  imap (fun i embeddingData =>
          document (stamp_uuid (effects i)) (stamp_timestamp (effects i))
            (stamp_created (effects i)) (stamp_updated (effects i))
            embeddingData)
       embeddingsArray.

Definition createChatEmbeddingsBatch (effects : nat -> stamp)
    (embeddingsArray : list obj) : M obj :=
  try_catch
    (let documents := batch_documents effects embeddingsArray in
     let* result := insertMany documents in
     ret [ ("inserted_count", get result "insertedCount");
           ("inserted_ids", get result "insertedIds");
           ("documents",
              VArr (map (fun doc =>
                           VObj [ ("id", get doc "_id");
                                  ("user_id", get doc "user_id");
                                  ("entry_id", get doc "entry_id");
                                  ("message_content", get doc "message_content");
                                  ("message_type", get doc "message_type");
                                  ("timestamp", get doc "timestamp");
                                  ("session_id", get doc "session_id") ])
                        documents)) ])
    (fun message => throw ("Failed to create chat embeddings batch: " +:+ message)).

(** The object a value is, for a value that passed an object schema. *)
Definition as_obj (v : value) : obj :=
  match v with VObj o => o | _ => [] end.

(** The text of a count inside a template literal. *)
Definition count_text (v : value) : string :=
  match v with VNum q => pretty (Qfloor q) | _ => "undefined" end.

Section MoreRoutes.

Variable guid : string -> bool.
Variable numeric : string -> parsed.
Variable message_of : detail -> string.

(** What [batchSchema] reports: [embeddings] is required and is an array
    of [chatEmbeddingSchema] items, at least 1 ([array.min]) and at most 50
    ([array.max]). *)
Definition batchSchema_details (body : obj) : list detail :=
  match own "embeddings" body with
  | None | Some VUndef => [Detail ["embeddings"] "any.required"]
  | Some (VArr l) =>
      fst (check_items (validate_schema guid numeric) chatEmbeddingSchema ["embeddings"] 0 l)
      ++ violated (length l <? 1)%nat ["embeddings"] "array.min"
      ++ violated (50 <? length l)%nat ["embeddings"] "array.max"
  | Some _ => [Detail ["embeddings"] "array.base"]
  end.

(** [router.post('/batch', validate(batchSchema), ...)] *)
Definition post_batch (effects : nat -> stamp) (body : obj) : handler :=
  match batchSchema_details body with
  | [] => fun c =>
      let embeddings :=
        match get body "embeddings" with VArr l => map as_obj l | _ => [] end in
      match createChatEmbeddingsBatch effects embeddings c with
      | (Ok result, c') =>
          (Json 201 [ ("success", VBool true);
                      ("data", VObj result);
                      ("message",
                         VStr ("Successfully created "
                               +:+ count_text (get result "inserted_count")
                               +:+ " chat embeddings")) ], c')
      | (Throw message, c') => (Next message, c')
      end
  | details =>
      let errorMessage := String.concat ", " (map message_of details) in
      fun c => (Json 400 [ ("success", VBool false);
                           ("error", VStr "Validation Error");
                           ("details", VStr errorMessage) ], c)
  end.

End MoreRoutes.

(** The loop of the session cleanup: each embedding found is deleted by
    its [id]; a delete that throws is skipped and the loop goes on. *)
Fixpoint delete_each (results : list value) (deletedCount : nat) (c : collection)
    : nat * collection :=
  match results with
  | [] => (deletedCount, c)
  | embedding :: rest =>
      match deleteChatEmbedding
              (match prop embedding "id" with VStr id => id | _ => "" end) c with
      | (Ok _, c') => delete_each rest (S deletedCount) c'
      | (Throw _, c') => delete_each rest deletedCount c'
      end
  end.

(** [router.delete('/session/:sessionId', ...)] *)
Definition delete_session (js : arithmetic) (sessionId : string) : handler :=
  fun c =>
    match queryChatEmbeddings js
            [ ("session_id", VStr sessionId); ("limit", VNum 1000) ] c with
    | (Ok sessionData, c1) =>
        let results :=
          match get sessionData "results" with VArr l => l | _ => [] end in
        let (deletedCount, c2) := delete_each results 0 c1 in
        (Json 200
           [ ("success", VBool true);
             ("data",
                VObj [ ("session_id", VStr sessionId);
                       ("deleted_count", VNum (inject_Z (Z.of_nat deletedCount)));
                       ("found_count",
                          VNum (inject_Z (Z.of_nat (length results)))) ]);
             ("message",
                VStr ("Deleted " +:+ pretty deletedCount
                      +:+ " chat embeddings from session " +:+ sessionId)) ],
         c2)
    | (Throw message, c1) => (Next message, c1)
    end.

(** *** config/astradb.js: [validateConfig] *)

Definition requiredVars : list string :=
  [ "ASTRA_DB_APPLICATION_TOKEN"; "ASTRA_DB_ID"; "ASTRA_DB_REGION";
    "ASTRA_DB_KEYSPACE" ].

(** [process.env[varName]]: a string, or undefined. *)
Definition env_get (env : gmap string string) (varName : string) : value :=
  match env !! varName with Some s => VStr s | None => VUndef end.

Definition missingVars (env : gmap string string) : list string :=
  List.filter (fun varName => negb (truthy (env_get env varName))) requiredVars.

Definition validateConfig (env : gmap string string) : result unit :=
  if (0 <? length (missingVars env))%nat
  then Throw ("
❌ Missing required environment variables: "
              +:+ String.concat ", " (missingVars env) +:+ "

Please add these to your .env file:

ASTRA_DB_APPLICATION_TOKEN=your_token_here
ASTRA_DB_ID=your_database_id_here
ASTRA_DB_REGION=your_region_here
ASTRA_DB_KEYSPACE=default_keyspace

Visit https://astra.datastax.com to get these values.
      ")
  else Ok tt.

(* ================================================================== *)
(** ** Data used in the examples *)
(* ================================================================== *)

Definition is_hex (a : ascii) : bool :=
  let n := nat_of_ascii a in
  ((48 <=? n) && (n <=? 57) || (65 <=? n) && (n <=? 70)
   || (97 <=? n) && (n <=? 102))%nat.

(** [groups] of hexadecimal digits separated by hyphens. *)
Fixpoint guid_shape (groups : list nat) (s : string) : bool :=
  match groups with
  | [] => String.eqb s ""
  | O :: rest =>
      match rest, s with
      | [], EmptyString => true
      | _ :: _, String a s' => Ascii.eqb a "-"%char && guid_shape rest s'
      | _, _ => false
      end
  | S n :: rest =>
      match s with
      | String a s' => is_hex a && guid_shape (n :: rest) s'
      | EmptyString => false
      end
  end.

(** A GUID in its usual 8-4-4-4-12 form: the instance of the GUID rule the
    examples run with. *)
Definition canonical_guid (s : string) : bool :=
  guid_shape [8; 4; 4; 4; 12]%nat s.

(** The reading of number strings the examples run with: a run of decimal
    digits is the natural number it writes, when that is a safe integer. *)
Fixpoint digits_value (acc : Z) (s : string) : option Z :=
  match s with
  | EmptyString => Some acc
  | String a s' =>
      let n := nat_of_ascii a in
      if ((48 <=? n) && (n <=? 57))%nat
      then digits_value (10 * acc + Z.of_nat (n - 48)) s'
      else None
  end.

Definition decimal_digits (s : string) : parsed :=
  match s with
  | EmptyString => NotNumeric
  | _ => match digits_value 0 s with
         | Some n => if (n <=? 2 ^ 53 - 1)%Z then Parsed (inject_Z n) else Inexact
         | None => NotNumeric
         end
  end.

(** The rendering of a violation the examples run with. *)
Definition render (d : detail) : string :=
  String.concat "." (path d) +:+ " " +:+ code d.

(** [Array(n).fill(q)] *)
Definition filled (n : nat) (q : Q) : value := VArr (repeat (VNum q) n).

(** The valid embedding of the test suite, with the five feature groups the
    current schema requires; of the optional parts, [emotions] names one
    emotion and [entities_mentioned] one list. *)
Definition sampleEmbedding : obj :=
  [ ("user_id", VStr "550e8400-e29b-41d4-a716-446655440000");
    ("entry_id", VStr "550e8400-e29b-41d4-a716-446655440001");
    ("message_content", VStr "I am feeling anxious about my upcoming exam");
    ("message_type", VStr "user_message");
    ("session_id", VStr "550e8400-e29b-41d4-a716-446655440002");
    ("conversation_context", VStr "User discussing academic stress");
    ("primary_embedding", filled 768 (1 # 10));
    ("lightweight_embedding", filled 384 (2 # 10));
    ("text_length", VNum 45);
    ("processing_time_ms", VNum (1505 # 10));
    ("model_version", VStr "all-mpnet-base-v2");
    ("semantic_tags", VArr [VStr "anxiety"; VStr "education"; VStr "stress"]);
    ("emotion_context",
       VObj [ ("dominant_emotion", VStr "fear");
              ("intensity", VNum (7 # 10));
              ("emotions", VObj [ ("fear", VNum (7 # 10)) ]) ]);
    ("entities_mentioned", VObj [ ("organizations", VArr [VStr "university"]) ]);
    ("feature_vector", filled 90 0);
    ("temporal_features", filled 25 0);
    ("emotional_features", filled 20 0);
    ("semantic_features", filled 30 0);
    ("user_features", filled 15 0);
    ("feature_completeness", VNum (9 # 10));
    ("confidence_score", VNum (8 # 10));
    ("temporal_context",
       VObj [ ("hour_of_day", VNum 14);
              ("day_of_week", VNum 1);
              ("is_weekend", VBool false) ]) ].

Definition empty_collection : collection := {| docs := ∅; calls := [] |}.

(** The collection after [sampleEmbedding] was created in an empty one. *)
Definition one_record : collection :=
  snd (createChatEmbedding "7c9e6679-7425-40de-944b-e07fc1f90ae7"
         "2024-03-04T14:00:00.000Z" "2024-03-04T14:00:00.000Z"
         "2024-03-04T14:00:00.001Z" sampleEmbedding empty_collection).

(* ================================================================== *)
(** ** Vocabulary of the statements *)
(* ================================================================== *)

(** The collection [c] once the gateway operations [ops] were called on it
    and left it with the documents [m]. *)
Definition after (ops : list string) (m : gmap string obj) (c : collection)
    : collection :=
  {| docs := m; calls := calls c ++ ops |}.

(** The keys of an object schema. *)
Definition field_names (s : schema) : list string :=
  match s with JObject fields => map fst fields | _ => [] end.

(** The fields a caller supplies on creation, and the fields the service
    assigns. *)
Definition caller_fields : list string := field_names chatEmbeddingSchema.
Definition assigned_fields : list string :=
  ["id"; "timestamp"; "created_at"; "updated_at"].

(** The name under which the store keeps a field of the record. *)
Definition store_name (f : string) : string :=
  if String.eqb f "id" then "_id"
  else if String.eqb f "primary_embedding" then "$vector"
  else f.

(** The update the test suite sends. *)
Definition updateData : obj :=
  [ ("semantic_tags",
       VArr [VStr "anxiety"; VStr "education"; VStr "stress"; VStr "updated"]) ].

(** The fixed-length vector fields and their declared lengths. *)
Definition vector_dims : list (string * nat) :=
  [ ("primary_embedding", 768); ("lightweight_embedding", 384);
    ("feature_vector", 90); ("temporal_features", 25);
    ("emotional_features", 20); ("semantic_features", 30);
    ("user_features", 15) ]%nat.

(** [v] is an array of exactly [n] items. *)
Definition has_length (v : value) (n : nat) : Prop :=
  exists l, v = VArr l /\ length l = n.

(** The sample embedding with a primary embedding one number short. *)
Definition shortEmbedding : obj :=
  obj_set "primary_embedding" (filled 767 (1 # 10)) sampleEmbedding.

(** The matches of the similarity search: stored documents that satisfy
    the composed filter, each with its score. *)
Definition ranked (similarity : value -> obj -> Q) (queryVector : value)
    (options : obj) (c : collection) : list obj :=
  take (as_count (get_or options "limit" (VNum 10)))
    (sort_with (fun a b => key_le "$similarity" b a)
       (map (fun d => obj_set "$similarity" (VNum (similarity queryVector d)) d)
          (List.filter
             (matches (similarity_query (get_or options "filters" (VObj []))))
             (stored c)))).

(** One match of the similarity search, as the answer shows it. *)
Definition to_match (result : obj) : value :=
  VObj (record_fields result
        ++ [ ("similarity_score", get result "$similarity");
             ("created_at", get result "created_at");
             ("updated_at", get result "updated_at") ]).

(** The sample embedding without its optional [semantic_tags] and
    [entities_mentioned]. *)
Definition bareEmbedding : obj :=
  List.filter (fun kv => negb (String.eqb (fst kv) "semantic_tags"
                               || String.eqb (fst kv) "entities_mentioned"))
    sampleEmbedding.

(** The sample embedding with its text length written as text. *)
Definition textualEmbedding : obj :=
  obj_set "text_length" (VStr "45") sampleEmbedding.

(** The document holds every fixed-length vector, under the store's name
    for it, as an array of its declared length. *)
Definition vectors_in_place (d : obj) : bool :=
  forallb (fun kn => match get d (store_name (fst kn)) with
                     | VArr l => (length l =? snd kn)%nat
                     | _ => false
                     end)
          vector_dims.

(** The document has none of the fixed-length vectors. *)
Definition vectors_gone (d : obj) : bool :=
  forallb (fun kn => match own (store_name (fst kn)) d with
                     | None => true
                     | Some _ => false
                     end)
          vector_dims.

(** The sample embedding without its optional [emotion_context]. *)
Definition plainEmbedding : obj :=
  List.filter (fun kv => negb (String.eqb (fst kv) "emotion_context"))
    sampleEmbedding.

(** The collection after [plainEmbedding] was created next to the sample. *)
Definition two_records : collection :=
  snd (createChatEmbedding "0b0e3d4c-5f6a-4b7c-8d9e-0a1b2c3d4e5f"
         "2024-03-04T14:10:00.000Z" "2024-03-04T14:10:00.000Z"
         "2024-03-04T14:10:00.000Z" plainEmbedding one_record).

(** The search request with [min_intensity] set to [m] and nothing else. *)
Definition intensity_search (m : Q) : obj :=
  [ ("limit", VNum 10);
    ("filters", VObj [ ("emotion_filter", VObj [ ("min_intensity", VNum m) ]) ]) ].

(** Every document is stored under its own [_id]. *)
Definition keyed (c : collection) : Prop :=
  forall id d, docs c !! id = Some d -> get d "_id" = VStr id.

(** The field is the value [v], or an array that holds [v]: what an
    equality clause of a filter asks of a field. *)
Definition holds (field v : value) : Prop :=
  field = v \/ exists items, field = VArr items /\ In v items.





(** The fields the earlier revision of the update can write, and whether
    a request carries one: [text_length] and [processing_time_ms] are
    carried when they are defined, the others when they are truthy. *)
Definition merge_fields : list string :=
  [ "primary_embedding"; "message_content"; "message_type";
    "conversation_context"; "lightweight_embedding"; "text_length";
    "processing_time_ms"; "model_version"; "semantic_tags"; "emotion_context";
    "entities_mentioned"; "temporal_context" ].

Definition carried (updateData : obj) (f : string) : bool :=
  if String.eqb f "text_length" || String.eqb f "processing_time_ms"
  then negb (is_undef (get updateData f))
  else truthy (get updateData f).

(** The number and the boolean Joi reads in a value. *)
Definition number_read (numeric : string -> parsed) (v : value) : option Q :=
  match v with
  | VNum q => Some q
  | VStr s => match numeric s with Parsed q => Some q | _ => None end
  | _ => None
  end.

Definition boolean_read (v : value) : option bool :=
  match v with
  | VBool b => Some b
  | VStr s =>
      if String.eqb (lower s) "true" then Some true
      else if String.eqb (lower s) "false" then Some false
      else None
  | _ => None
  end.

(** The document item [i] of a batch becomes. *)
Definition batch_document (effects : nat -> stamp) (i : nat) (embeddingData : obj)
    : obj :=
  document (stamp_uuid (effects i)) (stamp_timestamp (effects i))
    (stamp_created (effects i)) (stamp_updated (effects i)) embeddingData.

(** The ids a batch of [n] items is given. *)
Definition batch_ids (effects : nat -> stamp) (n : nat) : list string :=
  map (fun i => stamp_uuid (effects i)) (seq 0 n).

(** The stamps the examples run with: item [i] gets the id [ids !! i]. *)
Definition stamps (ids : list string) (i : nat) : stamp :=
  Stamp (nth i ids "") "2024-03-04T14:00:00.000Z" "2024-03-04T14:00:00.000Z"
    "2024-03-04T14:00:00.001Z".

(** The environment the examples run with. *)
Definition sample_env : gmap string string :=
  <["ASTRA_DB_APPLICATION_TOKEN" := "AstraCS:token"]>
    (<["ASTRA_DB_ID" := "0b0e3d4c"]>
       (<["ASTRA_DB_REGION" := "us-east1"]>
          (<["ASTRA_DB_KEYSPACE" := "default_keyspace"]> ∅))).

(* ================================================================== *)
(** ** Facts about objects *)
(* ================================================================== *)

Lemma own_obj_set k v o k' :
  own k' (obj_set k v o) = if String.eqb k' k then Some v else own k' o.
Proof.
  induction o as [|[k0 v0] o IH]; simpl.
  - reflexivity.
  - destruct (String.eqb_spec k k0) as [->|Hk]; simpl.
    + destruct (String.eqb k' k0); reflexivity.
    + rewrite IH. destruct (String.eqb_spec k' k0) as [->|Hk'].
      * destruct (String.eqb_spec k0 k) as [->|_]; [contradiction|reflexivity].
      * reflexivity.
Qed.

Lemma get_obj_set k v o k' :
  get (obj_set k v o) k' = if String.eqb k' k then v else get o k'.
Proof.
  unfold get. rewrite own_obj_set. destruct (String.eqb k' k); reflexivity.
Qed.

Lemma own_none_iff k (o : obj) : own k o = None <-> ~ In k (keys o).
Proof.
  induction o as [|[k0 v0] o IH]; simpl.
  - tauto.
  - destruct (String.eqb_spec k k0) as [->|Hk].
    + split; [discriminate|]. intros H. exfalso. apply H. now left.
    + rewrite IH. split.
      * intros H [E|E]; [congruence|contradiction].
      * intros H E. apply H. now right.
Qed.

Lemma own_spread_absent o1 o2 k :
  own k o2 = None -> own k (spread o1 o2) = own k o1.
Proof.
  unfold spread. revert o1.
  induction o2 as [|[k0 v0] o2 IH]; intros o1 H; simpl in *.
  - reflexivity.
  - destruct (String.eqb_spec k k0) as [->|Hk]; [discriminate|].
    rewrite IH by assumption. rewrite own_obj_set.
    destruct (String.eqb_spec k k0); [contradiction|reflexivity].
Qed.

Lemma own_to_json_absent k d : own k d = None -> own k (to_json d) = None.
Proof.
  induction d as [|[k0 v0] d IH]; simpl; [reflexivity|].
  destruct (String.eqb_spec k k0) as [->|Hk]; [discriminate|].
  intros H. destruct (is_undef v0); simpl; [auto|].
  destruct (String.eqb_spec k k0); [contradiction|auto].
Qed.

(** Dropping the undefined properties changes no property read. *)
Lemma get_to_json d k : NoDup (keys d) -> get (to_json d) k = get d k.
Proof.
  induction d as [|[k0 v0] d IH]; simpl; [reflexivity|].
  intros Hnd. apply NoDup_cons in Hnd as [Hk0 Hnd].
  specialize (IH Hnd). unfold get in *.
  destruct v0; simpl;
    try (destruct (String.eqb_spec k k0) as [->|Hk]; [reflexivity|exact IH]).
  destruct (String.eqb_spec k k0) as [->|Hk]; [|exact IH].
  rewrite own_to_json_absent; [reflexivity|].
  apply own_none_iff. rewrite <- list_elem_of_In. exact Hk0.
Qed.

Lemma to_json_defined d k v : own k (to_json d) = Some v -> v <> VUndef.
Proof.
  induction d as [|[k0 v0] d IH]; simpl; [discriminate|].
  destruct v0; simpl; try (destruct (String.eqb k k0); [intros [= <-]; discriminate|exact IH]).
  exact IH.
Qed.

Lemma document_keys_nodup uuid t1 t2 t3 x : NoDup (keys (document uuid t1 t2 t3 x)).
Proof. apply (bool_decide_unpack _). vm_compute. reflexivity. Qed.

Lemma replacementDocument_keys_nodup t1 t2 id e x :
  NoDup (keys (replacementDocument t1 t2 id e x)).
Proof. apply (bool_decide_unpack _). vm_compute. reflexivity. Qed.

(* ================================================================== *)
(** ** Facts about the schema checks *)
(* ================================================================== *)

Section JoiFacts.

Variable guid : string -> bool.
Variable numeric : string -> parsed.

(** A key that is there in an accepted object passes its own schema. *)
Lemma check_fields_present o p fields k pr d s v :
  fst (check_fields (validate_schema guid numeric) o p fields) = [] ->
  In (k, Key pr d s) fields ->
  own k o = Some v -> v <> VUndef ->
  fst (validate_schema guid numeric s (p ++ [k]) v) = [].
Proof.
  induction fields as [|[k0 [pr0 d0 s0]] fields IH]; intros Hok Hin Hown Hdef.
  - destruct Hin.
  - cbn [check_fields] in Hok.
    destruct (check_fields (validate_schema guid numeric) o p fields) as [es o'].
    assert (Hes : es = [] /\
                  (forall x, own k0 o = Some x -> x <> VUndef ->
                             fst (validate_schema guid numeric s0 (p ++ [k0]) x) = [])).
    { destruct (own k0 o) as [x|].
      - destruct (validate_schema guid numeric s0 (p ++ [k0]) x) as [e x'] eqn:Ev.
        destruct x; try (simpl in Hok; apply app_eq_nil in Hok as [-> ->];
                         split; [reflexivity|]; intros ? [= <-] _; rewrite Ev;
                         reflexivity).
        destruct pr0, d0; simpl in Hok; try discriminate; subst;
          (split; [reflexivity|]; intros ? [= <-] Hx; contradiction).
      - destruct pr0, d0; simpl in Hok; try discriminate; subst;
          (split; [reflexivity|]; intros ? [=]). }
    destruct Hes as [-> Hhead].
    destruct Hin as [[= -> -> -> ->]|Hin].
    + apply Hhead; assumption.
    + apply IH; auto.
Qed.

(** A required key of an accepted object is there. *)
Lemma check_fields_required o p fields k d s :
  fst (check_fields (validate_schema guid numeric) o p fields) = [] ->
  In (k, Key Required d s) fields ->
  exists v, own k o = Some v /\ v <> VUndef.
Proof.
  induction fields as [|[k0 [pr0 d0 s0]] fields IH]; intros Hok Hin.
  - destruct Hin.
  - cbn [check_fields] in Hok.
    destruct (check_fields (validate_schema guid numeric) o p fields) as [es o'].
    destruct Hin as [[= -> -> -> ->]|Hin].
    + destruct (own k o) as [x|]; [|discriminate].
      exists x. split; [reflexivity|]. intros ->. discriminate.
    + apply IH; [|assumption].
      destruct (own k0 o) as [x|].
      * destruct (validate_schema guid numeric s0 (p ++ [k0]) x) as [e x'].
        destruct x; try (simpl in Hok; apply app_eq_nil in Hok as [_ ->];
                         reflexivity).
        destruct pr0, d0; simpl in Hok; try discriminate; assumption.
      * destruct pr0, d0; simpl in Hok; try discriminate; assumption.
Qed.

(** What passes an array schema is an array, of the declared length when
    one is declared. *)
Lemma array_passes items len p v :
  fst (validate_schema guid numeric (JArray items len) p v) = [] ->
  exists l, v = VArr l /\ forall n, len = Some n -> length l = n.
Proof.
  destruct v; simpl; try discriminate.
  intros H. apply app_eq_nil in H as [_ H].
  exists items0. split; [reflexivity|]. intros n ->. simpl in H.
  destruct (Nat.eqb_spec (length items0) n); [assumption|discriminate].
Qed.

Lemma object_passes fields p v :
  fst (validate_schema guid numeric (JObject fields) p v) = [] -> exists o, v = VObj o.
Proof. destruct v; simpl; try discriminate. eauto. Qed.

(** The reading of [accepts] on an object schema. *)
Lemma accepts_fields fields body :
  accepts guid numeric (JObject fields) body = true ->
  fst (check_fields (validate_schema guid numeric) body [] fields) = [].
Proof.
  unfold accepts. cbn [validate_schema fst].
  destruct (fst (check_fields (validate_schema guid numeric) body [] fields));
    [reflexivity|discriminate].
Qed.

End JoiFacts.

(* ================================================================== *)
(** ** How the point operations run *)
(* ================================================================== *)

(** Runs the gateway steps of an operation, leaving documents folded. *)
Ltac run_gateway :=
  unfold findOne, insertOne, replaceOne, deleteOne, findOneAndUpdate;
  unfold try_catch, bind, called, ret, throw;
  cbn beta iota zeta delta [docs calls fst snd].

Lemma getChatEmbeddingById_found id c d :
  docs c !! id = Some d ->
  getChatEmbeddingById id c = (Ok (to_record d), after ["findOne"] (docs c) c).
Proof.
  intros H. unfold getChatEmbeddingById. run_gateway. rewrite H. reflexivity.
Qed.

Lemma getChatEmbeddingById_missing id c :
  docs c !! id = None ->
  getChatEmbeddingById id c
  = (Throw "Failed to get chat embedding: Chat embedding not found",
     after ["findOne"] (docs c) c).
Proof.
  intros H. unfold getChatEmbeddingById. run_gateway. rewrite H. reflexivity.
Qed.

Lemma createChatEmbedding_fresh uuid t1 t2 t3 x c :
  docs c !! uuid = None ->
  createChatEmbedding uuid t1 t2 t3 x c
  = (Ok (spread (spread [("id", VStr uuid)] (document uuid t1 t2 t3 x))
                [("insertedId", VStr uuid)]),
     after ["insertOne"]
       (<[uuid := to_json (document uuid t1 t2 t3 x)]> (docs c)) c).
Proof.
  intros H. unfold createChatEmbedding. run_gateway.
  change (id_of (document uuid t1 t2 t3 x)) with uuid.
  rewrite H. reflexivity.
Qed.

Lemma updateChatEmbedding_found t4 t5 id x c e :
  docs c !! id = Some e ->
  updateChatEmbedding t4 t5 id x c
  = (Ok (to_record (to_json (replacementDocument t4 t5 id e x))),
     after ["findOne"; "replaceOne"; "findOne"]
       (<[id := to_json (replacementDocument t4 t5 id e x)]> (docs c)) c).
Proof.
  intros H. unfold updateChatEmbedding. run_gateway. rewrite H.
  cbn beta iota zeta delta [docs calls fst snd]. rewrite H.
  change (value_eqb (get [("matchedCount", VNum 1)] "matchedCount") (VNum 0))
    with false.
  cbn beta iota zeta delta [docs calls fst snd]. rewrite lookup_insert_eq.
  unfold after. rewrite <- !app_assoc. reflexivity.
Qed.

Lemma updateChatEmbedding_missing t4 t5 id x c :
  docs c !! id = None ->
  updateChatEmbedding t4 t5 id x c
  = (Throw "Failed to update chat embedding: Chat embedding not found",
     after ["findOne"] (docs c) c).
Proof.
  intros H. unfold updateChatEmbedding. run_gateway. rewrite H. reflexivity.
Qed.

Lemma deleteChatEmbedding_missing id c :
  docs c !! id = None ->
  deleteChatEmbedding id c
  = (Throw "Failed to delete chat embedding: Chat embedding not found",
     after ["deleteOne"] (docs c) c).
Proof.
  intros H. unfold deleteChatEmbedding. run_gateway. rewrite H. reflexivity.
Qed.

Lemma merge_update_missing t id x c :
  docs c !! id = None ->
  FieldMerge.updateChatEmbedding t id x c
  = (Throw "Failed to update chat embedding: Chat embedding not found",
     after ["findOneAndUpdate"] (docs c) c).
Proof.
  intros H. unfold FieldMerge.updateChatEmbedding. run_gateway.
  rewrite H. reflexivity.
Qed.

Lemma merge_update_found t id x c d :
  docs c !! id = Some d ->
  FieldMerge.updateChatEmbedding t id x c
  = (Ok (FieldMerge.to_record (spread d (to_json (FieldMerge.update_doc t x)))),
     after ["findOneAndUpdate"]
       (<[id := spread d (to_json (FieldMerge.update_doc t x))]> (docs c)) c).
Proof.
  intros H. unfold FieldMerge.updateChatEmbedding. run_gateway.
  rewrite H. reflexivity.
Qed.

(* ================================================================== *)
(** ** Records read back from the store *)
(* ================================================================== *)

Lemma to_record_get d f :
  In f (keys (to_record [])) -> get (to_record d) f = get d (store_name f).
Proof.
  intros Hf. simpl in Hf.
  repeat (destruct Hf as [<-|Hf]; [reflexivity|]). destruct Hf.
Qed.

Lemma to_record_other d f :
  ~ In f (keys (to_record [])) -> get (to_record d) f = VUndef.
Proof.
  intros Hf. unfold get.
  replace (own f (to_record d)) with (@None value); [reflexivity|].
  symmetry. apply own_none_iff. exact Hf.
Qed.

Lemma get_supplied (x : obj) k :
  get x k <> VUndef -> exists v, own k x = Some v /\ v <> VUndef /\ get x k = v.
Proof.
  unfold get. destruct (own k x) as [v|]; [|congruence].
  intros H. exists v. auto.
Qed.

(** The service-side defaults: a body without [semantic_tags] is stored
    with the empty list, one without [entities_mentioned] with three empty
    lists. *)
Lemma service_side_defaults uuid t1 t2 t3 x :
  (get x "semantic_tags" = VUndef ->
   get (document uuid t1 t2 t3 x) "semantic_tags" = VArr [])
  /\ (get x "entities_mentioned" = VUndef ->
      get (document uuid t1 t2 t3 x) "entities_mentioned" = empty_entities).
Proof.
  split; intros H;
    [change (js_or (get x "semantic_tags") (VArr []) = VArr [])
    |change (js_or (get x "entities_mentioned") empty_entities = empty_entities)];
    rewrite H; reflexivity.
Qed.

Section Roundtrip.

Variable guid : string -> bool.
Variable numeric : string -> parsed.

(** An accepted body that carries [semantic_tags] carries an array, and one
    that carries [entities_mentioned] carries an object: both are truthy, so
    the service-side [||] keeps them. *)
Lemma accepted_tags_kept x :
  accepts guid numeric chatEmbeddingSchema x = true ->
  get x "semantic_tags" <> VUndef ->
  js_or (get x "semantic_tags") (VArr []) = get x "semantic_tags".
Proof.
  intros Hacc Hsup. apply get_supplied in Hsup as (v & Hown & Hdef & ->).
  apply accepts_fields in Hacc.
  eapply check_fields_present in Hacc;
    [|right; right; right; right; right; right; right; right; right; right;
      right; left; reflexivity|exact Hown|exact Hdef].
  apply array_passes in Hacc as (l & -> & _). reflexivity.
Qed.

Lemma accepted_entities_kept x :
  accepts guid numeric chatEmbeddingSchema x = true ->
  get x "entities_mentioned" <> VUndef ->
  js_or (get x "entities_mentioned") empty_entities = get x "entities_mentioned".
Proof.
  intros Hacc Hsup. apply get_supplied in Hsup as (v & Hown & Hdef & ->).
  apply accepts_fields in Hacc.
  eapply check_fields_present in Hacc;
    [|right; right; right; right; right; right; right; right; right; right;
      right; right; right; left; reflexivity|exact Hown|exact Hdef].
  apply object_passes in Hacc as (o & ->). reflexivity.
Qed.

(** C2.  For every body the creation schema accepts, create succeeds (the
    generated id being unused) and getById on the id it returned succeeds
    with a record that has the caller's fields and the four assigned ones
    and nothing else, that carries the assigned id and the three clock
    readings of the creation, and that equals the body on every field of
    the contract, but for [semantic_tags] and [entities_mentioned] where
    the body leaves them out: these come back as the empty list and as
    three empty lists. *)
Theorem create_then_get_by_id uuid t1 t2 t3 x c :
  accepts guid numeric chatEmbeddingSchema x = true ->
  docs c !! uuid = None ->
  exists created c1 fetched c2,
    createChatEmbedding uuid t1 t2 t3 x c = (Ok created, c1)
    /\ get created "id" = VStr uuid
    /\ getChatEmbeddingById uuid c1 = (Ok fetched, c2)
    /\ (forall f, In f (keys fetched) ->
                  In f caller_fields \/ In f assigned_fields)
    /\ get fetched "id" = VStr uuid
    /\ get fetched "timestamp" = VStr t1
    /\ get fetched "created_at" = VStr t2
    /\ get fetched "updated_at" = VStr t3
    /\ (forall f, In f caller_fields ->
                  (f = "semantic_tags" \/ f = "entities_mentioned" ->
                   get x f <> VUndef) ->
                  get fetched f = get x f)
    /\ (get x "semantic_tags" = VUndef ->
        get fetched "semantic_tags" = VArr [])
    /\ (get x "entities_mentioned" = VUndef ->
        get fetched "entities_mentioned" = empty_entities).
Proof.
  intros Hacc Hfresh.
  pose proof (document_keys_nodup uuid t1 t2 t3 x) as Hnd.
  eexists _, _, _, _.
  split; [apply createChatEmbedding_fresh; exact Hfresh|].
  split; [reflexivity|].
  split; [apply getChatEmbeddingById_found; apply lookup_insert_eq|].
  split.
  { intros f Hf. simpl in Hf.
    repeat (destruct Hf as [<-|Hf]; [vm_compute; tauto|]). destruct Hf. }
  assert (Hget : forall f, In f (keys (to_record [])) ->
            get (to_record (to_json (document uuid t1 t2 t3 x))) f
            = get (document uuid t1 t2 t3 x) (store_name f)).
  { intros f Hf. rewrite to_record_get by exact Hf. apply get_to_json, Hnd. }
  split; [rewrite Hget by (vm_compute; tauto); reflexivity|].
  split; [rewrite Hget by (vm_compute; tauto); reflexivity|].
  split; [rewrite Hget by (vm_compute; tauto); reflexivity|].
  split; [rewrite Hget by (vm_compute; tauto); reflexivity|].
  split; [|split].
  - intros f Hf Hsup.
    assert (Hin : In f (keys (to_record []))).
    { clear -Hf. vm_compute in Hf. vm_compute. tauto. }
    rewrite Hget by exact Hin. clear Hin Hget.
    vm_compute in Hf.
    repeat (destruct Hf as [<-|Hf];
            [first [ reflexivity
                   | apply accepted_tags_kept;
                     [assumption|apply Hsup; left; reflexivity]
                   | apply accepted_entities_kept;
                     [assumption|apply Hsup; right; reflexivity] ]|]).
    destruct Hf.
  - intros Hx. rewrite Hget by (vm_compute; tauto).
    exact (proj1 (service_side_defaults uuid t1 t2 t3 x) Hx).
  - intros Hx. rewrite Hget by (vm_compute; tauto).
    exact (proj2 (service_side_defaults uuid t1 t2 t3 x) Hx).
Qed.

End Roundtrip.

Lemma create_then_get_by_id_witness :
  accepts canonical_guid decimal_digits chatEmbeddingSchema sampleEmbedding = true
  /\ exists created c1 fetched c2,
       createChatEmbedding "7c9e6679-7425-40de-944b-e07fc1f90ae7"
         "2024-03-04T14:00:00.000Z" "2024-03-04T14:00:00.000Z"
         "2024-03-04T14:00:00.001Z" sampleEmbedding empty_collection
       = (Ok created, c1)
       /\ get created "id" = VStr "7c9e6679-7425-40de-944b-e07fc1f90ae7"
       /\ getChatEmbeddingById "7c9e6679-7425-40de-944b-e07fc1f90ae7" c1
          = (Ok fetched, c2)
       /\ (forall f, In f (keys fetched) ->
                     In f caller_fields \/ In f assigned_fields)
       /\ get fetched "id" = VStr "7c9e6679-7425-40de-944b-e07fc1f90ae7"
       /\ get fetched "timestamp" = VStr "2024-03-04T14:00:00.000Z"
       /\ get fetched "created_at" = VStr "2024-03-04T14:00:00.000Z"
       /\ get fetched "updated_at" = VStr "2024-03-04T14:00:00.001Z"
       /\ (forall f, In f caller_fields ->
                     (f = "semantic_tags" \/ f = "entities_mentioned" ->
                      get sampleEmbedding f <> VUndef) ->
                     get fetched f = get sampleEmbedding f)
       /\ (get sampleEmbedding "semantic_tags" = VUndef ->
           get fetched "semantic_tags" = VArr [])
       /\ (get sampleEmbedding "entities_mentioned" = VUndef ->
           get fetched "entities_mentioned" = empty_entities).
Proof.
  split; [vm_compute; reflexivity|].
  apply (create_then_get_by_id canonical_guid decimal_digits); [vm_compute; reflexivity|].
  apply lookup_empty.
Defined.

(** A body without [semantic_tags] and [entities_mentioned] passes the
    creation schema, and the record getById returns for it differs from it
    in those two fields of the contract, which are none of the four the
    service assigns: they hold the empty list and three empty lists. *)
Lemma create_then_get_adds_defaults :
  let id := "7c9e6679-7425-40de-944b-e07fc1f90ae7" in
  accepts canonical_guid decimal_digits chatEmbeddingSchema bareEmbedding = true
  /\ exists created c1 fetched c2,
       createChatEmbedding id "2024-03-04T14:00:00.000Z"
         "2024-03-04T14:00:00.000Z" "2024-03-04T14:00:00.001Z"
         bareEmbedding empty_collection = (Ok created, c1)
       /\ getChatEmbeddingById id c1 = (Ok fetched, c2)
       /\ In "semantic_tags" caller_fields
       /\ ~ In "semantic_tags" assigned_fields
       /\ get bareEmbedding "semantic_tags" = VUndef
       /\ get fetched "semantic_tags" = VArr []
       /\ In "entities_mentioned" caller_fields
       /\ ~ In "entities_mentioned" assigned_fields
       /\ get bareEmbedding "entities_mentioned" = VUndef
       /\ get fetched "entities_mentioned" = empty_entities
       /\ ~ (forall f, In f caller_fields -> ~ In f assigned_fields ->
                       get fetched f = get bareEmbedding f).
Proof.
  intros id. split; [vm_compute; reflexivity|].
  eexists _, _, _, _.
  split; [apply createChatEmbedding_fresh; apply lookup_empty|].
  split; [apply getChatEmbeddingById_found; apply lookup_insert_eq|].
  assert (Hcaller : In "semantic_tags" caller_fields)
    by (vm_compute; tauto).
  assert (Hassigned : ~ In "semantic_tags" assigned_fields).
  { intros [H|[H|[H|[H|[]]]]]; discriminate H. }
  assert (Htags : get (to_record
                         (to_json (document id "2024-03-04T14:00:00.000Z"
                                     "2024-03-04T14:00:00.000Z"
                                     "2024-03-04T14:00:00.001Z" bareEmbedding)))
                    "semantic_tags" = VArr [])
    by (vm_compute; reflexivity).
  split; [exact Hcaller|]. split; [exact Hassigned|].
  split; [vm_compute; reflexivity|]. split; [exact Htags|].
  split; [vm_compute; tauto|].
  split; [intros [H|[H|[H|[H|[]]]]]; discriminate H|].
  split; [vm_compute; reflexivity|]. split; [vm_compute; reflexivity|].
  intros Hall. specialize (Hall "semantic_tags" Hcaller Hassigned).
  rewrite Htags in Hall. vm_compute in Hall. discriminate Hall.
Qed.

(* ================================================================== *)
(** ** An identifier that matches no document *)
(* ================================================================== *)

Section MissingId.

Variable guid : string -> bool.
Variable numeric : string -> parsed.
Variable message_of : detail -> string.

(** The service wraps its own "not found" error before it leaves the
    operation, so the handler's comparison with the bare text fails and the
    error goes to the error middleware. *)
Lemma get_by_id_missing id c :
  docs c !! id = None ->
  get_by_id id c
  = (Next "Failed to get chat embedding: Chat embedding not found",
     after ["findOne"] (docs c) c).
Proof.
  intros H. unfold get_by_id. rewrite getChatEmbeddingById_missing by exact H.
  reflexivity.
Qed.

Lemma delete_by_id_missing id c :
  docs c !! id = None ->
  delete_by_id id c
  = (Next "Failed to delete chat embedding: Chat embedding not found",
     after ["deleteOne"] (docs c) c).
Proof.
  intros H. unfold delete_by_id. rewrite deleteChatEmbedding_missing by exact H.
  reflexivity.
Qed.

Lemma put_by_id_missing t4 t5 id body c :
  accepts guid numeric updateChatEmbeddingSchema body = true ->
  docs c !! id = None ->
  put_by_id guid numeric message_of t4 t5 id body c
  = (Next "Failed to update chat embedding: Chat embedding not found",
     after ["findOne"] (docs c) c).
Proof.
  intros Hacc H. unfold put_by_id, validate. unfold accepts in Hacc.
  destruct (fst (validate_schema guid numeric updateChatEmbeddingSchema [] (VObj body)));
    [|discriminate].
  rewrite updateChatEmbedding_missing by exact H. reflexivity.
Qed.

End MissingId.

(** C3.  On the identifier the test suite uses as a non-existent one, the
    GET, PUT and DELETE handlers do not answer 404: each hands
    [Failed to ...: Chat embedding not found] to the error middleware.  The
    stored documents are left as they were. *)
Theorem missing_id_is_not_answered_404 :
  let id := "550e8400-e29b-41d4-a716-999999999999" in
  let put := put_by_id canonical_guid decimal_digits render "2024-03-04T15:00:00.000Z"
               "2024-03-04T15:00:00.000Z" id updateData one_record in
  docs one_record !! id = None
  /\ fst (get_by_id id one_record)
     = Next "Failed to get chat embedding: Chat embedding not found"
  /\ fst put = Next "Failed to update chat embedding: Chat embedding not found"
  /\ fst (delete_by_id id one_record)
     = Next "Failed to delete chat embedding: Chat embedding not found"
  /\ fst (get_by_id id one_record) <> not_found
  /\ docs (snd put) = docs one_record
  /\ docs (snd (delete_by_id id one_record)) = docs one_record.
Proof.
  intros id put.
  assert (Hnone : docs one_record !! id = None) by (vm_compute; reflexivity).
  split; [exact Hnone|].
  unfold put.
  rewrite get_by_id_missing, delete_by_id_missing by exact Hnone.
  rewrite (put_by_id_missing canonical_guid decimal_digits render) by
    (first [exact Hnone | vm_compute; reflexivity]).
  repeat split. discriminate.
Qed.

(* ================================================================== *)
(** ** What create returns *)
(* ================================================================== *)

Lemma Ok_inj {A} (a b : A) : Ok a = Ok b -> a = b.
Proof. intros H. injection H. auto. Qed.

(** From [(Ok a, c) = (Ok b, c')] to [a = b], without unfolding either. *)
Ltac ok_eq H :=
  apply (f_equal fst) in H; cbn [fst] in H; apply Ok_inj in H.

(** The object create returns is [id] followed by the stored document's
    own properties and [insertedId]. *)
Lemma created_keys uuid t1 t2 t3 x c created c1 :
  createChatEmbedding uuid t1 t2 t3 x c = (Ok created, c1) ->
  keys created = "id" :: keys (document uuid t1 t2 t3 x) ++ ["insertedId"].
Proof.
  destruct (docs c !! uuid) eqn:E.
  - unfold createChatEmbedding. run_gateway.
    change (id_of (document uuid t1 t2 t3 x)) with uuid. rewrite E.
    cbn beta iota zeta delta [fst snd]. discriminate.
  - rewrite createChatEmbedding_fresh by exact E. intros H. ok_eq H.
    subst created. reflexivity.
Qed.

(** C9.  The record create returns for the sample embedding has the
    store's own property names [_id] and [$vector] and the gateway's
    [insertedId], and has no [primary_embedding]; the record getById
    returns for the same id has [primary_embedding] and none of those
    three. *)
Theorem create_returns_the_store_document :
  let id := "7c9e6679-7425-40de-944b-e07fc1f90ae7" in
  exists created fetched c2,
    accepts canonical_guid decimal_digits chatEmbeddingSchema sampleEmbedding = true
    /\ createChatEmbedding id "2024-03-04T14:00:00.000Z"
         "2024-03-04T14:00:00.000Z" "2024-03-04T14:00:00.001Z"
         sampleEmbedding empty_collection = (Ok created, one_record)
    /\ getChatEmbeddingById id one_record = (Ok fetched, c2)
    /\ own "primary_embedding" created = None
    /\ own "$vector" created = Some (filled 768 (1 # 10))
    /\ own "_id" created = Some (VStr id)
    /\ own "insertedId" created = Some (VStr id)
    /\ own "primary_embedding" fetched = Some (filled 768 (1 # 10))
    /\ own "$vector" fetched = None
    /\ own "_id" fetched = None
    /\ own "insertedId" fetched = None
    /\ keys created <> keys fetched.
Proof.
  intros id. eexists _, _, _.
  split; [vm_compute; reflexivity|].
  split; [unfold one_record; rewrite createChatEmbedding_fresh by apply lookup_empty;
          reflexivity|].
  split; [apply getChatEmbeddingById_found; vm_compute; reflexivity|].
  repeat split; try (vm_compute; reflexivity).
  vm_compute. discriminate.
Qed.

(* ================================================================== *)
(** ** Create, then replace with the same payload *)
(* ================================================================== *)

Lemma replaced_get t4 t5 id e x f :
  In f (keys (to_record [])) ->
  get (to_record (to_json (replacementDocument t4 t5 id e x))) f
  = get (replacementDocument t4 t5 id e x) (store_name f).
Proof.
  intros Hf. rewrite to_record_get by exact Hf.
  apply get_to_json, replacementDocument_keys_nodup.
Qed.

Lemma fetched_get uuid t1 t2 t3 x f :
  In f (keys (to_record [])) ->
  get (to_record (to_json (document uuid t1 t2 t3 x))) f
  = get (document uuid t1 t2 t3 x) (store_name f).
Proof.
  intros Hf. rewrite to_record_get by exact Hf.
  apply get_to_json, document_keys_nodup.
Qed.

(** Apart from [timestamp], [created_at] and [updated_at], the replacement
    document is built from the payload exactly as the created one. *)
Lemma replacement_as_document uuid t1 t2 t3 t4 t5 e x k :
  k <> "timestamp" -> k <> "created_at" -> k <> "updated_at" ->
  get (replacementDocument t4 t5 uuid e x) k = get (document uuid t1 t2 t3 x) k.
Proof.
  intros Hts Hcr Hup.
  destruct (in_dec string_dec k (keys (document uuid t1 t2 t3 x))) as [Hk|Hk].
  - vm_compute in Hk.
    repeat (destruct Hk as [<-|Hk]; [first [reflexivity|congruence]|]).
    destruct Hk.
  - unfold get.
    replace (own k (replacementDocument t4 t5 uuid e x)) with (@None value)
      by (symmetry; apply own_none_iff; exact Hk).
    replace (own k (document uuid t1 t2 t3 x)) with (@None value)
      by (symmetry; apply own_none_iff; exact Hk).
    reflexivity.
Qed.

Lemma store_name_assigned f k :
  In k ["timestamp"; "created_at"; "updated_at"] -> f <> k -> store_name f <> k.
Proof.
  intros Hk Hf. unfold store_name.
  destruct (String.eqb_spec f "id") as [->|_];
    [|destruct (String.eqb_spec f "primary_embedding") as [->|_]];
    [| |exact Hf];
    simpl in Hk; intuition (subst; discriminate).
Qed.

Lemma replacement_created_at t4 t5 id e x :
  get (replacementDocument t4 t5 id e x) "created_at" = get e "created_at".
Proof. reflexivity. Qed.

Lemma replacement_updated_at t4 t5 id e x :
  get (replacementDocument t4 t5 id e x) "updated_at" = VStr t5.
Proof. reflexivity. Qed.

Lemma replacement_timestamp t4 t5 id e x :
  get (replacementDocument t4 t5 id e x) "timestamp"
  = js_or (get x "timestamp") (VStr t4).
Proof. reflexivity. Qed.

Lemma document_created_at uuid t1 t2 t3 x :
  get (document uuid t1 t2 t3 x) "created_at" = VStr t2.
Proof. reflexivity. Qed.

Lemma document_updated_at uuid t1 t2 t3 x :
  get (document uuid t1 t2 t3 x) "updated_at" = VStr t3.
Proof. reflexivity. Qed.

(** The record after the replace against the record before it, for an
    existing entry [e] that reads as the created document. *)
Lemma replaced_against_created uuid t1 t2 t3 t4 t5 x e :
  (forall k, get e k = get (document uuid t1 t2 t3 x) k) ->
  String.leb t3 t5 = true ->
  get (to_record (to_json (replacementDocument t4 t5 uuid e x))) "created_at"
  = get (to_record e) "created_at"
  /\ get (to_record (to_json (replacementDocument t4 t5 uuid e x))) "updated_at"
     = VStr t5
  /\ cmp_le (get (to_record e) "updated_at")
        (get (to_record (to_json (replacementDocument t4 t5 uuid e x)))
           "updated_at") = true
  /\ get (to_record (to_json (replacementDocument t4 t5 uuid e x))) "timestamp"
     = js_or (get x "timestamp") (VStr t4)
  /\ (forall f, f <> "timestamp" -> f <> "updated_at" ->
        get (to_record (to_json (replacementDocument t4 t5 uuid e x))) f
        = get (to_record e) f).
Proof.
  intros He Hclock.
  assert (Hin : forall f, In f ["created_at"; "updated_at"; "timestamp"] ->
                          In f (keys (to_record []))).
  { intros f Hf. vm_compute in Hf. vm_compute. tauto. }
  assert (Hname : forall f, In f ["created_at"; "updated_at"; "timestamp"] ->
                            store_name f = f).
  { intros f Hf. simpl in Hf. intuition (subst; reflexivity). }
  split.
  { rewrite replaced_get, to_record_get by (apply Hin; vm_compute; tauto).
    rewrite Hname by (vm_compute; tauto).
    rewrite replacement_created_at. reflexivity. }
  split.
  { rewrite replaced_get by (apply Hin; vm_compute; tauto).
    rewrite Hname by (vm_compute; tauto). apply replacement_updated_at. }
  split.
  { rewrite replaced_get, to_record_get by (apply Hin; vm_compute; tauto).
    rewrite Hname by (vm_compute; tauto).
    rewrite replacement_updated_at, He, document_updated_at. exact Hclock. }
  split.
  { rewrite replaced_get by (apply Hin; vm_compute; tauto).
    rewrite Hname by (vm_compute; tauto). apply replacement_timestamp. }
  intros f Hts Hup.
  destruct (in_dec string_dec f (keys (to_record []))) as [Hf|Hf].
  - rewrite replaced_get, to_record_get by exact Hf.
    destruct (string_dec f "created_at") as [->|Hcr].
    + rewrite Hname by (vm_compute; tauto).
      rewrite replacement_created_at. reflexivity.
    + rewrite He.
      apply replacement_as_document; apply store_name_assigned;
        solve [assumption | vm_compute; tauto].
  - rewrite !to_record_other by exact Hf. reflexivity.
Qed.

(** C4, as the code has it.  After create(x), replace(id, x) with the same
    payload returns a record with the created record's [created_at], with
    [updated_at] set to the clock reading of the replace (not earlier than
    the original when the clock has not gone back), with every other field
    but [timestamp] equal to the created record's as getById reads it, and
    with [timestamp] set to the payload's own [timestamp] when it has a
    truthy one and to the clock reading of the replace otherwise. *)
Theorem create_then_identical_replace uuid t1 t2 t3 t4 t5 x c :
  docs c !! uuid = None ->
  String.leb t3 t5 = true ->
  exists created c1 before c1' replaced c2,
    createChatEmbedding uuid t1 t2 t3 x c = (Ok created, c1)
    /\ getChatEmbeddingById uuid c1 = (Ok before, c1')
    /\ updateChatEmbedding t4 t5 uuid x c1 = (Ok replaced, c2)
    /\ get replaced "created_at" = get before "created_at"
    /\ get replaced "updated_at" = VStr t5
    /\ cmp_le (get before "updated_at") (get replaced "updated_at") = true
    /\ get replaced "timestamp" = js_or (get x "timestamp") (VStr t4)
    /\ (forall f, f <> "timestamp" -> f <> "updated_at" ->
                  get replaced f = get before f).
Proof.
  intros Hfresh Hclock.
  eexists _, _, _, _, _, _.
  split; [apply createChatEmbedding_fresh; exact Hfresh|].
  split; [apply getChatEmbeddingById_found; apply lookup_insert_eq|].
  split; [apply updateChatEmbedding_found; apply lookup_insert_eq|].
  apply (replaced_against_created uuid t1 t2 t3 t4 t5 x); [|exact Hclock].
  intros k. apply get_to_json, document_keys_nodup.
Qed.

Lemma create_then_identical_replace_witness :
  String.leb "2024-03-04T14:00:00.001Z" "2024-03-04T14:00:05.000Z" = true
  /\ exists created c1 before c1' replaced c2,
       createChatEmbedding "7c9e6679-7425-40de-944b-e07fc1f90ae7"
         "2024-03-04T14:00:00.000Z" "2024-03-04T14:00:00.000Z"
         "2024-03-04T14:00:00.001Z" sampleEmbedding empty_collection
       = (Ok created, c1)
       /\ getChatEmbeddingById "7c9e6679-7425-40de-944b-e07fc1f90ae7" c1
          = (Ok before, c1')
       /\ updateChatEmbedding "2024-03-04T14:00:05.000Z"
            "2024-03-04T14:00:05.000Z" "7c9e6679-7425-40de-944b-e07fc1f90ae7"
            sampleEmbedding c1 = (Ok replaced, c2)
       /\ get replaced "created_at" = get before "created_at"
       /\ get replaced "updated_at" = VStr "2024-03-04T14:00:05.000Z"
       /\ cmp_le (get before "updated_at") (get replaced "updated_at") = true
       /\ get replaced "timestamp"
          = js_or (get sampleEmbedding "timestamp") (VStr "2024-03-04T14:00:05.000Z")
       /\ (forall f, f <> "timestamp" -> f <> "updated_at" ->
                     get replaced f = get before f).
Proof.
  split; [reflexivity|].
  apply create_then_identical_replace; [apply lookup_empty|reflexivity].
Defined.

(** C4, as the claim states it, fails on the sample embedding: replaced
    five seconds after it was created, with the very payload it was created
    from, the record comes back with the time of the replace as its
    [timestamp]. *)
Lemma identical_replace_moves_timestamp :
  let id := "7c9e6679-7425-40de-944b-e07fc1f90ae7" in
  accepts canonical_guid decimal_digits chatEmbeddingSchema sampleEmbedding = true
  /\ match getChatEmbeddingById id one_record,
           updateChatEmbedding "2024-03-04T14:00:05.000Z"
             "2024-03-04T14:00:05.000Z" id sampleEmbedding one_record
     with
     | (Ok before, _), (Ok replaced, _) =>
         get before "timestamp" = VStr "2024-03-04T14:00:00.000Z"
         /\ get replaced "timestamp" = VStr "2024-03-04T14:00:05.000Z"
         /\ get replaced "timestamp" <> get before "timestamp"
     | _, _ => False
     end.
Proof.
  split; [vm_compute; reflexivity|].
  vm_compute. repeat split. discriminate.
Qed.

(* ================================================================== *)
(** ** Updates that carry some of the fields *)
(* ================================================================== *)

(** The current revision clears what the request leaves out: for a stored
    document and any request, a field of the creation contract that the
    request does not carry reads as undefined after the update, in the
    record returned and in the store (the tag list and the entity lists
    fall back to their empty defaults instead). *)
Lemma whole_replace_clears_omitted t4 t5 id x c e f :
  docs c !! id = Some e ->
  In f caller_fields ->
  f <> "semantic_tags" -> f <> "entities_mentioned" ->
  get x f = VUndef ->
  exists r c' d',
    updateChatEmbedding t4 t5 id x c = (Ok r, c')
    /\ docs c' !! id = Some d'
    /\ get r f = VUndef
    /\ get d' (store_name f) = VUndef.
Proof.
  intros He Hf Htags Hentities Hx. eexists _, _, _.
  split; [apply updateChatEmbedding_found; exact He|].
  split; [apply lookup_insert_eq|].
  assert (Hin : In f (keys (to_record []))).
  { clear -Hf. vm_compute in Hf. vm_compute. tauto. }
  assert (Hdoc : get (replacementDocument t4 t5 id e x) (store_name f) = VUndef).
  { vm_compute in Hf.
    repeat (destruct Hf as [<-|Hf]; [first [congruence | exact Hx]|]).
    destruct Hf. }
  rewrite replaced_get by exact Hin.
  rewrite get_to_json by apply replacementDocument_keys_nodup.
  split; exact Hdoc.
Qed.

(** C1.  The update of the test suite, which carries [semantic_tags] only,
    passes the update schema; PUT answers 200; and the record it returns,
    like the document it leaves in the store, has lost [message_content],
    [user_id] and the primary embedding that the stored record had. *)
Theorem partial_update_clears_omitted_fields :
  let id := "7c9e6679-7425-40de-944b-e07fc1f90ae7" in
  accepts canonical_guid decimal_digits updateChatEmbeddingSchema updateData = true
  /\ own "message_content" updateData = None
  /\ own "primary_embedding" updateData = None
  /\ match docs one_record !! id,
           put_by_id canonical_guid decimal_digits render "2024-03-04T15:00:00.000Z"
             "2024-03-04T15:00:00.000Z" id updateData one_record
     with
     | Some before, (Json 200 body, c') =>
         get before "message_content"
         = VStr "I am feeling anxious about my upcoming exam"
         /\ get before "$vector" = filled 768 (1 # 10)
         /\ prop (get body "data") "message_content" = VUndef
         /\ prop (get body "data") "primary_embedding" = VUndef
         /\ prop (get body "data") "semantic_tags" = get updateData "semantic_tags"
         /\ match docs c' !! id with
            | Some now =>
                own "message_content" now = None
                /\ own "user_id" now = None
                /\ own "$vector" now = None
            | None => False
            end
     | _, _ => False
     end.
Proof. vm_compute. repeat split. Qed.

Lemma own_put_if k cond k' v o :
  own k (FieldMerge.put_if cond k' v o)
  = if String.eqb k k' && cond then Some v else own k o.
Proof.
  unfold FieldMerge.put_if. destruct cond.
  - rewrite own_obj_set, andb_true_r. reflexivity.
  - rewrite andb_false_r. reflexivity.
Qed.

Lemma merge_to_record_get d f :
  In f (keys (FieldMerge.to_record [])) ->
  get (FieldMerge.to_record d) f = get d (store_name f).
Proof.
  intros Hf. simpl in Hf.
  repeat (destruct Hf as [<-|Hf]; [reflexivity|]). destruct Hf.
Qed.

(** The sparse update document has no property for a field the request
    leaves out. *)
Lemma update_doc_omits t x f :
  In f (keys (FieldMerge.to_record [])) ->
  f <> "updated_at" ->
  get x f = VUndef ->
  own (store_name f) (FieldMerge.update_doc t x) = None.
Proof.
  intros Hf Hup Hx. unfold FieldMerge.update_doc. cbv zeta.
  rewrite !own_put_if. simpl in Hf.
  repeat (destruct Hf as [<-|Hf];
          [first [ congruence | rewrite ?Hx; reflexivity ]|]).
  destruct Hf.
Qed.

(** X12.  The earlier revision of the update keeps what the request leaves out:
    for a stored document and any request, every field of the record other
    than [updated_at] that the request does not carry reads after the
    update as it read before, in the record returned and in the store. *)
Lemma merge_update_keeps_omitted t id x c d f :
  docs c !! id = Some d ->
  In f (keys (FieldMerge.to_record [])) ->
  f <> "updated_at" ->
  get x f = VUndef ->
  exists r c' d',
    FieldMerge.updateChatEmbedding t id x c = (Ok r, c')
    /\ docs c' !! id = Some d'
    /\ get r f = get (FieldMerge.to_record d) f
    /\ get d' (store_name f) = get d (store_name f).
Proof.
  intros Hd Hf Hup Hx. eexists _, _, _.
  split; [apply merge_update_found; exact Hd|].
  split; [apply lookup_insert_eq|].
  assert (Hkeep : get (spread d (to_json (FieldMerge.update_doc t x)))
                    (store_name f) = get d (store_name f)).
  { unfold get. rewrite own_spread_absent; [reflexivity|].
    apply own_to_json_absent, update_doc_omits; assumption. }
  rewrite !merge_to_record_get by exact Hf. split; exact Hkeep.
Qed.

(* ================================================================== *)
(** ** Defaults *)
(* ================================================================== *)

(** C8.  The sample embedding names one emotion and one entity list.  It
    passes the creation schema, whose validated value has the seven other
    emotions at 0 and the two other lists empty; POST stores the body as it
    was sent, so the persisted record has no score for those emotions and
    no value for those lists. *)
Theorem schema_defaults_are_not_persisted :
  let id := "7c9e6679-7425-40de-944b-e07fc1f90ae7" in
  let validated :=
    snd (validate_schema canonical_guid decimal_digits chatEmbeddingSchema [] (VObj sampleEmbedding)) in
  accepts canonical_guid decimal_digits chatEmbeddingSchema sampleEmbedding = true
  /\ path_get validated ["emotion_context"; "emotions"; "joy"] = VNum 0
  /\ path_get validated ["entities_mentioned"; "people"] = VArr []
  /\ snd (post_root canonical_guid decimal_digits render id "2024-03-04T14:00:00.000Z"
            "2024-03-04T14:00:00.000Z" "2024-03-04T14:00:00.001Z"
            sampleEmbedding empty_collection) = one_record
  /\ match docs one_record !! id with
     | Some persisted =>
         field_at persisted "emotion_context.emotions.fear" = VNum (7 # 10)
         /\ Forall (fun emotion =>
                      emotion = "fear"
                      \/ path_get (VObj persisted)
                           ["emotion_context"; "emotions"; emotion] = VUndef)
              emotion_names
         /\ field_at persisted "entities_mentioned.people" = VUndef
         /\ field_at persisted "entities_mentioned.locations" = VUndef
     | None => False
     end.
Proof.
  vm_compute. repeat split.
  repeat (constructor; [first [left; reflexivity | right; reflexivity]|]).
  constructor.
Qed.

(* ================================================================== *)
(** ** Vector lengths on creation *)
(* ================================================================== *)

Section Creation.

Variable guid : string -> bool.
Variable numeric : string -> parsed.
Variable message_of : detail -> string.

Lemma vector_fields_required k n :
  In (k, n) vector_dims ->
  In (k, required (vector_of n))
     (match chatEmbeddingSchema with JObject fields => fields | _ => [] end).
Proof.
  intros H. simpl in H.
  repeat (destruct H as [[= <- <-]|H];
          [repeat first [left; reflexivity | right]|]).
  destruct H.
Qed.

(** In an accepted body every vector field has its declared length. *)
Lemma accepted_vector_lengths body k n :
  accepts guid numeric chatEmbeddingSchema body = true ->
  In (k, n) vector_dims ->
  has_length (get body k) n.
Proof.
  intros Hacc Hk. apply accepts_fields in Hacc.
  apply vector_fields_required in Hk.
  destruct (check_fields_required guid numeric _ _ _ _ _ _ Hacc Hk) as (v & Hown & Hdef).
  pose proof (check_fields_present guid numeric _ _ _ _ _ _ _ _ Hacc Hk Hown Hdef) as Hv.
  apply array_passes in Hv as (l & -> & Hlen).
  exists l. unfold get. rewrite Hown. split; [reflexivity|].
  apply Hlen. reflexivity.
Qed.

Lemma document_vector uuid t1 t2 t3 body k n :
  In (k, n) vector_dims ->
  get (document uuid t1 t2 t3 body) (store_name k) = get body k.
Proof.
  intros H. simpl in H.
  repeat (destruct H as [[= <- <-]|H]; [reflexivity|]). destruct H.
Qed.

(** A creation request in which some vector field is not an array of its
    declared length is answered 400 with the validation error, and the
    collection is exactly as it was: no document added and no gateway
    operation called.  So whatever document a creation request does add to
    the store has all seven vectors at their declared lengths (the primary
    one under the store's name for it). *)
Lemma wrong_vector_length_is_rejected uuid t1 t2 t3 body c :
  (forall k n,
      In (k, n) vector_dims -> ~ has_length (get body k) n ->
      exists details,
        details <> []
        /\ post_root guid numeric message_of uuid t1 t2 t3 body c
           = (Json 400 [ ("success", VBool false);
                         ("error", VStr "Validation Error");
                         ("details",
                            VStr (String.concat ", " (map message_of details))) ],
              c))
  /\ (forall id d,
        docs (snd (post_root guid numeric message_of uuid t1 t2 t3 body c)) !! id = Some d ->
        docs c !! id = Some d
        \/ forall k n, In (k, n) vector_dims ->
                       has_length (get d (store_name k)) n).
Proof.
  split.
  - intros k n Hk Hbad.
    destruct (accepts guid numeric chatEmbeddingSchema body) eqn:Hacc.
    + exfalso. apply Hbad. apply accepted_vector_lengths; assumption.
    + unfold post_root, validate. unfold accepts in Hacc.
      destruct (fst (validate_schema guid numeric chatEmbeddingSchema [] (VObj body)))
        as [|d0 ds]; [discriminate|].
      exists (d0 :: ds). split; [discriminate|reflexivity].
  - intros id d.
    destruct (accepts guid numeric chatEmbeddingSchema body) eqn:Hacc.
    + unfold post_root, validate. pose proof Hacc as Hacc'.
      unfold accepts in Hacc'.
      destruct (fst (validate_schema guid numeric chatEmbeddingSchema [] (VObj body)));
        [|discriminate].
      destruct (docs c !! uuid) as [old|] eqn:Hold.
      * unfold createChatEmbedding. run_gateway.
        change (id_of (document uuid t1 t2 t3 body)) with uuid. rewrite Hold.
        cbn beta iota zeta delta [docs calls fst snd]. auto.
      * rewrite createChatEmbedding_fresh by exact Hold.
        cbn beta iota zeta delta [docs calls fst snd after].
        destruct (string_dec uuid id) as [->|Hne].
        -- rewrite lookup_insert_eq. intros Hd. right. intros k n Hk.
           apply Some_inj in Hd. subst d.
           rewrite get_to_json by apply document_keys_nodup.
           rewrite (document_vector _ _ _ _ _ _ _ Hk).
           apply accepted_vector_lengths; assumption.
        -- rewrite lookup_insert_ne by exact Hne. auto.
    + unfold post_root, validate. unfold accepts in Hacc.
      destruct (fst (validate_schema guid numeric chatEmbeddingSchema [] (VObj body)));
        [discriminate|].
      cbn [snd]. auto.
Qed.

End Creation.

Lemma short_vector_is_rejected :
  In ("primary_embedding", 768%nat) vector_dims
  /\ ~ has_length (get shortEmbedding "primary_embedding") 768
  /\ exists details,
       details <> []
       /\ post_root canonical_guid decimal_digits render "7c9e6679-7425-40de-944b-e07fc1f90ae7"
            "2024-03-04T14:00:00.000Z" "2024-03-04T14:00:00.000Z"
            "2024-03-04T14:00:00.001Z" shortEmbedding empty_collection
          = (Json 400 [ ("success", VBool false);
                        ("error", VStr "Validation Error");
                        ("details",
                           VStr (String.concat ", " (map render details))) ],
             empty_collection).
Proof.
  assert (Hk : In ("primary_embedding", 768%nat) vector_dims) by (left; reflexivity).
  assert (Hbad : ~ has_length (get shortEmbedding "primary_embedding") 768).
  { intros (l & Hl & Hlen).
    change (get shortEmbedding "primary_embedding") with (filled 767 (1 # 10)) in Hl.
    apply (f_equal arr_length) in Hl. unfold filled in Hl.
    cbn [arr_length] in Hl. rewrite repeat_length, Hlen in Hl. discriminate Hl. }
  split; [exact Hk|]. split; [exact Hbad|].
  exact (proj1 (wrong_vector_length_is_rejected canonical_guid decimal_digits render _ _ _ _
                  shortEmbedding empty_collection) _ _ Hk Hbad).
Qed.

(** C5.  A creation request whose primary embedding is one number short
    is answered 400 and leaves the collection as it was, with no gateway
    call.  Yet a stored record does not keep its vectors: the record
    created from the sample embedding holds the seven vectors at their
    declared lengths; the update of the test suite, which carries
    [semantic_tags] only, passes the update schema and is answered 200; and
    the document the store holds afterwards under the same id has none of
    the seven. *)
Theorem update_persists_a_record_without_vectors :
  let id := "7c9e6679-7425-40de-944b-e07fc1f90ae7" in
  match post_root canonical_guid decimal_digits render id
          "2024-03-04T14:00:00.000Z" "2024-03-04T14:00:00.000Z"
          "2024-03-04T14:00:00.001Z" shortEmbedding empty_collection
  with
  | (Json 400 _, c') => c' = empty_collection
  | _ => False
  end
  /\ accepts canonical_guid decimal_digits updateChatEmbeddingSchema updateData = true
  /\ match docs one_record !! id,
           put_by_id canonical_guid decimal_digits render "2024-03-04T15:00:00.000Z"
             "2024-03-04T15:00:00.000Z" id updateData one_record
     with
     | Some before, (Json 200 _, c') =>
         vectors_in_place before = true
         /\ match docs c' !! id with
            | Some now => vectors_in_place now = false /\ vectors_gone now = true
            | None => False
            end
     | _, _ => False
     end.
Proof. vm_compute. repeat split. Qed.

(* ================================================================== *)
(** ** Listing and ranking *)
(* ================================================================== *)

Lemma In_take {A} (x : A) n l : In x (take n l) -> In x l.
Proof.
  revert n. induction l as [|y l IH]; intros [|n]; simpl; try tauto.
  intros [->|H]; [now left|right; eauto].
Qed.


Lemma In_insert_sorted le d l x :
  In x (insert_sorted le d l) -> x = d \/ In x l.
Proof.
  induction l as [|y l IH]; simpl.
  - intros [->|[]]. now left.
  - destruct (le d y); simpl.
    + intros [->|H]; [now left|now right].
    + intros [->|H]; [right; now left|].
      destruct (IH H) as [->|H']; [now left|right; now right].
Qed.

Lemma In_sort_with le l x : In x (sort_with le l) -> In x l.
Proof.
  induction l as [|y l IH]; simpl; [tauto|].
  intros H. apply In_insert_sorted in H as [->|H]; [now left|right; auto].
Qed.

(** The listing never answers: once the page is found, the count it asks
    of the store is refused, whatever the options and the collection. *)
Lemma queryChatEmbeddings_refused js queryOptions c :
  queryChatEmbeddings js queryOptions c
  = (Throw "Failed to query chat embeddings: upperBound is required",
     after ["find"; "countDocuments"] (docs c) c).
Proof.
  unfold queryChatEmbeddings, find_sorted, countDocuments.
  unfold try_catch, bind, called, ret, throw.
  cbn beta iota zeta delta [docs calls fst snd].
  unfold after. rewrite <- app_assoc. reflexivity.
Qed.

Lemma findSimilarChatEmbeddings_results similarity queryVector options c r c' :
  findSimilarChatEmbeddings similarity queryVector options c = (Ok r, c') ->
  get r "results"
  = VArr (map to_match (ranked similarity queryVector options c)).
Proof.
  unfold findSimilarChatEmbeddings, find_ranked.
  unfold try_catch, bind, called, ret, throw.
  destruct (get_or options "filters" (VObj [])) eqn:Hf;
    cbn beta iota zeta delta [docs calls fst snd];
    try (intros H; ok_eq H; subst r; unfold ranked; rewrite Hf; reflexivity).
  discriminate.
Qed.

Lemma ranked_is_stored similarity queryVector options c result :
  In result (ranked similarity queryVector options c) ->
  exists d, In d (stored c)
            /\ matches (similarity_query (get_or options "filters" (VObj []))) d = true
            /\ result = obj_set "$similarity" (VNum (similarity queryVector d)) d.
Proof.
  unfold ranked. intros H.
  apply In_take, In_sort_with, in_map_iff in H as (d & <- & Hd).
  apply filter_In in Hd as [Hd Hm]. eauto.
Qed.



(* ================================================================== *)
(** ** Pagination *)
(* ================================================================== *)

(** C7.  The listing never returns its pagination block: whatever the
    options, the arithmetic and the collection, it has the page found and
    then fails on the count, which it asks of the store without the upper
    bound the client requires; no document is changed. *)
Theorem listing_fails_before_pagination js queryOptions c :
  fst (queryChatEmbeddings js queryOptions c)
  = Throw "Failed to query chat embeddings: upperBound is required"
  /\ calls (snd (queryChatEmbeddings js queryOptions c))
     = calls c ++ ["find"; "countDocuments"]
  /\ docs (snd (queryChatEmbeddings js queryOptions c)) = docs c.
Proof.
  rewrite queryChatEmbeddings_refused. repeat split.
Qed.

(* ================================================================== *)
(** ** The filter of the similarity search *)
(* ================================================================== *)

Lemma own_set_when k v k' query :
  own k (set_when v k' query)
  = if String.eqb k k' && truthy v then Some v else own k query.
Proof.
  unfold set_when. destruct (truthy v).
  - rewrite own_obj_set, andb_true_r. reflexivity.
  - rewrite andb_false_r. reflexivity.
Qed.

Lemma own_set_date_range k date_range query :
  String.eqb k "timestamp" = false ->
  own k (set_date_range date_range query) = own k query.
Proof.
  intros Hk. unfold set_date_range. destruct (truthy date_range); [|reflexivity].
  rewrite own_obj_set, Hk. reflexivity.
Qed.

Lemma own_In k v (o : obj) : own k o = Some v -> In (k, v) o.
Proof.
  induction o as [|[k0 v0] o IH]; simpl; [discriminate|].
  destruct (String.eqb_spec k k0) as [->|_].
  - intros H. apply Some_inj in H. subst v0. now left.
  - intros H. right. auto.
Qed.

(** A non-zero [min_intensity] puts its clause into the filter. *)
Lemma min_intensity_clause filters m :
  prop (prop filters "emotion_filter") "min_intensity" = VNum m ->
  Qeq_bool m 0 = false ->
  own "emotion_context.intensity" (similarity_query filters)
  = Some (VObj [("$gte", VNum m)]).
Proof.
  intros Hm Hnz. unfold similarity_query. cbv zeta.
  assert (Htruthy : truthy (prop filters "emotion_filter") = true).
  { destruct (prop filters "emotion_filter"); try discriminate Hm; reflexivity. }
  rewrite Htruthy, Hm. cbn [truthy]. rewrite Hnz. cbn [negb].
  match goal with
  | |- own _ (if ?b then _ else _) = _ => destruct b
  end; rewrite ?own_obj_set; cbn [String.eqb Ascii.eqb Bool.eqb];
    try reflexivity.
  all: match goal with
       | |- own _ (obj_set _ _ _) = _ => rewrite own_obj_set; reflexivity
       end.
Qed.

(** A [min_intensity] of 0 puts no clause into the filter. *)
Lemma min_intensity_zero_no_clause filters m :
  prop (prop filters "emotion_filter") "min_intensity" = VNum m ->
  Qeq_bool m 0 = true ->
  own "emotion_context.intensity" (similarity_query filters) = None.
Proof.
  intros Hm Hz. unfold similarity_query. cbv zeta.
  assert (Htruthy : truthy (prop filters "emotion_filter") = true).
  { destruct (prop filters "emotion_filter"); try discriminate Hm; reflexivity. }
  rewrite Htruthy, Hm. cbn [truthy]. rewrite Hz. cbn [negb].
  repeat match goal with
         | |- own _ (if ?b then _ else _) = _ => destruct b
         | |- own _ (obj_set _ _ _) = _ =>
             rewrite own_obj_set; cbn [String.eqb Ascii.eqb Bool.eqb]
         | |- own _ (set_date_range _ _) = _ =>
             rewrite own_set_date_range by reflexivity
         | |- own _ (set_when _ _ _) = _ =>
             rewrite own_set_when; cbn [String.eqb Ascii.eqb Bool.eqb andb]
         end; reflexivity.
Qed.


(** X10.  For a non-zero [min_intensity] the bound is a real one: every result
    has an [emotion_context.intensity], and it is at least [m]. *)
Lemma min_intensity_lower_bound similarity queryVector options c r c' m :
  prop (prop (get_or options "filters" (VObj [])) "emotion_filter") "min_intensity"
  = VNum m ->
  Qeq_bool m 0 = false ->
  findSimilarChatEmbeddings similarity queryVector options c = (Ok r, c') ->
  exists items,
    get r "results" = VArr items
    /\ forall item, In item items ->
         exists x, prop (prop item "emotion_context") "intensity" = VNum x
                   /\ (m <= x)%Q.
Proof.
  intros Hm Hnz Hrun.
  eexists. split; [eapply findSimilarChatEmbeddings_results; exact Hrun|].
  intros item Hitem. apply in_map_iff in Hitem as (result & <- & Hresult).
  apply ranked_is_stored in Hresult as (d & _ & Hmatch & ->).
  pose proof (own_In _ _ _ (min_intensity_clause _ _ Hm Hnz)) as Hclause.
  unfold matches in Hmatch. rewrite forallb_forall in Hmatch.
  specialize (Hmatch _ Hclause). cbn [fst snd] in Hmatch.
  change (field_at d "emotion_context.intensity")
    with (prop (get d "emotion_context") "intensity") in Hmatch.
  change (prop (prop (to_match
                        (obj_set "$similarity" (VNum (similarity queryVector d)) d))
                  "emotion_context") "intensity")
    with (prop (get (obj_set "$similarity" (VNum (similarity queryVector d)) d)
                  "emotion_context") "intensity").
  rewrite get_obj_set. cbn [String.eqb Ascii.eqb Bool.eqb].
  destruct (prop (get d "emotion_context") "intensity") as [| | |x| | |];
    try discriminate Hmatch.
  exists x. split; [reflexivity|].
  apply Qle_bool_iff.
  unfold cond_holds, op_holds in Hmatch. cbn in Hmatch.
  rewrite andb_true_r in Hmatch. exact Hmatch.
Qed.

(** C6.  With [min_intensity] present and equal to 0 the composed filter
    is empty, the same as for a request without filters, and the search
    returns both stored records, one of which has no [emotion_context] at
    all; with [min_intensity] 0.01 the clause is there and only the record
    whose intensity is 0.7 comes back. *)
Theorem zero_min_intensity_is_no_filter :
  let search m :=
    findSimilarChatEmbeddings (fun _ _ => 1%Q) (filled 768 (1 # 10))
      (intensity_search m) two_records in
  let contexts r :=
    match get r "results" with
    | VArr items => map (fun item => prop item "emotion_context") items
    | _ => []
    end in
  accepts canonical_guid decimal_digits chatEmbeddingSchema plainEmbedding = true
  /\ similarity_query (get (intensity_search 0) "filters") = []
  /\ similarity_query (get (intensity_search (1 # 100)) "filters")
     = [ ("emotion_context.intensity", VObj [ ("$gte", VNum (1 # 100)) ]) ]
  /\ match search 0%Q with
     | (Ok r, _) => get r "results_count" = VNum 2 /\ In VUndef (contexts r)
     | _ => False
     end
  /\ match search (1 # 100) with
     | (Ok r, _) =>
         get r "results_count" = VNum 1
         /\ map (fun context => prop context "intensity") (contexts r)
            = [VNum (7 # 10)]
     | _ => False
     end.
Proof.
  vm_compute. repeat split.
  repeat first [left; reflexivity | right].
Qed.

(* ================================================================== *)
(** ** Point operations: what they touch and what they keep *)
(* ================================================================== *)

Lemma createChatEmbedding_taken uuid t1 t2 t3 x c old :
  docs c !! uuid = Some old ->
  createChatEmbedding uuid t1 t2 t3 x c
  = (Throw "Failed to create chat embedding: Document already exists with the given _id",
     after ["insertOne"] (docs c) c).
Proof.
  intros H. unfold createChatEmbedding. run_gateway.
  change (id_of (document uuid t1 t2 t3 x)) with uuid. rewrite H. reflexivity.
Qed.

Lemma deleteChatEmbedding_found id c d :
  docs c !! id = Some d ->
  deleteChatEmbedding id c
  = (Ok [ ("id", VStr id); ("deleted", VBool true); ("deletedCount", VNum 1) ],
     after ["deleteOne"] (delete id (docs c)) c).
Proof.
  intros H. unfold deleteChatEmbedding. run_gateway. rewrite H. reflexivity.
Qed.

Lemma update_doc_has_no_id t x : own "_id" (FieldMerge.update_doc t x) = None.
Proof.
  unfold FieldMerge.update_doc. cbv zeta. rewrite !own_put_if. reflexivity.
Qed.

(** The four writing operations, case by case on whether the id is in
    use: the documents they leave. *)
Lemma docs_after_create uuid t1 t2 t3 x c :
  docs (snd (createChatEmbedding uuid t1 t2 t3 x c))
  = match docs c !! uuid with
    | Some _ => docs c
    | None => <[uuid := to_json (document uuid t1 t2 t3 x)]> (docs c)
    end.
Proof.
  destruct (docs c !! uuid) eqn:E.
  - rewrite (createChatEmbedding_taken _ _ _ _ _ _ _ E). reflexivity.
  - rewrite (createChatEmbedding_fresh _ _ _ _ _ _ E). reflexivity.
Qed.

Lemma docs_after_update t4 t5 id x c :
  docs (snd (updateChatEmbedding t4 t5 id x c))
  = match docs c !! id with
    | Some e => <[id := to_json (replacementDocument t4 t5 id e x)]> (docs c)
    | None => docs c
    end.
Proof.
  destruct (docs c !! id) eqn:E.
  - rewrite (updateChatEmbedding_found _ _ _ _ _ _ E). reflexivity.
  - rewrite (updateChatEmbedding_missing _ _ _ _ _ E). reflexivity.
Qed.

Lemma docs_after_merge t id x c :
  docs (snd (FieldMerge.updateChatEmbedding t id x c))
  = match docs c !! id with
    | Some d => <[id := spread d (to_json (FieldMerge.update_doc t x))]> (docs c)
    | None => docs c
    end.
Proof.
  destruct (docs c !! id) eqn:E.
  - rewrite (merge_update_found _ _ _ _ _ E). reflexivity.
  - rewrite (merge_update_missing _ _ _ _ E). reflexivity.
Qed.

Lemma docs_after_delete id c :
  docs (snd (deleteChatEmbedding id c)) = delete id (docs c).
Proof.
  destruct (docs c !! id) eqn:E.
  - rewrite (deleteChatEmbedding_found _ _ _ E). reflexivity.
  - rewrite (deleteChatEmbedding_missing _ _ E). cbn [snd after docs].
    symmetry. apply delete_id. exact E.
Qed.

(** X1.  No operation changes the [_id] a document is stored under: create
    stores the new document under the id it generated, both updates keep
    the [_id] of the document they rewrite, delete only removes. *)
Theorem operations_keep_ids uuid t1 t2 t3 t4 t5 id x c :
  keyed c ->
  keyed (snd (createChatEmbedding uuid t1 t2 t3 x c))
  /\ keyed (snd (updateChatEmbedding t4 t5 id x c))
  /\ keyed (snd (FieldMerge.updateChatEmbedding t5 id x c))
  /\ keyed (snd (deleteChatEmbedding id c)).
Proof.
  intros Hk. unfold keyed.
  rewrite docs_after_create, docs_after_update, docs_after_merge, docs_after_delete.
  repeat split; intros k d.
  - destruct (docs c !! uuid) eqn:E; [apply Hk|].
    destruct (string_dec uuid k) as [->|Hne].
    + rewrite lookup_insert_eq. intros H. apply Some_inj in H. subst d.
      rewrite get_to_json by apply document_keys_nodup. reflexivity.
    + rewrite lookup_insert_ne by exact Hne. apply Hk.
  - destruct (docs c !! id) as [e|] eqn:E; [|apply Hk].
    destruct (string_dec id k) as [->|Hne].
    + rewrite lookup_insert_eq. intros H. apply Some_inj in H. subst d.
      rewrite get_to_json by apply replacementDocument_keys_nodup. reflexivity.
    + rewrite lookup_insert_ne by exact Hne. apply Hk.
  - destruct (docs c !! id) as [e|] eqn:E; [|apply Hk].
    destruct (string_dec id k) as [->|Hne].
    + rewrite lookup_insert_eq. intros H. apply Some_inj in H. subst d.
      unfold get. rewrite own_spread_absent
        by (apply own_to_json_absent, update_doc_has_no_id).
      apply (Hk _ _ E).
    + rewrite lookup_insert_ne by exact Hne. apply Hk.
  - destruct (string_dec id k) as [->|Hne].
    + rewrite lookup_delete_eq. discriminate.
    + rewrite lookup_delete_ne by exact Hne. apply Hk.
Qed.

Lemma operations_keep_ids_witness :
  keyed one_record
  /\ keyed (snd (updateChatEmbedding "2024-03-04T15:00:00.000Z"
                   "2024-03-04T15:00:00.000Z"
                   "7c9e6679-7425-40de-944b-e07fc1f90ae7" updateData one_record)).
Proof.
  assert (Hempty : keyed empty_collection).
  { intros id d H. unfold empty_collection in H. cbn [docs] in H.
    rewrite lookup_empty in H. discriminate H. }
  assert (Hone : keyed one_record).
  { exact (proj1 (operations_keep_ids "7c9e6679-7425-40de-944b-e07fc1f90ae7"
                    "2024-03-04T14:00:00.000Z" "2024-03-04T14:00:00.000Z"
                    "2024-03-04T14:00:00.001Z" "" "" "" sampleEmbedding
                    empty_collection Hempty)). }
  split; [exact Hone|].
  exact (proj1 (proj2 (operations_keep_ids "" "" "" ""
                         "2024-03-04T15:00:00.000Z" "2024-03-04T15:00:00.000Z"
                         "7c9e6679-7425-40de-944b-e07fc1f90ae7" updateData
                         one_record Hone))).
Defined.

(** X2.  A writing operation on one id leaves every document stored under
    another id as it was. *)
Theorem operations_touch_one_document uuid t1 t2 t3 t4 t5 id x c other :
  other <> uuid -> other <> id ->
  docs (snd (createChatEmbedding uuid t1 t2 t3 x c)) !! other = docs c !! other
  /\ docs (snd (updateChatEmbedding t4 t5 id x c)) !! other = docs c !! other
  /\ docs (snd (FieldMerge.updateChatEmbedding t5 id x c)) !! other
     = docs c !! other
  /\ docs (snd (deleteChatEmbedding id c)) !! other = docs c !! other.
Proof.
  intros Hu Hi.
  rewrite docs_after_create, docs_after_update, docs_after_merge, docs_after_delete.
  repeat split.
  - destruct (docs c !! uuid); [reflexivity|]. apply lookup_insert_ne. congruence.
  - destruct (docs c !! id); [|reflexivity]. apply lookup_insert_ne. congruence.
  - destruct (docs c !! id); [|reflexivity]. apply lookup_insert_ne. congruence.
  - apply lookup_delete_ne. congruence.
Qed.

Lemma operations_touch_one_document_witness :
  "7c9e6679-7425-40de-944b-e07fc1f90ae7" <> "0b0e3d4c-5f6a-4b7c-8d9e-0a1b2c3d4e5f"
  /\ docs (snd (deleteChatEmbedding "0b0e3d4c-5f6a-4b7c-8d9e-0a1b2c3d4e5f"
                  two_records))
       !! "7c9e6679-7425-40de-944b-e07fc1f90ae7"
     = docs two_records !! "7c9e6679-7425-40de-944b-e07fc1f90ae7".
Proof.
  assert (Hne : "7c9e6679-7425-40de-944b-e07fc1f90ae7"
                <> "0b0e3d4c-5f6a-4b7c-8d9e-0a1b2c3d4e5f") by discriminate.
  split; [exact Hne|].
  exact (proj2 (proj2 (proj2
           (operations_touch_one_document
              "0b0e3d4c-5f6a-4b7c-8d9e-0a1b2c3d4e5f" "" "" "" "" ""
              "0b0e3d4c-5f6a-4b7c-8d9e-0a1b2c3d4e5f" [] two_records
              "7c9e6679-7425-40de-944b-e07fc1f90ae7" Hne Hne)))).
Defined.

(** X3.  Deleting a stored record answers [{ id, deleted: true, deletedCount: 1 }]
    and removes that record: reading it or deleting it again then fails as
    not found. *)
Theorem delete_then_gone id c d :
  docs c !! id = Some d ->
  exists c',
    deleteChatEmbedding id c
    = (Ok [ ("id", VStr id); ("deleted", VBool true); ("deletedCount", VNum 1) ], c')
    /\ docs c' = delete id (docs c)
    /\ fst (getChatEmbeddingById id c')
       = Throw "Failed to get chat embedding: Chat embedding not found"
    /\ fst (deleteChatEmbedding id c')
       = Throw "Failed to delete chat embedding: Chat embedding not found".
Proof.
  intros H. eexists. split; [exact (deleteChatEmbedding_found id c d H)|].
  split; [reflexivity|].
  assert (Hgone : docs (after ["deleteOne"] (delete id (docs c)) c) !! id = None)
    by apply lookup_delete_eq.
  rewrite (getChatEmbeddingById_missing _ _ Hgone).
  rewrite (deleteChatEmbedding_missing _ _ Hgone). split; reflexivity.
Qed.

Lemma delete_then_gone_witness :
  exists d c',
    docs one_record !! "7c9e6679-7425-40de-944b-e07fc1f90ae7" = Some d
    /\ deleteChatEmbedding "7c9e6679-7425-40de-944b-e07fc1f90ae7" one_record
       = (Ok [ ("id", VStr "7c9e6679-7425-40de-944b-e07fc1f90ae7");
               ("deleted", VBool true); ("deletedCount", VNum 1) ], c')
    /\ docs c' = delete "7c9e6679-7425-40de-944b-e07fc1f90ae7" (docs one_record)
    /\ fst (getChatEmbeddingById "7c9e6679-7425-40de-944b-e07fc1f90ae7" c')
       = Throw "Failed to get chat embedding: Chat embedding not found"
    /\ fst (deleteChatEmbedding "7c9e6679-7425-40de-944b-e07fc1f90ae7" c')
       = Throw "Failed to delete chat embedding: Chat embedding not found".
Proof.
  destruct (docs one_record !! "7c9e6679-7425-40de-944b-e07fc1f90ae7")
    as [d|] eqn:E; [|vm_compute in E; discriminate E].
  destruct (delete_then_gone _ _ _ E) as (c' & H).
  exists d, c'. split; [reflexivity|exact H].
Defined.

Section NoNotFound.

Variable guid : string -> bool.
Variable numeric : string -> parsed.
Variable message_of : detail -> string.

(** X4.  No request to GET, PUT or DELETE [/:id] is ever answered with the 404
    body: whatever the collection, the id and the body, the error a
    service method throws starts with [Failed to], so the handlers'
    comparison with the bare text never holds. *)
Theorem not_found_answer_is_unreachable t4 t5 id body c :
  fst (get_by_id id c) <> not_found
  /\ fst (put_by_id guid numeric message_of t4 t5 id body c) <> not_found
  /\ fst (delete_by_id id c) <> not_found.
Proof.
  repeat split.
  - unfold get_by_id. destruct (docs c !! id) eqn:E.
    + rewrite (getChatEmbeddingById_found _ _ _ E). discriminate.
    + rewrite (getChatEmbeddingById_missing _ _ E). discriminate.
  - unfold put_by_id, validate.
    destruct (fst (validate_schema guid numeric updateChatEmbeddingSchema [] (VObj body)));
      [|discriminate].
    destruct (docs c !! id) eqn:E.
    + rewrite (updateChatEmbedding_found _ _ _ _ _ _ E). discriminate.
    + rewrite (updateChatEmbedding_missing _ _ _ _ _ E). discriminate.
  - unfold delete_by_id. destruct (docs c !! id) eqn:E.
    + rewrite (deleteChatEmbedding_found _ _ _ E). discriminate.
    + rewrite (deleteChatEmbedding_missing _ _ E). discriminate.
Qed.

End NoNotFound.

(* ================================================================== *)
(** ** What a filter clause asks of a document *)
(* ================================================================== *)

Lemma value_eqb_str v u : value_eqb v (VStr u) = true -> v = VStr u.
Proof.
  destruct v; simpl; try discriminate.
  intros H. apply String.eqb_eq in H. congruence.
Qed.

Lemma value_eqb_str_l v u : value_eqb (VStr u) v = true -> v = VStr u.
Proof.
  destruct v; simpl; try discriminate.
  intros H. apply String.eqb_eq in H. congruence.
Qed.

Lemma eq_match_holds field u :
  eq_match field (VStr u) = true -> holds field (VStr u).
Proof.
  unfold eq_match, holds. intros H. apply orb_true_iff in H as [H|H].
  - left. apply value_eqb_str, H.
  - right. destruct field; try discriminate H.
    exists items. split; [reflexivity|].
    apply existsb_exists in H as (x & Hx & Heq).
    apply value_eqb_str_l in Heq. subst x. exact Hx.
Qed.

(** A document that matches a filter satisfies each of its clauses. *)
Lemma matches_clause query d k cond :
  matches query d = true -> own k query = Some cond ->
  cond_holds cond (field_at d k) = true.
Proof.
  intros Hm Hown. unfold matches in Hm. rewrite forallb_forall in Hm.
  exact (Hm _ (own_In _ _ _ Hown)).
Qed.

Lemma truthy_str u : u <> "" -> truthy (VStr u) = true.
Proof.
  intros H. simpl. destruct (String.eqb_spec u ""); [contradiction|reflexivity].
Qed.












(* ================================================================== *)
(** ** The similarity search: scope and scores *)
(* ================================================================== *)

Ltac own_in_query Hu :=
  repeat match goal with
         | |- own _ (if ?b then _ else _) = _ => destruct b
         | |- own _ (obj_set _ _ _) = _ =>
             rewrite own_obj_set; cbn [String.eqb Ascii.eqb Bool.eqb]
         | |- own _ (set_date_range _ _) = _ =>
             rewrite own_set_date_range by reflexivity
         | |- own _ (set_when _ _ _) = _ =>
             rewrite own_set_when; rewrite ?Hu;
             cbn [String.eqb Ascii.eqb Bool.eqb andb]
         end.

(** The equality clauses of the similarity filter. *)
Lemma similarity_query_equality filters k u :
  In k ["user_id"; "session_id"; "message_type"] ->
  prop filters k = VStr u -> u <> "" ->
  own k (similarity_query filters) = Some (VStr u).
Proof.
  intros Hk Hget Hu. apply truthy_str in Hu.
  unfold similarity_query. cbv zeta. simpl in Hk.
  destruct Hk as [<-|[<-|[<-|[]]]]; rewrite !Hget; own_in_query Hu; reflexivity.
Qed.

Lemma similarity_query_tags filters tags :
  prop filters "semantic_tags" = VArr (map VStr tags) -> tags <> [] ->
  own "semantic_tags" (similarity_query filters)
  = Some (VObj [("$in", VArr (map VStr tags))]).
Proof.
  intros Hget Hne. unfold similarity_query. cbv zeta. rewrite !Hget.
  cbn [truthy arr_length andb]. rewrite length_map.
  destruct tags as [|t tags]; [contradiction|]. cbn [length Nat.ltb Nat.leb].
  rewrite own_obj_set. reflexivity.
Qed.

Lemma match_field (similarity : value -> obj -> Q) (queryVector : value) d k :
  String.eqb k "$similarity" = false ->
  In k (keys (record_fields [])) ->
  prop (to_match (obj_set "$similarity" (VNum (similarity queryVector d)) d)) k
  = get d (store_name k).
Proof.
  intros Hne Hk.
  assert (Hget : forall k', String.eqb k' "$similarity" = false ->
            get (obj_set "$similarity" (VNum (similarity queryVector d)) d) k'
            = get d k').
  { intros k' Hk'. rewrite get_obj_set, Hk'. reflexivity. }
  simpl in Hk.
  repeat (destruct Hk as [<-|Hk]; [apply Hget; reflexivity|]). destruct Hk.
Qed.

(** X8.  A similarity search with [user_id], [session_id] or [message_type] in
    its filters returns only records that hold that value in that field;
    with a non-empty list of [semantic_tags], only records whose tags
    include one of the requested ones. *)
Theorem similar_is_scoped similarity queryVector options c r c' :
  findSimilarChatEmbeddings similarity queryVector options c = (Ok r, c') ->
  exists items,
    get r "results" = VArr items
    /\ (forall k u,
          In k ["user_id"; "session_id"; "message_type"] ->
          prop (get_or options "filters" (VObj [])) k = VStr u -> u <> "" ->
          forall item, In item items -> holds (prop item k) (VStr u))
    /\ (forall tags,
          prop (get_or options "filters" (VObj [])) "semantic_tags"
          = VArr (map VStr tags) ->
          tags <> [] ->
          forall item, In item items ->
            exists tag, In tag tags /\ holds (prop item "semantic_tags") (VStr tag)).
Proof.
  intros Hrun. eexists.
  split; [eapply findSimilarChatEmbeddings_results; exact Hrun|]. split.
  - intros k u Hk Hget Hu item Hitem.
    apply in_map_iff in Hitem as (result & <- & Hresult).
    apply ranked_is_stored in Hresult as (d & _ & Hm & ->).
    pose proof (matches_clause _ _ _ _ Hm
                  (similarity_query_equality _ _ _ Hk Hget Hu)) as Hc.
    apply eq_match_holds.
    simpl in Hk. destruct Hk as [<-|[<-|[<-|[]]]];
      (rewrite match_field; [exact Hc|reflexivity|vm_compute; tauto]).
  - intros tags Hget Hne item Hitem.
    apply in_map_iff in Hitem as (result & <- & Hresult).
    apply ranked_is_stored in Hresult as (d & _ & Hm & ->).
    pose proof (matches_clause _ _ _ _ Hm (similarity_query_tags _ _ Hget Hne))
      as Hc.
    rewrite match_field; [|reflexivity|vm_compute; tauto].
    change (field_at d "semantic_tags") with (get d "semantic_tags") in Hc.
    change (store_name "semantic_tags") with "semantic_tags".
    unfold cond_holds in Hc. cbn [forallb fst is_operator Ascii.eqb Bool.eqb andb] in Hc.
    cbn [op_holds String.eqb Ascii.eqb Bool.eqb] in Hc.
    rewrite andb_true_r in Hc.
    apply existsb_exists in Hc as (w & Hw & Hc).
    apply in_map_iff in Hw as (tag & <- & Htag).
    exists tag. split; [exact Htag|]. apply eq_match_holds, Hc.
Qed.

Lemma similar_is_scoped_witness :
  let options :=
    [ ("filters",
         VObj [ ("user_id", VStr "550e8400-e29b-41d4-a716-446655440000");
                ("semantic_tags", VArr (map VStr ["stress"; "sleep"])) ]) ] in
  exists r c' items,
    findSimilarChatEmbeddings (fun _ _ => 1%Q) (filled 768 (1 # 10)) options
      two_records = (Ok r, c')
    /\ get r "results" = VArr items
    /\ (forall item, In item items ->
          holds (prop item "user_id")
            (VStr "550e8400-e29b-41d4-a716-446655440000"))
    /\ (forall item, In item items ->
          exists tag, In tag ["stress"; "sleep"]
                      /\ holds (prop item "semantic_tags") (VStr tag)).
Proof.
  intros options.
  destruct (findSimilarChatEmbeddings (fun _ _ => 1%Q) (filled 768 (1 # 10))
              options two_records) as [[r|message] c'] eqn:Hrun;
    [|vm_compute in Hrun; discriminate Hrun].
  destruct (similar_is_scoped _ _ _ _ _ _ Hrun) as (items & Hres & Heq & Htags).
  exists r, c', items. split; [reflexivity|]. split; [exact Hres|]. split.
  - apply (Heq "user_id"); [left; reflexivity|reflexivity|discriminate].
  - apply Htags; [reflexivity|discriminate].
Defined.










Lemma min_intensity_lower_bound_witness :
  exists r c' items,
    findSimilarChatEmbeddings (fun _ _ => 1%Q) (filled 768 (1 # 10))
      (intensity_search (1 # 2)) two_records = (Ok r, c')
    /\ get r "results" = VArr items
    /\ forall item, In item items ->
         exists x, prop (prop item "emotion_context") "intensity" = VNum x
                   /\ (1 # 2 <= x)%Q.
Proof.
  destruct (findSimilarChatEmbeddings (fun _ _ => 1%Q) (filled 768 (1 # 10))
              (intensity_search (1 # 2)) two_records)
    as [[r|message] c'] eqn:Hrun; [|vm_compute in Hrun; discriminate Hrun].
  destruct (min_intensity_lower_bound _ _ (intensity_search (1 # 2)) _ _ _ (1 # 2)
              eq_refl eq_refl Hrun) as (items & Hres & Hall).
  exists r, c', items. split; [reflexivity|]. split; [exact Hres|exact Hall].
Defined.

(* ================================================================== *)
(** ** The earlier update: what it writes *)
(* ================================================================== *)

Lemma own_to_json_present k d v :
  own k d = Some v -> v <> VUndef -> own k (to_json d) = Some v.
Proof.
  induction d as [|[k0 v0] d IH]; simpl; [discriminate|].
  destruct (String.eqb_spec k k0) as [->|Hk].
  - intros H Hv. apply Some_inj in H. subst v0.
    destruct v; try contradiction; simpl; rewrite String.eqb_refl; reflexivity.
  - intros H Hv. destruct (is_undef v0); simpl; [auto|].
    destruct (String.eqb_spec k k0); [contradiction|auto].
Qed.

Lemma keys_obj_set k v o :
  keys (obj_set k v o) = if existsb (String.eqb k) (keys o) then keys o
                         else keys o ++ [k].
Proof.
  induction o as [|[k0 v0] o IH]; simpl; [reflexivity|].
  destruct (String.eqb_spec k k0) as [->|Hk]; simpl; [reflexivity|].
  rewrite IH. destruct (existsb (String.eqb k) (keys o)); reflexivity.
Qed.

Lemma obj_set_nodup k v o : NoDup (keys o) -> NoDup (keys (obj_set k v o)).
Proof.
  intros H. rewrite keys_obj_set.
  destruct (existsb (String.eqb k) (keys o)) eqn:E; [exact H|].
  apply NoDup_app. split; [exact H|]. split; [|apply NoDup_singleton].
  intros x Hx Hk. apply list_elem_of_In in Hk as [<-|[]].
  assert (Ht : existsb (String.eqb k) (keys o) = true).
  { apply existsb_exists. exists k. split; [apply list_elem_of_In, Hx|].
    apply String.eqb_refl. }
  congruence.
Qed.

Lemma to_json_nodup d : NoDup (keys d) -> NoDup (keys (to_json d)).
Proof.
  induction d as [|[k0 v0] d IH]; simpl; [auto|].
  intros H. apply NoDup_cons in H as [Hk H].
  destruct (is_undef v0); simpl; [auto|].
  apply NoDup_cons. split; [|auto].
  intros Hin. apply Hk. apply list_elem_of_In. apply list_elem_of_In in Hin.
  unfold keys, to_json in *. apply in_map_iff in Hin as (kv & <- & Hkv).
  apply filter_In in Hkv as [Hkv _]. apply in_map. exact Hkv.
Qed.

Lemma own_spread_present o1 o2 k v :
  NoDup (keys o2) -> own k o2 = Some v -> own k (spread o1 o2) = Some v.
Proof.
  unfold spread. revert o1.
  induction o2 as [|[k0 v0] o2 IH]; intros o1 Hnd H; simpl in *; [discriminate|].
  apply NoDup_cons in Hnd as [Hk0 Hnd].
  destruct (String.eqb_spec k k0) as [->|Hk].
  - apply Some_inj in H. subst v0.
    change (own k0 (spread (obj_set k0 v o1) o2) = Some v).
    rewrite own_spread_absent.
    + rewrite own_obj_set, String.eqb_refl. reflexivity.
    + apply own_none_iff. rewrite <- list_elem_of_In. exact Hk0.
  - apply IH; assumption.
Qed.

Lemma put_if_nodup cond k v o :
  NoDup (keys o) -> NoDup (keys (FieldMerge.put_if cond k v o)).
Proof.
  intros H. unfold FieldMerge.put_if. destruct cond; [apply obj_set_nodup, H|exact H].
Qed.

Lemma update_doc_nodup t x : NoDup (keys (FieldMerge.update_doc t x)).
Proof.
  unfold FieldMerge.update_doc. cbv zeta.
  repeat apply put_if_nodup. apply (bool_decide_unpack _). vm_compute. reflexivity.
Qed.

Lemma carried_defined x f : carried x f = true -> get x f <> VUndef.
Proof.
  unfold carried. intros H Hx. rewrite Hx in H.
  destruct (String.eqb f "text_length" || String.eqb f "processing_time_ms");
    discriminate H.
Qed.

(** The sparse update document has the request's value for every field the
    request carries. *)
Lemma update_doc_writes t x f :
  In f merge_fields -> carried x f = true ->
  own (store_name f) (FieldMerge.update_doc t x) = Some (get x f).
Proof.
  intros Hf Hc. unfold FieldMerge.update_doc. cbv zeta.
  rewrite !own_put_if. simpl in Hf.
  repeat (destruct Hf as [<-|Hf];
          [unfold carried in Hc;
           cbn [String.eqb Ascii.eqb Bool.eqb orb] in Hc;
           cbn [store_name String.eqb Ascii.eqb Bool.eqb andb];
           rewrite ?Hc; reflexivity|]).
  destruct Hf.
Qed.

(** X11.  The earlier revision of the update writes what the request carries:
    a carried field reads after the update as the request has it, in the
    record returned and in the store, a [text_length] of 0 included; and
    [updated_at] is the clock reading of the update. *)
Theorem merge_update_writes_carried t id x c d f :
  docs c !! id = Some d ->
  In f merge_fields ->
  carried x f = true ->
  exists r c' d',
    FieldMerge.updateChatEmbedding t id x c = (Ok r, c')
    /\ docs c' !! id = Some d'
    /\ get r f = get x f
    /\ get d' (store_name f) = get x f
    /\ get r "updated_at" = VStr t.
Proof.
  intros Hd Hf Hc. eexists _, _, _.
  split; [apply merge_update_found; exact Hd|].
  split; [apply lookup_insert_eq|].
  assert (Hwritten : forall k v,
            own k (FieldMerge.update_doc t x) = Some v -> v <> VUndef ->
            get (spread d (to_json (FieldMerge.update_doc t x))) k = v).
  { intros k v Hown Hv. unfold get.
    rewrite (own_spread_present _ _ k v); [reflexivity| |].
    - apply to_json_nodup, update_doc_nodup.
    - apply own_to_json_present; assumption. }
  assert (Hin : In f (keys (FieldMerge.to_record []))).
  { clear -Hf. vm_compute in Hf. vm_compute. tauto. }
  rewrite merge_to_record_get by exact Hin.
  rewrite merge_to_record_get by (vm_compute; tauto).
  split; [|split].
  - apply Hwritten; [apply update_doc_writes; assumption|].
    apply carried_defined, Hc.
  - apply Hwritten; [apply update_doc_writes; assumption|].
    apply carried_defined, Hc.
  - apply Hwritten; [|discriminate].
    unfold FieldMerge.update_doc. cbv zeta. rewrite !own_put_if. reflexivity.
Qed.

Lemma merge_update_writes_carried_witness :
  exists d r c' d',
    docs one_record !! "7c9e6679-7425-40de-944b-e07fc1f90ae7" = Some d
    /\ carried [ ("text_length", VNum 0) ] "text_length" = true
    /\ FieldMerge.updateChatEmbedding "2024-03-04T15:00:00.000Z"
         "7c9e6679-7425-40de-944b-e07fc1f90ae7" [ ("text_length", VNum 0) ]
         one_record = (Ok r, c')
    /\ docs c' !! "7c9e6679-7425-40de-944b-e07fc1f90ae7" = Some d'
    /\ get r "text_length" = VNum 0
    /\ get d' "text_length" = VNum 0
    /\ get r "updated_at" = VStr "2024-03-04T15:00:00.000Z".
Proof.
  destruct (docs one_record !! "7c9e6679-7425-40de-944b-e07fc1f90ae7")
    as [d|] eqn:E; [|vm_compute in E; discriminate E].
  destruct (merge_update_writes_carried "2024-03-04T15:00:00.000Z"
              "7c9e6679-7425-40de-944b-e07fc1f90ae7" [ ("text_length", VNum 0) ]
              one_record d "text_length" E
              ltac:(vm_compute; tauto) eq_refl)
    as (r & c' & d' & Hrun & Hd' & Hr & Hs & Hu).
  exists d, r, c', d'. repeat split; assumption.
Defined.

Lemma merge_update_keeps_omitted_witness :
  exists d r c' d',
    docs one_record !! "7c9e6679-7425-40de-944b-e07fc1f90ae7" = Some d
    /\ get updateData "message_content" = VUndef
    /\ FieldMerge.updateChatEmbedding "2024-03-04T15:00:00.000Z"
         "7c9e6679-7425-40de-944b-e07fc1f90ae7" updateData one_record
       = (Ok r, c')
    /\ docs c' !! "7c9e6679-7425-40de-944b-e07fc1f90ae7" = Some d'
    /\ get r "message_content" = get (FieldMerge.to_record d) "message_content"
    /\ get d' "message_content" = get d "message_content".
Proof.
  destruct (docs one_record !! "7c9e6679-7425-40de-944b-e07fc1f90ae7")
    as [d|] eqn:E; [|vm_compute in E; discriminate E].
  destruct (merge_update_keeps_omitted "2024-03-04T15:00:00.000Z"
              "7c9e6679-7425-40de-944b-e07fc1f90ae7" updateData
              one_record d "message_content" E
              ltac:(vm_compute; tauto) ltac:(discriminate) eq_refl)
    as (r & c' & d' & Hrun & Hd' & Hr & Hs).
  exists d, r, c', d'. repeat split; assumption.
Defined.

(* ================================================================== *)
(** ** The schema contract *)
(* ================================================================== *)

Section Contract.

Variable guid : string -> bool.
Variable numeric : string -> parsed.

Lemma violated_nil cond p c : violated cond p c = [] -> cond = false.
Proof. destruct cond; [discriminate|reflexivity]. Qed.

Lemma check_fields_unknown o p fields k v :
  ~ In k (map fst fields) ->
  check_fields (validate_schema guid numeric) (obj_set k v o) p fields
  = check_fields (validate_schema guid numeric) o p fields.
Proof.
  induction fields as [|[k0 [pr0 d0 s0]] fs IH]; intros Hk; [reflexivity|].
  cbn [check_fields]. rewrite IH by (intros H; apply Hk; right; exact H).
  rewrite own_obj_set.
  destruct (String.eqb_spec k0 k) as [->|_]; [|reflexivity].
  exfalso. apply Hk. left. reflexivity.
Qed.

(** X14.  A key the schema does not name has no say: setting it to anything
    changes neither the violations nor the validated value, whether the
    body is accepted stays the same, and the validated value does not
    have the key. *)
Theorem unknown_keys_are_ignored fields body k v :
  ~ In k (field_names (JObject fields)) ->
  validate_schema guid numeric (JObject fields) [] (VObj (obj_set k v body))
  = validate_schema guid numeric (JObject fields) [] (VObj body)
  /\ accepts guid numeric (JObject fields) (obj_set k v body)
     = accepts guid numeric (JObject fields) body
  /\ own k (as_obj (snd (validate_schema guid numeric (JObject fields) [] (VObj body))))
     = None.
Proof.
  intros Hk. cbn [field_names] in Hk.
  assert (Hsame : validate_schema guid numeric (JObject fields) [] (VObj (obj_set k v body))
                  = validate_schema guid numeric (JObject fields) [] (VObj body)).
  { cbn [validate_schema].
    rewrite check_fields_unknown by exact Hk. reflexivity. }
  split; [exact Hsame|]. split; [unfold accepts; rewrite Hsame; reflexivity|].
  cbn [validate_schema snd as_obj].
  apply own_none_iff. intros Hin. apply Hk. clear Hk Hsame.
  induction fields as [|[k0 [pr0 d0 s0]] fs IH]; [exact Hin|].
  cbn [check_fields] in Hin.
  destruct (check_fields (validate_schema guid numeric) body [] fs) as [es o'].
  cbn [snd] in IH. cbn [map fst].
  destruct (own k0 body) as [x|].
  - destruct (validate_schema guid numeric s0 ([] ++ [k0]) x) as [e x'].
    destruct x; try (cbn [snd keys map fst] in Hin;
                     destruct Hin as [<-|Hin]; [now left|right; auto]).
    destruct pr0, d0; cbn [snd keys map fst] in Hin;
      try (destruct Hin as [<-|Hin]; [now left|right; auto]); right; auto.
  - destruct pr0, d0; cbn [snd keys map fst] in Hin;
      try (destruct Hin as [<-|Hin]; [now left|right; auto]); right; auto.
Qed.

Lemma string_passes min max valid is_guid p v :
  fst (validate_schema guid numeric (JString min max valid is_guid) p v) = [] ->
  exists s,
    v = VStr s
    /\ (In s valid
        \/ (valid = []
            /\ s <> ""
            /\ (is_guid = true -> guid s = true)
            /\ (forall n, min = Some n -> (n <= Z.of_nat (utf16_length s))%Z)
            /\ (forall n, max = Some n -> (Z.of_nat (utf16_length s) <= n)%Z))).
Proof.
  cbn [validate_schema].
  destruct v as [| | | |s| |]; cbn [fst];
    try (intros H; apply app_eq_nil in H as [_ H]; discriminate H).
  exists s. split; [reflexivity|].
  destruct (existsb (String.eqb s) valid) eqn:Hlisted.
  { left. apply existsb_exists in Hlisted as (y & Hy & Heq).
    apply String.eqb_eq in Heq. subst y. exact Hy. }
  right. destruct (String.eqb_spec s "") as [->|Hne]; cbn [fst] in H.
  { apply app_eq_nil in H as [_ H]. discriminate H. }
  apply app_eq_nil in H as [Honly H]. unfold string_rules in H.
  apply app_eq_nil in H as [H3 H]. apply app_eq_nil in H as [H4 H5].
  apply violated_nil in Honly, H3, H4, H5.
  split; [destruct valid; [reflexivity|discriminate Honly]|].
  split; [exact Hne|]. split.
  { intros ->. cbn [andb] in H3. apply negb_false_iff in H3. exact H3. }
  split.
  - intros n ->. apply Z.ltb_ge in H4. exact H4.
  - intros n ->. apply Z.ltb_ge in H5. exact H5.
Qed.

Lemma number_rules_pass integer min max p q :
  number_rules integer min max p q = [] ->
  unsafe q = false
  /\ (integer = true -> is_integer q = true)
  /\ (forall m, min = Some m -> (m <= q)%Q)
  /\ (forall m, max = Some m -> (q <= m)%Q).
Proof.
  unfold number_rules. destruct (unsafe q); [discriminate|]. intros H.
  apply app_eq_nil in H as [H1 H]. apply app_eq_nil in H as [H2 H3].
  apply violated_nil in H1, H2, H3.
  split; [reflexivity|]. split.
  { intros ->. cbn [andb] in H1. apply negb_false_iff in H1. exact H1. }
  split.
  - intros m ->. apply negb_false_iff, Qle_bool_iff in H2. exact H2.
  - intros m ->. apply negb_false_iff, Qle_bool_iff in H3. exact H3.
Qed.

Lemma number_passes integer min max p v :
  fst (validate_schema guid numeric (JNumber integer min max) p v) = [] ->
  exists q,
    number_read numeric v = Some q
    /\ unsafe q = false
    /\ (integer = true -> is_integer q = true)
    /\ (forall m, min = Some m -> (m <= q)%Q)
    /\ (forall m, max = Some m -> (q <= m)%Q).
Proof.
  cbn [validate_schema]. unfold number_read.
  destruct v as [| | |q|s| |]; cbn [fst]; try discriminate.
  - intros H. exists q. split; [reflexivity|].
    exact (number_rules_pass _ _ _ _ _ H).
  - destruct (numeric s) as [| |q]; cbn [fst]; try discriminate.
    intros H. exists q. split; [reflexivity|].
    exact (number_rules_pass _ _ _ _ _ H).
Qed.

Lemma boolean_passes p v :
  fst (validate_schema guid numeric JBoolean p v) = [] ->
  exists b, boolean_read v = Some b.
Proof.
  cbn [validate_schema]. unfold boolean_read.
  destruct v as [| |b| |s| |]; cbn [fst]; try discriminate.
  - eauto.
  - destruct (String.eqb (lower s) "true"); [eauto|].
    destruct (String.eqb (lower s) "false"); [eauto|discriminate].
Qed.

(** A required key of an accepted object: it is there and passes its
    schema. *)
Lemma required_field_passes o p fields k d s :
  fst (check_fields (validate_schema guid numeric) o p fields) = [] ->
  In (k, Key Required d s) fields ->
  fst (validate_schema guid numeric s (p ++ [k]) (get o k)) = [].
Proof.
  intros Hok Hin.
  destruct (check_fields_required guid numeric _ _ _ _ _ _ Hok Hin)
    as (v & Hown & Hdef).
  unfold get. rewrite Hown.
  exact (check_fields_present guid numeric _ _ _ _ _ _ _ _ Hok Hin Hown Hdef).
Qed.

(** X15.  What every accepted creation body satisfies: the message type is
    one of the three, the message content has 1 to 10000 UTF-16 units, the
    three correlating ids are GUIDs, and, each read as Joi reads it (a
    number or the text of one, a boolean or the text [true] or [false]),
    both quality scores are in [0, 1], the text length is a safe integer
    that is not negative, the processing time is not negative, and the
    temporal context has an integer hour 0..23, an integer weekday 0..6 and
    a weekend flag. *)
Theorem accepted_body_is_well_formed x :
  accepts guid numeric chatEmbeddingSchema x = true ->
  (exists s, get x "message_type" = VStr s /\ In s message_types)
  /\ (exists s, get x "message_content" = VStr s
                /\ (1 <= Z.of_nat (utf16_length s) <= 10000)%Z)
  /\ (forall k, In k ["user_id"; "entry_id"; "session_id"] ->
                exists s, get x k = VStr s /\ guid s = true)
  /\ (forall k, In k ["feature_completeness"; "confidence_score"] ->
                exists q, number_read numeric (get x k) = Some q
                          /\ (0 <= q <= 1)%Q)
  /\ (exists q, number_read numeric (get x "text_length") = Some q
                /\ is_integer q = true
                /\ (0 <= q <= max_safe_integer)%Q)
  /\ (exists q, number_read numeric (get x "processing_time_ms") = Some q
                /\ (0 <= q)%Q)
  /\ (exists hour day weekend,
        number_read numeric (prop (get x "temporal_context") "hour_of_day")
        = Some hour
        /\ is_integer hour = true /\ (0 <= hour <= 23)%Q
        /\ number_read numeric (prop (get x "temporal_context") "day_of_week")
           = Some day
        /\ is_integer day = true /\ (0 <= day <= 6)%Q
        /\ boolean_read (prop (get x "temporal_context") "is_weekend")
           = Some weekend).
Proof.
  intros Hacc. apply accepts_fields in Hacc.
  assert (Hreq : forall k s,
            In (k, required s)
               (match chatEmbeddingSchema with JObject fs => fs | _ => [] end) ->
            fst (validate_schema guid numeric s [k] (get x k)) = []).
  { intros k s Hin. exact (required_field_passes _ _ _ _ _ _ Hacc Hin). }
  split.
  { destruct (string_passes _ _ _ _ _ _
                (Hreq "message_type" _ ltac:(repeat first [left; reflexivity | right])))
      as (s & Hs & [Hv|(Hv & _)]); [eauto|discriminate Hv]. }
  split.
  { destruct (string_passes _ _ _ _ _ _
                (Hreq "message_content" _ ltac:(repeat first [left; reflexivity | right])))
      as (s & Hs & [[]|(_ & _ & _ & Hmin & Hmax)]).
    exists s. split; [exact Hs|]. split; [apply Hmin|apply Hmax]; reflexivity. }
  split.
  { intros k Hk. simpl in Hk.
    destruct Hk as [<-|[<-|[<-|[]]]];
      (match goal with
       | |- exists s, get x ?k = _ /\ _ =>
           destruct (string_passes _ _ _ _ _ _
                       (Hreq k _ ltac:(repeat first [left; reflexivity | right])))
             as (s & Hs & [[]|(_ & _ & Hg & _)])
       end; exists s; split; [exact Hs|apply Hg; reflexivity]). }
  split.
  { intros k Hk. simpl in Hk.
    destruct Hk as [<-|[<-|[]]];
      (match goal with
       | |- exists q, number_read numeric (get x ?k) = _ /\ _ =>
           destruct (number_passes _ _ _ _ _
                       (Hreq k _ ltac:(repeat first [left; reflexivity | right])))
             as (q & Hq & _ & _ & Hmin & Hmax)
       end; exists q; split; [exact Hq|];
       split; [apply Hmin|apply Hmax]; reflexivity). }
  split.
  { destruct (number_passes _ _ _ _ _
                (Hreq "text_length" _ ltac:(repeat first [left; reflexivity | right])))
      as (q & Hq & Hsafe & Hint & Hmin & _).
    exists q. split; [exact Hq|]. split; [apply Hint; reflexivity|].
    split; [apply Hmin; reflexivity|].
    unfold unsafe in Hsafe. apply orb_false_iff in Hsafe as [Hsafe _].
    apply negb_false_iff, Qle_bool_iff in Hsafe. exact Hsafe. }
  split.
  { destruct (number_passes _ _ _ _ _
                (Hreq "processing_time_ms" _ ltac:(repeat first [left; reflexivity | right])))
      as (q & Hq & _ & _ & Hmin & _).
    exists q. split; [exact Hq|]. apply Hmin. reflexivity. }
  pose proof (Hreq "temporal_context" _
                ltac:(repeat first [left; reflexivity | right])) as Htc.
  destruct (object_passes guid numeric _ _ _ Htc) as (tc & Heq). rewrite Heq in *.
  cbn [validate_schema fst temporalContextSchema] in Htc. cbn [prop].
  destruct (number_passes _ _ _ _ _
              (required_field_passes _ _ _ "hour_of_day" _ _ Htc
                 ltac:(repeat first [left; reflexivity | right])))
    as (hour & Hh & _ & Hhi & Hhmin & Hhmax).
  destruct (number_passes _ _ _ _ _
              (required_field_passes _ _ _ "day_of_week" _ _ Htc
                 ltac:(repeat first [left; reflexivity | right])))
    as (day & Hd & _ & Hdi & Hdmin & Hdmax).
  destruct (boolean_passes _ _
              (required_field_passes _ _ _ "is_weekend" _ _ Htc
                 ltac:(repeat first [left; reflexivity | right])))
    as (weekend & Hw).
  exists hour, day, weekend.
  split; [exact Hh|]. split; [apply Hhi; reflexivity|].
  split; [split; [apply Hhmin|apply Hhmax]; reflexivity|].
  split; [exact Hd|]. split; [apply Hdi; reflexivity|].
  split; [split; [apply Hdmin|apply Hdmax]; reflexivity|exact Hw].
Qed.

End Contract.

Lemma unknown_keys_are_ignored_witness :
  ~ In "client_note" (field_names chatEmbeddingSchema)
  /\ accepts canonical_guid decimal_digits chatEmbeddingSchema
       (obj_set "client_note" (VStr "draft") sampleEmbedding)
     = accepts canonical_guid decimal_digits chatEmbeddingSchema sampleEmbedding.
Proof.
  assert (H : ~ In "client_note" (field_names chatEmbeddingSchema)).
  { rewrite <- list_elem_of_In. apply (bool_decide_unpack _). vm_compute. reflexivity. }
  split; [exact H|].
  exact (proj1 (proj2 (unknown_keys_are_ignored canonical_guid decimal_digits
                         (match chatEmbeddingSchema with
                          | JObject fields => fields
                          | _ => []
                          end)
                         sampleEmbedding "client_note" (VStr "draft") H))).
Defined.

Lemma accepted_body_is_well_formed_witness :
  accepts canonical_guid decimal_digits chatEmbeddingSchema textualEmbedding = true
  /\ get textualEmbedding "text_length" = VStr "45"
  /\ exists q,
       number_read decimal_digits (get textualEmbedding "text_length") = Some q
       /\ is_integer q = true
       /\ (0 <= q <= max_safe_integer)%Q.
Proof.
  assert (H : accepts canonical_guid decimal_digits chatEmbeddingSchema
                textualEmbedding = true).
  { vm_compute. reflexivity. }
  split; [exact H|]. split; [reflexivity|].
  exact (proj1 (proj2 (proj2 (proj2 (proj2
           (accepted_body_is_well_formed canonical_guid decimal_digits
              textualEmbedding H)))))).
Defined.

(* ================================================================== *)
(** ** The environment check *)
(* ================================================================== *)

Lemma missingVars_spec env varName :
  In varName (missingVars env)
  <-> In varName requiredVars
      /\ (env !! varName = None \/ env !! varName = Some "").
Proof.
  unfold missingVars. rewrite filter_In. unfold env_get.
  split; intros [Hin H]; (split; [exact Hin|]).
  - destruct (env !! varName) as [s|]; [right|now left].
    cbn [truthy] in H. rewrite negb_involutive in H.
    apply String.eqb_eq in H. subst s. reflexivity.
  - destruct H as [->| ->]; reflexivity.
Qed.

(** X23.  The configuration is accepted exactly when each of the four required
    variables is set to a non-empty string; a variable set to the empty
    string counts as missing. *)
Theorem validateConfig_accepts_iff env :
  validateConfig env = Ok tt
  <-> forall varName, In varName requiredVars ->
                      exists s, env !! varName = Some s /\ s <> "".
Proof.
  unfold validateConfig. split.
  - intros H varName Hin.
    destruct (missingVars env) as [|v l] eqn:E; [|discriminate H].
    destruct (env !! varName) as [s|] eqn:Ev.
    + exists s. split; [reflexivity|]. intros ->.
      assert (Hm : In varName (missingVars env))
        by (apply missingVars_spec; auto).
      rewrite E in Hm. destruct Hm.
    + assert (Hm : In varName (missingVars env))
        by (apply missingVars_spec; auto).
      rewrite E in Hm. destruct Hm.
  - intros H. destruct (missingVars env) as [|v l] eqn:E; [reflexivity|].
    exfalso.
    assert (Hm : In v (missingVars env)) by (rewrite E; now left).
    apply missingVars_spec in Hm as [Hin Hm].
    destruct (H v Hin) as (s & Hs & Hne).
    destruct Hm as [Hm|Hm]; rewrite Hs in Hm; [discriminate|].
    apply Some_inj in Hm. contradiction.
Qed.

(** X24.  A refused configuration names every variable that is missing: the
    missing ones are the required ones that are unset or empty, in the
    order of the list, and none of them is left out of the message. *)
Theorem validateConfig_reports_missing env :
  (forall varName,
      In varName (missingVars env)
      <-> In varName requiredVars
          /\ (env !! varName = None \/ env !! varName = Some ""))
  /\ (missingVars env <> [] ->
      exists before rest,
        validateConfig env
        = Throw (before +:+ String.concat ", " (missingVars env) +:+ rest)).
Proof.
  split; [intros varName; apply missingVars_spec|].
  intros Hne. unfold validateConfig.
  destruct (missingVars env) as [|v l]; [contradiction|].
  cbn [length Nat.ltb Nat.leb]. eexists _, _. reflexivity.
Qed.

(* ================================================================== *)
(** ** The batch insert *)
(* ================================================================== *)

Lemma insert_all_fresh documents m :
  NoDup (map id_of documents) ->
  (forall d, In d documents -> m !! id_of d = None) ->
  fst (insert_all documents m) = None
  /\ (forall d, In d documents ->
                snd (insert_all documents m) !! id_of d = Some (to_json d))
  /\ (forall id, ~ In id (map id_of documents) ->
                 snd (insert_all documents m) !! id = m !! id).
Proof.
  revert m. induction documents as [|d rest IH]; intros m Hnd Hfresh.
  - cbn [insert_all fst snd]. split; [reflexivity|].
    split; [intros d []|reflexivity].
  - cbn [insert_all]. rewrite (Hfresh d (or_introl eq_refl)).
    cbn [map] in Hnd. apply NoDup_cons in Hnd as [Hd Hnd].
    rewrite list_elem_of_In in Hd.
    destruct (IH (<[id_of d := to_json d]> m) Hnd) as (Hnone & Hin & Hout).
    { intros d' Hd'. rewrite lookup_insert_ne; [apply Hfresh; now right|].
      intros Heq. apply Hd. rewrite Heq. apply in_map. exact Hd'. }
    split; [exact Hnone|]. split.
    + intros d' [<-|Hd']; [|apply Hin, Hd'].
      rewrite (Hout _ Hd). apply lookup_insert_eq.
    + intros id Hid. rewrite Hout by (intros H; apply Hid; right; exact H).
      apply lookup_insert_ne. intros Heq. apply Hid. left. exact Heq.
Qed.

Lemma insertMany_fresh documents c :
  fst (insert_all documents (docs c)) = None ->
  insertMany documents c
  = (Ok [ ("insertedCount", VNum (inject_Z (Z.of_nat (length documents))));
          ("insertedIds", VArr (map (fun d => VStr (id_of d)) documents)) ],
     after ["insertMany"] (snd (insert_all documents (docs c))) c).
Proof.
  intros H. unfold insertMany, bind, called.
  cbn beta iota zeta delta [docs calls fst snd].
  destruct (insert_all documents (docs c)) as [[taken|] m];
    [discriminate H|reflexivity].
Qed.

Lemma imap_index {A B} (g : nat -> B) (l : list A) :
  imap (fun i _ => g i) l = map g (seq 0 (length l)).
Proof.
  revert g. induction l as [|x l IH]; intros g; [reflexivity|].
  cbn [imap length seq map]. f_equal.
  rewrite <- seq_shift, map_map. exact (IH (fun i => g (S i))).
Qed.

Lemma batch_documents_ids effects l :
  map id_of (batch_documents effects l) = batch_ids effects (length l).
Proof.
  unfold batch_documents, batch_ids.
  change (map id_of ?x) with (id_of <$> x). rewrite fmap_imap.
  exact (imap_index (fun i => stamp_uuid (effects i)) l).
Qed.

Lemma batch_documents_In effects l d :
  In d (batch_documents effects l)
  <-> exists i e, l !! i = Some e /\ d = batch_document effects i e.
Proof.
  unfold batch_documents. rewrite <- list_elem_of_In, elem_of_lookup_imap.
  split; intros (i & e & H1 & H2); exists i, e; split; assumption.
Qed.

Lemma batch_ids_nodup effects n :
  (forall i j, i < n -> j < n ->
               stamp_uuid (effects i) = stamp_uuid (effects j) -> i = j) ->
  NoDup (batch_ids effects n).
Proof.
  intros Hinj. unfold batch_ids.
  apply (NoDup_fmap_2_strong (fun i => stamp_uuid (effects i))).
  - intros i j Hi Hj. rewrite !list_elem_of_In, !in_seq in *.
    apply Hinj; lia.
  - apply NoDup_ListNoDup, seq_NoDup.
Qed.


(** The store after a batch with distinct unused ids. *)
Lemma batch_store_fresh effects embeddingsArray m :
  (forall i j, i < length embeddingsArray -> j < length embeddingsArray ->
               stamp_uuid (effects i) = stamp_uuid (effects j) -> i = j) ->
  (forall i, i < length embeddingsArray -> m !! stamp_uuid (effects i) = None) ->
  fst (insert_all (batch_documents effects embeddingsArray) m) = None
  /\ (forall i e, embeddingsArray !! i = Some e ->
        snd (insert_all (batch_documents effects embeddingsArray) m)
          !! stamp_uuid (effects i)
        = Some (to_json (batch_document effects i e)))
  /\ (forall id, ~ In id (batch_ids effects (length embeddingsArray)) ->
        snd (insert_all (batch_documents effects embeddingsArray) m) !! id
        = m !! id).
Proof.
  intros Hinj Hfresh.
  destruct (insert_all_fresh (batch_documents effects embeddingsArray) m)
    as (Hnone & Hin & Hout).
  { rewrite batch_documents_ids. apply batch_ids_nodup, Hinj. }
  { intros d Hd. apply batch_documents_In in Hd as (i & e & Hi & ->).
    apply Hfresh. apply lookup_lt_Some in Hi. exact Hi. }
  split; [exact Hnone|]. split.
  - intros i e Hi.
    exact (Hin (batch_document effects i e)
             (proj2 (batch_documents_In _ _ _)
                (ex_intro _ i (ex_intro _ e (conj Hi eq_refl))))).
  - intros id Hid. apply Hout. rewrite batch_documents_ids. exact Hid.
Qed.

(** How the batch runs when the store refuses nothing. *)
Lemma createChatEmbeddingsBatch_runs effects embeddingsArray c :
  fst (insert_all (batch_documents effects embeddingsArray) (docs c)) = None ->
  createChatEmbeddingsBatch effects embeddingsArray c
  = (Ok [ ("inserted_count",
             VNum (inject_Z (Z.of_nat (length embeddingsArray))));
          ("inserted_ids",
             VArr (map VStr (batch_ids effects (length embeddingsArray))));
          ("documents",
             VArr (map (fun doc =>
                          VObj [ ("id", get doc "_id");
                                 ("user_id", get doc "user_id");
                                 ("entry_id", get doc "entry_id");
                                 ("message_content", get doc "message_content");
                                 ("message_type", get doc "message_type");
                                 ("timestamp", get doc "timestamp");
                                 ("session_id", get doc "session_id") ])
                       (batch_documents effects embeddingsArray))) ],
     after ["insertMany"]
       (snd (insert_all (batch_documents effects embeddingsArray) (docs c))) c).
Proof.
  intros Hnone.
  unfold createChatEmbeddingsBatch, try_catch, bind. cbv zeta.
  rewrite (insertMany_fresh _ _ Hnone). unfold ret.
  cbn [get own String.eqb Ascii.eqb Bool.eqb].
  rewrite <- batch_documents_ids, map_map.
  unfold batch_documents at 1. rewrite length_imap. reflexivity.
Qed.

(** X18.  A batch whose generated ids are distinct and not in use is inserted
    whole, with one call to the store: the count is the number of items,
    the ids are the generated ones in the order of the items, item [i] is
    stored under its id as the document creation would store, and every
    other document is left as it was. *)
Theorem batch_inserts_every_item effects embeddingsArray c :
  (forall i j, i < length embeddingsArray -> j < length embeddingsArray ->
               stamp_uuid (effects i) = stamp_uuid (effects j) -> i = j) ->
  (forall i, i < length embeddingsArray ->
             docs c !! stamp_uuid (effects i) = None) ->
  exists r c',
    createChatEmbeddingsBatch effects embeddingsArray c = (Ok r, c')
    /\ get r "inserted_count"
       = VNum (inject_Z (Z.of_nat (length embeddingsArray)))
    /\ get r "inserted_ids"
       = VArr (map VStr (batch_ids effects (length embeddingsArray)))
    /\ calls c' = calls c ++ ["insertMany"]
    /\ (forall i e, embeddingsArray !! i = Some e ->
          docs c' !! stamp_uuid (effects i)
          = Some (to_json (batch_document effects i e)))
    /\ (forall id, ~ In id (batch_ids effects (length embeddingsArray)) ->
          docs c' !! id = docs c !! id).
Proof.
  intros Hinj Hfresh.
  destruct (batch_store_fresh effects embeddingsArray (docs c) Hinj Hfresh)
    as (Hnone & Hin & Hout).
  eexists _, _.
  split; [exact (createChatEmbeddingsBatch_runs _ _ _ Hnone)|].
  split; [reflexivity|]. split; [reflexivity|]. split; [reflexivity|].
  cbn [after docs]. split; [exact Hin|exact Hout].
Qed.

Lemma batch_inserts_every_item_witness :
  exists r c',
    createChatEmbeddingsBatch
      (stamps ["7c9e6679-7425-40de-944b-e07fc1f90ae7";
               "0b0e3d4c-5f6a-4b7c-8d9e-0a1b2c3d4e5f"])
      [sampleEmbedding; plainEmbedding] empty_collection = (Ok r, c')
    /\ get r "inserted_count" = VNum 2.
Proof.
  destruct (batch_inserts_every_item
              (stamps ["7c9e6679-7425-40de-944b-e07fc1f90ae7";
                       "0b0e3d4c-5f6a-4b7c-8d9e-0a1b2c3d4e5f"])
              [sampleEmbedding; plainEmbedding] empty_collection)
    as (r & c' & Hrun & Hcount & _).
  - intros i j Hi Hj. cbn [length] in Hi, Hj.
    destruct i as [|[|i]]; destruct j as [|[|j]];
      try lia; try reflexivity; discriminate.
  - intros i _. apply lookup_empty.
  - exists r, c'. split; [exact Hrun|exact Hcount].
Defined.

(* ================================================================== *)
(** ** The batch route *)
(* ================================================================== *)

Lemma schema_induction (P : schema -> Prop) :
  (forall min max valid is_guid, P (JString min max valid is_guid)) ->
  (forall integer min max, P (JNumber integer min max)) ->
  P JBoolean ->
  (forall items len, P items -> P (JArray items len)) ->
  (forall fields,
      Forall (fun kf => match snd kf with Key _ _ s => P s end) fields ->
      P (JObject fields)) ->
  forall s, P s.
Proof.
  intros HS HN HB HA HO. fix IH 1.
  intros [min max valid is_guid|integer min max| |items len|fields].
  - apply HS.
  - apply HN.
  - exact HB.
  - apply HA, IH.
  - apply HO.
    refine ((fix go (l : list (string * key))
               : Forall (fun kf => match snd kf with Key _ _ s => P s end) l :=
               match l with
               | [] => List.Forall_nil _
               | (k, Key pr d s) :: l' =>
                   List.Forall_cons _ (k, Key pr d s) l' (IH s) (go l')
               end) fields).
Qed.

Section BatchRoute.

Variable guid : string -> bool.
Variable numeric : string -> parsed.
Variable message_of : detail -> string.

Lemma violated_at cond p p' c : violated cond p c = [] -> violated cond p' c = [].
Proof. intros H. apply violated_nil in H. subst cond. reflexivity. Qed.

Lemma number_rules_at integer min max p p' q :
  number_rules integer min max p q = [] ->
  number_rules integer min max p' q = [].
Proof.
  unfold number_rules. destruct (unsafe q); [discriminate|]. intros H.
  apply app_eq_nil in H as [H1 H]. apply app_eq_nil in H as [H2 H3].
  rewrite (violated_at _ _ p' _ H1), (violated_at _ _ p' _ H2),
    (violated_at _ _ p' _ H3). reflexivity.
Qed.

Lemma string_rules_at min max is_guid p p' str :
  string_rules guid min max is_guid p str = [] ->
  string_rules guid min max is_guid p' str = [].
Proof.
  unfold string_rules. intros H.
  apply app_eq_nil in H as [H1 H]. apply app_eq_nil in H as [H2 H3].
  rewrite (violated_at _ _ p' _ H1), (violated_at _ _ p' _ H2),
    (violated_at _ _ p' _ H3). reflexivity.
Qed.

(** Whether a value passes a schema does not depend on where the value
    sits. *)
Lemma passes_anywhere s :
  forall p p' v,
    fst (validate_schema guid numeric s p v) = [] ->
    fst (validate_schema guid numeric s p' v) = [].
Proof.
  induction s as [min max valid is_guid|integer min max| |items len IH|fields IH]
    using schema_induction; intros p p' v H.
  - cbn [validate_schema] in *.
    destruct v as [| | | |str| |]; cbn [fst] in *;
      try (apply app_eq_nil in H as [_ H]; discriminate H).
    destruct (existsb (String.eqb str) valid); [reflexivity|].
    destruct (String.eqb str ""); cbn [fst] in *.
    + apply app_eq_nil in H as [_ H]. discriminate H.
    + apply app_eq_nil in H as [H1 H2].
      rewrite (violated_at _ _ p' _ H1), (string_rules_at _ _ _ _ p' _ H2).
      reflexivity.
  - cbn [validate_schema] in *.
    destruct v as [| | |q|str| |]; cbn [fst] in *; try discriminate H.
    + exact (number_rules_at _ _ _ _ p' _ H).
    + destruct (numeric str) as [| |q]; cbn [fst] in *; try discriminate H.
      exact (number_rules_at _ _ _ _ p' _ H).
  - cbn [validate_schema] in *.
    destruct v as [| |b| |str| |]; cbn [fst] in *; try discriminate H;
      [reflexivity|].
    destruct (String.eqb (lower str) "true"); [reflexivity|].
    destruct (String.eqb (lower str) "false"); [reflexivity|discriminate H].
  - destruct v as [| | | | |l|]; cbn [validate_schema fst] in *; try discriminate H.
    apply app_eq_nil in H as [H1 H2].
    rewrite (violated_at _ _ p' _ H2), app_nil_r. clear H2.
    generalize dependent 0%nat.
    induction l as [|x l IHl]; intros i H1; [reflexivity|].
    cbn [check_items] in *.
    destruct (validate_schema guid numeric items (p ++ [pretty i]) x) as [e x'] eqn:Ex.
    destruct (check_items (validate_schema guid numeric) items p (S i) l) as [es l''] eqn:El.
    cbn [fst] in H1. apply app_eq_nil in H1 as [-> ->].
    pose proof (IH (p ++ [pretty i]) (p' ++ [pretty i]) x) as Hx.
    rewrite Ex in Hx. specialize (Hx eq_refl).
    destruct (validate_schema guid numeric items (p' ++ [pretty i]) x) as [e2 x2].
    cbn [fst] in Hx. subst e2.
    specialize (IHl (S i)). rewrite El in IHl. specialize (IHl eq_refl).
    destruct (check_items (validate_schema guid numeric) items p' (S i) l) as [es2 l2].
    cbn [fst] in IHl. subst es2. reflexivity.
  - destruct v as [| | | | | |o]; cbn [validate_schema fst] in *; try discriminate H.
    induction fields as [|[k [pr d s]] fields IHf]; [reflexivity|].
    apply Forall_cons in IH as [IHs IH]. cbn [snd] in IHs.
    specialize (IHf IH). cbn [check_fields] in *.
    destruct (check_fields (validate_schema guid numeric) o p fields) as [es o1].
    destruct (check_fields (validate_schema guid numeric) o p' fields) as [es2 o2].
    cbn [fst] in IHf.
    assert (Hes : es = [] /\
                  forall x, own k o = Some x -> x <> VUndef ->
                            fst (validate_schema guid numeric s (p ++ [k]) x) = []).
    { destruct (own k o) as [x|].
      - destruct (validate_schema guid numeric s (p ++ [k]) x) as [e x'] eqn:Ev.
        destruct x; try (cbn [fst] in H; apply app_eq_nil in H as [-> ->];
                         split; [reflexivity|]; intros ? Heq _;
                         apply Some_inj in Heq; subst; rewrite Ev; reflexivity).
        destruct pr, d; cbn [fst] in H; try discriminate H; subst;
          (split; [reflexivity|]; intros ? Heq Hx; apply Some_inj in Heq;
           subst; contradiction).
      - destruct pr, d; cbn [fst] in H; try discriminate H; subst;
          (split; [reflexivity|]; intros ? Heq; discriminate Heq). }
    destruct Hes as [-> Hhead]. rewrite (IHf eq_refl).
    destruct (own k o) as [x|] eqn:Hown.
    + assert (Hp' : x <> VUndef ->
                    fst (validate_schema guid numeric s (p' ++ [k]) x) = []).
      { intros Hx. apply (IHs (p ++ [k])). apply Hhead; [reflexivity|exact Hx]. }
      destruct (validate_schema guid numeric s (p' ++ [k]) x) as [e x'].
      destruct x; try (cbn [fst] in *; rewrite Hp' by discriminate; reflexivity).
      destruct pr, d; cbn [fst] in *; try discriminate H; reflexivity.
    + destruct pr, d; cbn [fst] in *; try discriminate H; reflexivity.
Qed.

Lemma check_items_pass s p l i :
  fst (check_items (validate_schema guid numeric) s p i l) = []
  <-> forall item, In item l -> fst (validate_schema guid numeric s [] item) = [].
Proof.
  revert i. induction l as [|x l IH]; intros i.
  - cbn [check_items fst]. split; [intros _ item []|reflexivity].
  - cbn [check_items].
    destruct (validate_schema guid numeric s (p ++ [pretty i]) x) as [e x'] eqn:Ex.
    specialize (IH (S i)).
    destruct (check_items (validate_schema guid numeric) s p (S i) l) as [es l'].
    cbn [fst] in *. split.
    + intros H. apply app_eq_nil in H as [-> ->].
      intros item [<-|Hin]; [|apply IH; [reflexivity|exact Hin]].
      apply (passes_anywhere s (p ++ [pretty i])). rewrite Ex. reflexivity.
    + intros H.
      assert (He : e = []).
      { pose proof (passes_anywhere s [] (p ++ [pretty i]) x
                      (H x (or_introl eq_refl))) as Hx.
        rewrite Ex in Hx. exact Hx. }
      rewrite He, (proj2 IH) by (intros item Hin; apply H; now right).
      reflexivity.
Qed.

Lemma passes_accepts s item :
  fst (validate_schema guid numeric s [] item) = [] ->
  (exists fields, s = JObject fields) ->
  exists o, item = VObj o /\ accepts guid numeric s o = true.
Proof.
  intros H [fields ->].
  destruct (object_passes guid numeric _ _ _ H) as [o ->].
  exists o. split; [reflexivity|]. unfold accepts. rewrite H. reflexivity.
Qed.

Lemma batchSchema_details_nil body :
  batchSchema_details guid numeric body = []
  <-> exists l,
        get body "embeddings" = VArr l
        /\ 1 <= length l <= 50
        /\ forall item, In item l ->
             exists o, item = VObj o
                       /\ accepts guid numeric chatEmbeddingSchema o = true.
Proof.
  unfold batchSchema_details, get. split.
  - intros H. destruct (own "embeddings" body) as [[| | | | |l|]|];
      try discriminate H.
    apply app_eq_nil in H as [Hitems H]. apply app_eq_nil in H as [Hmin Hmax].
    apply violated_nil in Hmin, Hmax.
    apply Nat.ltb_ge in Hmin, Hmax.
    exists l. split; [reflexivity|]. split; [lia|].
    intros item Hin. apply passes_accepts; [|unfold chatEmbeddingSchema; eauto].
    exact (proj1 (check_items_pass _ _ _ _) Hitems item Hin).
  - intros (l & Hl & [Hmin Hmax] & Hitems).
    destruct (own "embeddings" body) as [v|]; [|discriminate Hl]. subst v.
    rewrite (proj2 (check_items_pass chatEmbeddingSchema ["embeddings"] l 0)).
    + apply Nat.ltb_ge in Hmin. apply Nat.ltb_ge in Hmax.
      rewrite Hmin, Hmax. reflexivity.
    + intros item Hin. destruct (Hitems item Hin) as (o & -> & Hacc).
      unfold accepts in Hacc.
      destruct (fst (validate_schema guid numeric chatEmbeddingSchema [] (VObj o)));
        [reflexivity|discriminate Hacc].
Qed.

Lemma post_batch_refused effects body c :
  batchSchema_details guid numeric body <> [] ->
  exists message,
    post_batch guid numeric message_of effects body c
    = (Json 400 [ ("success", VBool false);
                  ("error", VStr "Validation Error");
                  ("details", VStr message) ], c).
Proof.
  intros H. unfold post_batch.
  destruct (batchSchema_details guid numeric body) as [|e es]; [contradiction|].
  eexists. reflexivity.
Qed.

End BatchRoute.

(** X19.  The batch is checked as a whole before anything is written: unless
    [embeddings] is an array of 1 to 50 items, each of which the creation
    schema accepts on its own, the answer is 400 and the collection is not
    touched, not even read. *)
Theorem batch_is_refused_as_a_whole guid numeric message_of effects body c :
  (exists l,
      get body "embeddings" = VArr l
      /\ 1 <= length l <= 50
      /\ forall item, In item l ->
           exists o, item = VObj o /\ accepts guid numeric chatEmbeddingSchema o = true)
  \/ (exists message,
        post_batch guid numeric message_of effects body c
        = (Json 400 [ ("success", VBool false);
                      ("error", VStr "Validation Error");
                      ("details", VStr message) ], c)).
Proof.
  destruct (batchSchema_details guid numeric body) as [|e es] eqn:E.
  - left. apply (batchSchema_details_nil guid numeric). exact E.
  - right. apply post_batch_refused. rewrite E. discriminate.
Qed.

(** X20.  A batch of 1 to 50 items that the creation schema accepts one by one,
    with distinct unused ids, is answered 201: every item is stored as its
    own creation would store it, and the message counts the items. *)
Theorem accepted_batch_is_created guid numeric message_of effects body l c :
  get body "embeddings" = VArr l ->
  1 <= length l <= 50 ->
  (forall item, In item l ->
     exists o, item = VObj o /\ accepts guid numeric chatEmbeddingSchema o = true) ->
  (forall i j, i < length l -> j < length l ->
               stamp_uuid (effects i) = stamp_uuid (effects j) -> i = j) ->
  (forall i, i < length l -> docs c !! stamp_uuid (effects i) = None) ->
  exists data c',
    post_batch guid numeric message_of effects body c
    = (Json 201 [ ("success", VBool true);
                  ("data", VObj data);
                  ("message",
                     VStr ("Successfully created "
                           +:+ pretty (Z.of_nat (length l))
                           +:+ " chat embeddings")) ], c')
    /\ get data "inserted_count" = VNum (inject_Z (Z.of_nat (length l)))
    /\ (forall i item, l !! i = Some item ->
          docs c' !! stamp_uuid (effects i)
          = Some (to_json (batch_document effects i (as_obj item))))
    /\ (forall id, ~ In id (batch_ids effects (length l)) ->
          docs c' !! id = docs c !! id).
Proof.
  intros Hl Hlen Hitems Hinj Hfresh.
  assert (Hnil : batchSchema_details guid numeric body = []).
  { apply batchSchema_details_nil. exists l. auto. }
  destruct (batch_store_fresh effects (map as_obj l) (docs c))
    as (Hnone & Hin & Hout).
  { rewrite length_map. exact Hinj. }
  { rewrite length_map. exact Hfresh. }
  rewrite length_map in Hout.
  eexists _, _. split.
  { unfold post_batch. rewrite Hnil, Hl.
    rewrite (createChatEmbeddingsBatch_runs _ _ _ Hnone).
    cbn [get own String.eqb Ascii.eqb Bool.eqb].
    unfold count_text. rewrite Qfloor_Z, length_map. reflexivity. }
  split; [reflexivity|].
  cbn [after docs]. split; [|exact Hout].
  intros i item Hi. apply Hin.
  change (map as_obj l) with (as_obj <$> l). rewrite list_lookup_fmap, Hi.
  reflexivity.
Qed.

Lemma accepted_batch_is_created_witness :
  exists data c' d',
    post_batch canonical_guid decimal_digits render
      (stamps ["7c9e6679-7425-40de-944b-e07fc1f90ae7";
               "0b0e3d4c-5f6a-4b7c-8d9e-0a1b2c3d4e5f"])
      [ ("embeddings", VArr [VObj sampleEmbedding; VObj textualEmbedding]) ]
      empty_collection
    = (Json 201 [ ("success", VBool true);
                  ("data", VObj data);
                  ("message", VStr "Successfully created 2 chat embeddings") ],
       c')
    /\ get data "inserted_count" = VNum 2
    /\ docs c' !! "0b0e3d4c-5f6a-4b7c-8d9e-0a1b2c3d4e5f" = Some d'
    /\ get d' "text_length" = VStr "45".
Proof.
  destruct (accepted_batch_is_created canonical_guid decimal_digits render
              (stamps ["7c9e6679-7425-40de-944b-e07fc1f90ae7";
                       "0b0e3d4c-5f6a-4b7c-8d9e-0a1b2c3d4e5f"])
              [ ("embeddings", VArr [VObj sampleEmbedding; VObj textualEmbedding]) ]
              [VObj sampleEmbedding; VObj textualEmbedding] empty_collection)
    as (data & c' & Hrun & Hcount & Hstored & _).
  - reflexivity.
  - cbn [length]. lia.
  - intros item [<-|[<-|[]]]; eexists; (split; [reflexivity|vm_compute; reflexivity]).
  - intros i j Hi Hj. cbn [length] in Hi, Hj.
    destruct i as [|[|i]]; destruct j as [|[|j]];
      try lia; try reflexivity; discriminate.
  - intros i _. apply lookup_empty.
  - exists data, c'. eexists. split; [exact Hrun|]. split; [exact Hcount|].
    split; [exact (Hstored 1%nat (VObj textualEmbedding) eq_refl)|].
    vm_compute. reflexivity.
Defined.

(* ================================================================== *)
(** ** The session cleanup *)
(* ================================================================== *)

(** X21.  The session cleanup deletes nothing: whatever the session id,
    the arithmetic and the collection, the listing it starts with fails on
    the count, the handler hands that error on, the delete loop is never
    entered and every document stays as it was. *)
Theorem session_cleanup_deletes_nothing js sessionId c :
  delete_session js sessionId c
  = (Next "Failed to query chat embeddings: upperBound is required",
     after ["find"; "countDocuments"] (docs c) c)
  /\ docs (snd (delete_session js sessionId c)) = docs c
  /\ ~ In "deleteOne" (skipn (length (calls c))
                         (calls (snd (delete_session js sessionId c)))).
Proof.
  assert (Hrun : delete_session js sessionId c
                 = (Next "Failed to query chat embeddings: upperBound is required",
                    after ["find"; "countDocuments"] (docs c) c)).
  { unfold delete_session. rewrite queryChatEmbeddings_refused. reflexivity. }
  rewrite Hrun. split; [reflexivity|]. split; [reflexivity|].
  cbn [snd after calls]. rewrite drop_app_length.
  intros [H|[H|[]]]; discriminate H.
Qed.

(* ================================================================== *)
(** ** The update contract against the creation contract *)
(* ================================================================== *)

Section UpdateContract.

Variable guid : string -> bool.
Variable numeric : string -> parsed.

(** An object passes an object schema when each required key is there and
    each key that is there passes its own schema. *)
Lemma check_fields_pass o p fields :
  (forall k pr d s, In (k, Key pr d s) fields ->
     match own k o with
     | None | Some VUndef => pr = Optional
     | Some v => fst (validate_schema guid numeric s (p ++ [k]) v) = []
     end) ->
  fst (check_fields (validate_schema guid numeric) o p fields) = [].
Proof.
  induction fields as [|[k [pr d s]] fields IH]; intros H; [reflexivity|].
  cbn [check_fields].
  specialize (IH (fun k' pr' d' s' Hin => H k' pr' d' s' (or_intror Hin))).
  destruct (check_fields (validate_schema guid numeric) o p fields) as [es o'].
  cbn [fst] in IH. subst es.
  specialize (H k pr d s (or_introl eq_refl)).
  destruct (own k o) as [x|].
  - destruct (validate_schema guid numeric s (p ++ [k]) x) as [e x'].
    destruct x; try (cbn [fst] in *; subst e; reflexivity).
    subst pr. destruct d; reflexivity.
  - subst pr. destruct d; reflexivity.
Qed.

(** X16.  Every body the creation schema accepts is accepted by the update
    schema: the update schema names a subset of the creation keys, with the
    same rule for each, and requires none of them. *)
Theorem creation_body_passes_the_update_schema x :
  accepts guid numeric chatEmbeddingSchema x = true ->
  accepts guid numeric updateChatEmbeddingSchema x = true.
Proof.
  intros Hacc. apply accepts_fields in Hacc.
  unfold accepts, updateChatEmbeddingSchema. cbn [validate_schema fst].
  rewrite check_fields_pass; [reflexivity|].
  intros k pr d s Hin.
  assert (Hsame : pr = Optional
                  /\ exists pr' d',
                       In (k, Key pr' d' s)
                          (match chatEmbeddingSchema with
                           | JObject fields => fields
                           | _ => []
                           end)).
  { cbn [In] in Hin. unfold optional in Hin.
    repeat (destruct Hin as [Hin|Hin];
            [inversion Hin; subst; split; [reflexivity|];
             eexists _, _; cbn; unfold required, optional, default_to;
             repeat first [left; reflexivity | right]|]).
    destruct Hin. }
  destruct Hsame as (-> & pr' & d' & Hin').
  destruct (own k x) as [v|] eqn:Hown; [|reflexivity].
  destruct v; try reflexivity;
    exact (check_fields_present guid numeric _ _ _ _ _ _ _ _ Hacc Hin' Hown
             ltac:(discriminate)).
Qed.

End UpdateContract.

Lemma creation_body_passes_the_update_schema_witness :
  accepts canonical_guid decimal_digits chatEmbeddingSchema sampleEmbedding = true
  /\ accepts canonical_guid decimal_digits updateChatEmbeddingSchema sampleEmbedding = true.
Proof.
  assert (H : accepts canonical_guid decimal_digits chatEmbeddingSchema sampleEmbedding = true)
    by (vm_compute; reflexivity).
  split; [exact H|].
  exact (creation_body_passes_the_update_schema canonical_guid decimal_digits sampleEmbedding H).
Defined.

(* ================================================================== *)
(** ** What an update writes without a check *)
(* ================================================================== *)

Section UncheckedUpdate.

Variable guid : string -> bool.
Variable numeric : string -> parsed.
Variable message_of : detail -> string.

Lemma update_schema_unnamed k :
  In k ["user_id"; "entry_id"; "session_id"; "timestamp"] ->
  ~ In k (field_names updateChatEmbeddingSchema).
Proof.
  intros Hk. cbn [In] in Hk.
  destruct Hk as [<-|[<-|[<-|[<-|[]]]]];
    rewrite <- list_elem_of_In; apply (bool_decide_unpack _);
    vm_compute; reflexivity.
Qed.

Lemma replacement_reads_body t4 t5 id e x k v :
  In k ["user_id"; "entry_id"; "session_id"; "timestamp"] ->
  (k = "timestamp" -> truthy v = true) ->
  get (replacementDocument t4 t5 id e (obj_set k v x)) k = v.
Proof.
  intros Hk Hts. cbn [In] in Hk.
  destruct Hk as [<-|[<-|[<-|[<-|[]]]]].
  - change (get (obj_set "user_id" v x) "user_id" = v).
    rewrite get_obj_set, String.eqb_refl. reflexivity.
  - change (get (obj_set "entry_id" v x) "entry_id" = v).
    rewrite get_obj_set, String.eqb_refl. reflexivity.
  - change (get (obj_set "session_id" v x) "session_id" = v).
    rewrite get_obj_set, String.eqb_refl. reflexivity.
  - change (js_or (get (obj_set "timestamp" v x) "timestamp") (VStr t4) = v).
    rewrite get_obj_set, String.eqb_refl. unfold js_or.
    rewrite (Hts eq_refl). reflexivity.
Qed.

(** X17.  The update writes [user_id], [entry_id], [session_id] and a truthy
    [timestamp] as the request body has them, although the update schema
    names none of the four: a body stays accepted whatever it holds
    there, the handler passes the body on as the client sent it, and the
    answer and the stored document carry the value. *)
Theorem update_writes_fields_the_schema_does_not_name t4 t5 id body c e k v :
  In k ["user_id"; "entry_id"; "session_id"; "timestamp"] ->
  (k = "timestamp" -> truthy v = true) ->
  accepts guid numeric updateChatEmbeddingSchema body = true ->
  docs c !! id = Some e ->
  exists updated c' d',
    put_by_id guid numeric message_of t4 t5 id (obj_set k v body) c
    = (Json 200 [ ("success", VBool true);
                  ("data", VObj updated);
                  ("message", VStr "Chat embedding updated successfully") ], c')
    /\ get updated k = v
    /\ docs c' !! id = Some d'
    /\ get d' k = v.
Proof.
  intros Hk Hts Hacc He.
  assert (Hpass : fst (validate_schema guid numeric updateChatEmbeddingSchema []
                         (VObj (obj_set k v body))) = []).
  { apply accepts_fields in Hacc.
    unfold updateChatEmbeddingSchema. cbn [validate_schema fst].
    rewrite check_fields_unknown by exact (update_schema_unnamed k Hk).
    exact Hacc. }
  eexists _, _, _. split.
  { unfold put_by_id, validate. rewrite Hpass.
    rewrite (updateChatEmbedding_found _ _ _ _ _ _ He). reflexivity. }
  assert (Hrec : In k (keys (to_record []))).
  { cbn [In] in Hk.
    destruct Hk as [<-|[<-|[<-|[<-|[]]]]];
      rewrite <- list_elem_of_In; apply (bool_decide_unpack _);
      vm_compute; reflexivity. }
  assert (Hname : store_name k = k).
  { cbn [In] in Hk. destruct Hk as [<-|[<-|[<-|[<-|[]]]]]; reflexivity. }
  split.
  { rewrite replaced_get by exact Hrec. rewrite Hname.
    apply replacement_reads_body; assumption. }
  split; [apply lookup_insert_eq|].
  rewrite get_to_json by apply replacementDocument_keys_nodup.
  apply replacement_reads_body; assumption.
Qed.

End UncheckedUpdate.

Lemma update_writes_fields_the_schema_does_not_name_witness :
  exists e updated c' d',
    docs one_record !! "7c9e6679-7425-40de-944b-e07fc1f90ae7" = Some e
    /\ put_by_id canonical_guid decimal_digits render "2024-03-04T15:00:00.000Z"
         "2024-03-04T15:00:00.000Z" "7c9e6679-7425-40de-944b-e07fc1f90ae7"
         (obj_set "user_id" (VStr "someone else") updateData) one_record
       = (Json 200 [ ("success", VBool true);
                     ("data", VObj updated);
                     ("message", VStr "Chat embedding updated successfully") ],
          c')
    /\ get updated "user_id" = VStr "someone else"
    /\ docs c' !! "7c9e6679-7425-40de-944b-e07fc1f90ae7" = Some d'
    /\ get d' "user_id" = VStr "someone else".
Proof.
  destruct (docs one_record !! "7c9e6679-7425-40de-944b-e07fc1f90ae7")
    as [e|] eqn:E; [|vm_compute in E; discriminate E].
  destruct (update_writes_fields_the_schema_does_not_name canonical_guid decimal_digits render
              "2024-03-04T15:00:00.000Z" "2024-03-04T15:00:00.000Z"
              "7c9e6679-7425-40de-944b-e07fc1f90ae7" updateData one_record e
              "user_id" (VStr "someone else"))
    as (updated & c' & d' & H).
  - left. reflexivity.
  - discriminate.
  - vm_compute. reflexivity.
  - exact E.
  - exists e, updated, c', d'. split; [reflexivity|exact H].
Defined.
